(** * A shallow embedding of [fitness.py] and the properties of its
      persistence and aggregation layer.

    The development follows the layout of the source file:
    - [Datetime]: the part of Python's [datetime.date] that the program calls
      (proleptic Gregorian ordinals, [weekday], [isoformat], [fromisoformat],
      [strptime] with the format [%Y-%m-%d], [date +/- timedelta]);
    - the utilities ([iso_week_start], [parse_date], [get_week_number_since],
      [print_progress]);
    - the SQLite tables as lists of rows in rowid order, and the statements the
      program executes on them;
    - seeding, the core operations, and the commands.

    Conventions.  SQLite [REAL] columns and Python floats are idealised as exact
    rationals ([Q]); [INTEGER] and Python ints are [Z]; [TEXT] and [str] are
    byte strings ([string]); a nullable column is an [option].  Exceptions are
    the [Raise] results of [result].  The clock is an explicit argument. *)

From Stdlib Require Import ZArith QArith Qminmax List String Ascii Bool Lia.
From Stdlib Require Import DecimalString Sorted Permutation.
Import ListNotations.

Local Open Scope string_scope.
Local Open Scope Z_scope.

(** ** Exceptions and results *)

Inductive exn : Type :=
| ValueError
| OverflowError
| ZeroDivisionError
| OperationalError
| SystemExit (code : Z).

Inductive result (A : Type) : Type :=
| Ok (a : A)
| Raise (e : exn).

Arguments Ok {A} a.
Arguments Raise {A} e.

Definition rbind {A B : Type} (r : result A) (k : A -> result B) : result B :=
  match r with
  | Ok a => k a
  | Raise e => Raise e
  end.

(** ** Python's [datetime.date] *)

Module Datetime.

(** A [date] object holds a year, a month and a day. *)
Record date : Type := mkdate { year : Z; month : Z; day : Z }.

Definition MINYEAR : Z := 1.
Definition MAXYEAR : Z := 9999.
(** [date.max.toordinal()], the ordinal of 9999-12-31. *)
Definition MAXORDINAL : Z := 3652059.

Definition is_leap (y : Z) : bool :=
  (y mod 4 =? 0) && (negb (y mod 100 =? 0) || (y mod 400 =? 0)).

Definition DAYS_IN_MONTH (m : Z) : Z :=
  match m with
  | 1 => 31 | 2 => 28 | 3 => 31 | 4 => 30 | 5 => 31 | 6 => 30
  | 7 => 31 | 8 => 31 | 9 => 30 | 10 => 31 | 11 => 30 | 12 => 31
  | _ => -1
  end.

Definition DAYS_BEFORE_MONTH (m : Z) : Z :=
  match m with
  | 1 => 0 | 2 => 31 | 3 => 59 | 4 => 90 | 5 => 120 | 6 => 151
  | 7 => 181 | 8 => 212 | 9 => 243 | 10 => 273 | 11 => 304 | 12 => 334
  | _ => -1
  end.

Definition days_before_year (y : Z) : Z :=
  let y := y - 1 in y * 365 + y / 4 - y / 100 + y / 400.

Definition days_in_month (y m : Z) : Z :=
  if (m =? 2) && is_leap y then 29 else DAYS_IN_MONTH m.

Definition days_before_month (y m : Z) : Z :=
  DAYS_BEFORE_MONTH m + (if (2 <? m) && is_leap y then 1 else 0).

Definition ymd2ord (y m d : Z) : Z :=
  days_before_year y + days_before_month y m + d.

Definition DI400Y : Z := 146097.
Definition DI100Y : Z := 36524.
Definition DI4Y : Z := 1461.

(** The inverse of [ymd2ord], as the library computes it: 400-, 100-, 4- and
    1-year cycles, then an estimate of the month that is at most one too
    large. *)
Definition ord2ymd (n : Z) : date :=
  let n := n - 1 in
  let n400 := n / DI400Y in
  let n := n mod DI400Y in
  let y := n400 * 400 + 1 in
  let n100 := n / DI100Y in
  let n := n mod DI100Y in
  let n4 := n / DI4Y in
  let n := n mod DI4Y in
  let n1 := n / 365 in
  let n := n mod 365 in
  let y := y + (n100 * 100 + n4 * 4 + n1) in
  if (n1 =? 4) || (n100 =? 4) then mkdate (y - 1) 12 31
  else
    let leapyear := (n1 =? 3) && (negb (n4 =? 24) || (n100 =? 3)) in
    let m := Z.shiftr (n + 50) 5 in
    let preceding :=
      DAYS_BEFORE_MONTH m + (if (2 <? m) && leapyear then 1 else 0) in
    if n <? preceding then
      let m := m - 1 in
      let preceding :=
        preceding - (DAYS_IN_MONTH m + (if (m =? 2) && leapyear then 1 else 0)) in
      mkdate y m (n - preceding + 1)
    else mkdate y m (n - preceding + 1).

(** The check the [date] constructor performs on its fields. *)
Definition check_date_fields (y m d : Z) : bool :=
  (MINYEAR <=? y) && (y <=? MAXYEAR) && (1 <=? m) && (m <=? 12)
  && (1 <=? d) && (d <=? days_in_month y m).

Definition valid (d : date) : Prop :=
  check_date_fields (year d) (month d) (day d) = true.

(** [date(y, m, d)] *)
Definition new_date (y m d : Z) : result date :=
  if check_date_fields y m d then Ok (mkdate y m d) else Raise ValueError.

Definition toordinal (d : date) : Z := ymd2ord (year d) (month d) (day d).

Definition fromordinal (n : Z) : date := ord2ymd n.

(** Monday is 0. *)
Definition weekday (d : date) : Z := (toordinal d + 6) mod 7.

(** Monday is 1 and Sunday is 7: [self.toordinal() % 7 or 7]. *)
Definition isoweekday (d : date) : Z :=
  let r := toordinal d mod 7 in if r =? 0 then 7 else r.

(** [d + timedelta(days=k)] *)
Definition add_days (d : date) (k : Z) : result date :=
  let o := toordinal d + k in
  if (0 <? o) && (o <=? MAXORDINAL) then Ok (fromordinal o)
  else Raise OverflowError.

(** [d - timedelta(days=k)] *)
Definition sub_days (d : date) (k : Z) : result date := add_days d (- k).

(** [(a - b).days] *)
Definition days_between (a b : date) : Z := toordinal a - toordinal b.

(** Dates compare as the tuples (year, month, day). *)
Definition compare (a b : date) : comparison :=
  match year a ?= year b with
  | Eq => match month a ?= month b with
          | Eq => day a ?= day b
          | c => c
          end
  | c => c
  end.

Definition le (a b : date) : Prop := compare a b <> Gt.

(** *** Decimal digits *)

Definition digit (k : Z) : ascii := ascii_of_N (48 + Z.to_N k).

Definition is_digit (c : ascii) : bool :=
  let n := N_of_ascii c in (48 <=? n)%N && (n <=? 57)%N.

Definition digit_val (c : ascii) : Z := Z.of_N (N_of_ascii c) - 48.

(** [%02d] and [%04d] on the ranges a valid date gives them (0..99 and
    0..9999). *)
Definition fmt02 (n : Z) : string :=
  String (digit (n / 10)) (String (digit (n mod 10)) EmptyString).

Definition fmt04 (n : Z) : string :=
  String (digit (n / 1000))
    (String (digit (n / 100 mod 10))
       (String (digit (n / 10 mod 10))
          (String (digit (n mod 10)) EmptyString))).

(** [d.isoformat()], that is ["%04d-%02d-%02d" % (year, month, day)]. *)
Definition isoformat (d : date) : string :=
  fmt04 (year d) ++ "-" ++ fmt02 (month d) ++ "-" ++ fmt02 (day d).

Definition dash : ascii := "-"%char.
Definition space : ascii := " "%char.

(** [date.fromisoformat(s)] on the extended format [YYYY-MM-DD], the only one
    this program hands it (it formats with [isoformat] whatever it later
    parses); any other string is a [ValueError] here. *)
Definition fromisoformat (s : string) : result date :=
  match s with
  | String y3 (String y2 (String y1 (String y0 (String s1
      (String m1 (String m0 (String s2
         (String d1 (String d0 EmptyString))))))))) =>
      if forallb is_digit [y3; y2; y1; y0; m1; m0; d1; d0]
         && Ascii.eqb s1 dash && Ascii.eqb s2 dash
      then new_date
             (1000 * digit_val y3 + 100 * digit_val y2
              + 10 * digit_val y1 + digit_val y0)
             (10 * digit_val m1 + digit_val m0)
             (10 * digit_val d1 + digit_val d0)
      else Raise ValueError
  | _ => Raise ValueError
  end.

(** The directive [%m]: the regular expression [1[0-2]|0[1-9]|[1-9]].
    The result is the month and the rest of the input. *)
Definition strp_month (s : string) : list (Z * string) :=
  match s with
  | String a rest =>
      (match rest with
       | String b rest' =>
           ((if Ascii.eqb a "1" && is_digit b && (digit_val b <=? 2)
             then [(10 + digit_val b, rest')] else [])
            ++ (if Ascii.eqb a "0" && is_digit b && (1 <=? digit_val b)
                then [(digit_val b, rest')] else []))%list
       | EmptyString => []
       end
       ++ (if is_digit a && (1 <=? digit_val a)
           then [(digit_val a, rest)] else []))%list
  | EmptyString => []
  end.

(** The directive [%d]: [3[0-1]|[1-2]\d|0[1-9]|[1-9]| [1-9]]. *)
Definition strp_day (s : string) : list (Z * string) :=
  match s with
  | String a rest =>
      (match rest with
       | String b rest' =>
           ((if Ascii.eqb a "3" && is_digit b && (digit_val b <=? 1)
             then [(30 + digit_val b, rest')] else [])
            ++ (if is_digit a && (1 <=? digit_val a) && (digit_val a <=? 2)
                   && is_digit b
                then [(10 * digit_val a + digit_val b, rest')] else [])
            ++ (if Ascii.eqb a "0" && is_digit b && (1 <=? digit_val b)
                then [(digit_val b, rest')] else []))%list
       | EmptyString => []
       end
       ++ (if is_digit a && (1 <=? digit_val a)
           then [(digit_val a, rest)] else [])
       ++ (match rest with
           | String b rest' =>
               if Ascii.eqb a space && is_digit b && (1 <=? digit_val b)
               then [(digit_val b, rest')] else []
           | EmptyString => []
           end))%list
  | EmptyString => []
  end.

(** [datetime.strptime(s, "%Y-%m-%d").date()] on ASCII input: the regular
    expression [(\d\d\d\d)-(%m)-(%d)] is matched at the start of [s] (the
    alternatives of a directive in order, backtracking into [%m] when what
    follows fails); input left over after the match, and fields that are not
    a date, are a [ValueError]. *)
Definition strptime_ymd (s : string) : result date :=
  match s with
  | String y3 (String y2 (String y1 (String y0 (String s1 rest)))) =>
      if forallb is_digit [y3; y2; y1; y0] && Ascii.eqb s1 dash then
        let y := 1000 * digit_val y3 + 100 * digit_val y2
                 + 10 * digit_val y1 + digit_val y0 in
        let matches :=
          flat_map
            (fun mr : Z * string =>
               match snd mr with
               | String s2 rest' =>
                   if Ascii.eqb s2 dash
                   then map (fun dr : Z * string => (fst mr, dr))
                            (firstn 1 (strp_day rest'))
                   else []
               | EmptyString => []
               end)
            (strp_month rest) in
        match matches with
        | (m, (d, EmptyString)) :: _ => new_date y m d
        | _ => Raise ValueError
        end
      else Raise ValueError
  | _ => Raise ValueError
  end.

End Datetime.

Import Datetime.

(** ** The clock

    [date.today()] and [datetime.utcnow()] are inputs of the program: one
    reading of each per invocation. *)

Record Clock : Type := { clock_today : date; clock_now : string }.

(** ** Utilities *)

Definition iso_today (clk : Clock) : string := isoformat (clock_today clk).

(** [now_iso()]: the reading of the UTC clock, already formatted. *)
Definition now_iso (clk : Clock) : string := clock_now clk.

Definition iso_week_start (d : date) : result date := sub_days d (weekday d).

Definition get_week_number_since (start_date target_date : date) : result Z :=
  rbind (iso_week_start target_date) (fun wt =>
  rbind (iso_week_start start_date) (fun ws =>
  let delta_days := days_between wt ws in
  Ok (delta_days / 7 + 1))).

(** *** Numbers as Python compares and divides them *)

Definition Qltb (a b : Q) : bool := negb (Qle_bool b a).

(** [max(a, b)] is [b] when [b > a], else [a]; [min(a, b)] is [b] when
    [b < a], else [a]. *)
Definition py_max (a b : Q) : Q := if Qltb a b then b else a.
Definition py_min (a b : Q) : Q := if Qltb b a then b else a.

(** [a / b] raises on a zero divisor. *)
Definition py_div (a b : Q) : result Q :=
  if Qeq_bool b 0 then Raise ZeroDivisionError else Ok (a / b)%Q.

(** [int(x)]: truncation toward zero. *)
Definition py_int (x : Q) : Z := Z.quot (Qnum x) (Zpos (Qden x)).

(** Rounding to the nearest integer, ties to the even one, as the format
    [.0f] rounds. *)
Definition round_half_even (x : Q) : Z :=
  let n := Qnum x in
  let d := Zpos (Qden x) in
  let f := n / d in
  let r := n mod d in
  if 2 * r <? d then f
  else if d <? 2 * r then f + 1
  else if Z.even f then f else f + 1.

(** [f"{x:.0f}"] *)
Definition fmt0 (x : Q) : string :=
  let z := round_half_even x in
  if (z =? 0) && Qltb x 0 then "-0"
  else NilZero.string_of_int (Z.to_int z).

Fixpoint replicate (n : nat) (c : ascii) : string :=
  match n with
  | O => EmptyString
  | S n' => String c (replicate n' c)
  end.

(** [c * n] for a one-character string [c]: empty when [n] is negative. *)
Definition str_repeat (c : ascii) (n : Z) : string := replicate (Z.to_nat n) c.

(** [f"{s:20}"]: left-aligned in a field of at least [w] characters. *)
Definition ljust (s : string) (w : nat) : string :=
  s ++ replicate (w - String.length s) space.

(** *** [print_progress]

    The locals of the function, in the order it computes them.  [Progress]
    holds them all; [progress_line] is the text handed to [print]. *)

Record Progress : Type :=
  { pr_current : Q;   (* current after max(0.0, current) *)
    pr_goal : Q;      (* goal after max(0.0, goal) *)
    pr_ratio : Q;
    pr_filled : Z;
    pr_bar : string }.

Definition progress (current goal : Q) (width : Z) : result Progress :=
  let current := py_max 0 current in
  let goal := py_max 0 goal in
  rbind (if Qeq_bool goal 0 then Ok 0%Q
         else rbind (py_div current goal) (fun q => Ok (py_min 1 q)))
    (fun ratio =>
       let filled := py_int (ratio * inject_Z width) in
       let bar := str_repeat "#" filled ++ str_repeat "-" (width - filled) in
       Ok {| pr_current := current; pr_goal := goal; pr_ratio := ratio;
             pr_filled := filled; pr_bar := bar |}).

Definition progress_line (label : string) (p : Progress) (unit : string) : string :=
  ljust label 20 ++ " [" ++ pr_bar p ++ "] "
  ++ fmt0 (pr_current p) ++ "/" ++ fmt0 (pr_goal p) ++ " " ++ unit.

(** The line [print_progress] writes, or the exception it raises. *)
Definition print_progress
    (label : string) (current goal : Q) (unit : string) (width : Z)
  : result string :=
  rbind (progress current goal width) (fun p => Ok (progress_line label p unit)).

Definition DEFAULT_WIDTH : Z := 24.

(** ** The database

    One record type per table of [ensure_db_schema], one field per column; a
    table is the list of its rows in rowid order. *)

Record profile_row : Type :=
  { p_id : Z; p_name : option string; p_start_date : option string }.

Record goal_row : Type :=
  { g_id : Z; g_key : string; g_value : Q; g_unit : string;
    g_updated_at : string }.

Record workout_row : Type :=
  { w_id : Z; w_date : string; w_type : string;
    w_duration_min : option Q; w_distance_km : option Q;
    w_sets : option Z; w_reps : option Z; w_weight_kg : option Q;
    w_notes : option string; w_created_at : string }.

Record meal_row : Type :=
  { m_id : Z; m_date : string; m_meal_type : string;
    m_calories : option Q; m_protein_g : option Q; m_carbs_g : option Q;
    m_fat_g : option Q; m_items : option string; m_created_at : string }.

Record plan_row : Type :=
  { pl_id : Z; pl_week : Z; pl_dow : Z; pl_name : string; pl_details : string }.

(** A database on which [ensure_db_schema] has run: the five tables exist. *)
Record DB : Type :=
  { profile : list profile_row;
    goals : list goal_row;
    workouts : list workout_row;
    meals : list meal_row;
    plan_workouts : list plan_row }.

Definition empty_db : DB :=
  {| profile := []; goals := []; workouts := []; meals := [];
     plan_workouts := [] |}.

(** The constraints of the schema: [profile.id] is a primary key checked to be
    1, [goals.key] is [UNIQUE]. *)
Definition schema_ok (db : DB) : Prop :=
  (List.length (profile db) <= 1)%nat
  /\ (forall r, In r (profile db) -> p_id r = 1)
  /\ NoDup (map g_key (goals db)).

(** The file behind the connection: [None] while no table has been created
    (a fresh or missing file). *)
Definition Storage : Type := option DB.

(** [get_db_connection] followed by [ensure_db_schema]:
    [CREATE TABLE IF NOT EXISTS] for each table, then [commit]. *)
Definition ensure_db_schema (st : Storage) : DB :=
  match st with
  | Some db => db
  | None => empty_db
  end.

(** The rowid SQLite gives a new row: one more than the largest in use. *)
Definition next_rowid (ids : list Z) : Z := fold_right Z.max 0 ids + 1.

(** *** Statements on a connection

    A function that takes [conn] is a computation on the database that may
    raise. *)

Definition SQL (A : Type) : Type := DB -> result A * DB.

Definition NoneType : Type := Datatypes.unit.

Definition ret {A : Type} (a : A) : SQL A := fun db => (Ok a, db).

Definition bind {A B : Type} (m : SQL A) (k : A -> SQL B) : SQL B :=
  fun db =>
    match m db with
    | (Ok a, db') => k a db'
    | (Raise e, db') => (Raise e, db')
    end.

Definition lift {A : Type} (r : result A) : SQL A := fun db => (r, db).

(** A [SELECT]: reads, never writes. *)
Definition select {A : Type} (q : DB -> A) : SQL A := fun db => (Ok (q db), db).

(** An [INSERT] or [UPDATE] (and the [commit] that follows). *)
Definition execute (f : DB -> DB) : SQL NoneType := fun db => (Ok tt, f db).

Declare Scope sql_scope.
Delimit Scope sql_scope with sql.
Notation "x <- m ;; k" := (bind m (fun x => k))
  (at level 61, m at next level, right associativity) : sql_scope.
Notation "m ;;; k" := (bind m (fun _ => k))
  (at level 61, right associativity) : sql_scope.
Local Open Scope sql_scope.

(** [cursor.fetchone()] *)
Definition fetchone {A : Type} (rows : list A) : option A := hd_error rows.

(** [SUM(col)] over the selected rows: [NULL]s are skipped, and the sum of no
    value is [NULL]. *)
Fixpoint sql_sum (vals : list (option Q)) : option Q :=
  match vals with
  | [] => None
  | None :: rest => sql_sum rest
  | Some v :: rest =>
      match sql_sum rest with
      | None => Some v
      | Some s => Some (v + s)%Q
      end
  end.

Definition coalesce (v : option Q) (dflt : Q) : Q :=
  match v with
  | Some x => x
  | None => dflt
  end.

(** [x BETWEEN lo AND hi] on [TEXT]: bytewise comparison. *)
Definition text_between (x lo hi : string) : bool :=
  String.leb lo x && String.leb x hi.

Definition set_profile (db : DB) (t : list profile_row) : DB :=
  {| profile := t; goals := goals db; workouts := workouts db;
     meals := meals db; plan_workouts := plan_workouts db |}.

Definition set_goals (db : DB) (t : list goal_row) : DB :=
  {| profile := profile db; goals := t; workouts := workouts db;
     meals := meals db; plan_workouts := plan_workouts db |}.

Definition set_workouts (db : DB) (t : list workout_row) : DB :=
  {| profile := profile db; goals := goals db; workouts := t;
     meals := meals db; plan_workouts := plan_workouts db |}.

Definition set_meals (db : DB) (t : list meal_row) : DB :=
  {| profile := profile db; goals := goals db; workouts := workouts db;
     meals := t; plan_workouts := plan_workouts db |}.

Definition set_plan_workouts (db : DB) (t : list plan_row) : DB :=
  {| profile := profile db; goals := goals db; workouts := workouts db;
     meals := meals db; plan_workouts := t |}.

(** ** Seed plan and default goals *)

Definition details_A : string :=
  "Full-body: Squat 3x8, Push-up 3xAMRAP, Row 3x10, Plank 3x30s".
Definition details_B : string :=
  "Full-body: Hinge 3x8, Overhead Press 3x8, Lat Pull 3x10, Side Plank 3x30s".
Definition details_C : string :=
  "Full-body: Lunge 3x8/leg, Bench 3x8, Row 3x10, Deadbug 3x10/side".

Definition DEFAULT_PLAN : list (Z * Z * string * string) :=
  [ (1, 1, "Workout A", details_A); (2, 1, "Workout A", details_A);
    (3, 1, "Workout A", details_A); (4, 1, "Workout A", details_A);
    (1, 3, "Workout B", details_B); (2, 3, "Workout B", details_B);
    (3, 3, "Workout B", details_B); (4, 3, "Workout B", details_B);
    (1, 5, "Workout C", details_C); (2, 5, "Workout C", details_C);
    (3, 5, "Workout C", details_C); (4, 5, "Workout C", details_C) ].

Definition DEFAULT_GOALS : list (string * Q * string) :=
  [ ("daily_calories", 1800%Q, "kcal");
    ("daily_protein_g", 120%Q, "g");
    ("weekly_exercise_minutes", 150%Q, "min");
    ("daily_walk_minutes", 30%Q, "min") ].

(** [INSERT INTO plan_workouts (week, dow, name, details) VALUES (?, ?, ?, ?)] *)
Definition insert_plan (t : list plan_row) (v : Z * Z * string * string)
  : list plan_row :=
  let '(w, d, n, ds) := v in
  (t ++ [ {| pl_id := next_rowid (map pl_id t); pl_week := w; pl_dow := d;
             pl_name := n; pl_details := ds |} ])%list.

(** [WHERE key=?] on the goals table. *)
Definition has_key (key : string) (r : goal_row) : bool :=
  String.eqb (g_key r) key.

(** [INSERT OR IGNORE INTO goals (key, value, unit, updated_at) ...]: nothing
    happens when a row has the key. *)
Definition insert_or_ignore_goal
    (t : list goal_row) (key : string) (value : Q) (unit_ now : string)
  : list goal_row :=
  if existsb (has_key key) t then t
  else (t ++ [ {| g_id := next_rowid (map g_id t); g_key := key;
                  g_value := value; g_unit := unit_;
                  g_updated_at := now |} ])%list.

(** [name or "You"] *)
Definition name_or_You (name : option string) : string :=
  match name with
  | None => "You"
  | Some EmptyString => "You"
  | Some n => n
  end.

(** The loop over [DEFAULT_GOALS]. *)
Definition seed_goals (now : string) (t : list goal_row) : list goal_row :=
  fold_left
    (fun t (g : string * Q * string) =>
       let '(key, value, unit_) := g in
       insert_or_ignore_goal t key value unit_ now)
    DEFAULT_GOALS t.

Definition seed_defaults (clk : Clock) (name : option string) : SQL NoneType :=
  row <- select (fun db => fetchone (filter (fun r => p_id r =? 1) (profile db))) ;;
  (match row with
   | Some _ => ret tt
   | None =>
       execute (fun db =>
         set_profile db
           (profile db ++ [ {| p_id := 1; p_name := Some (name_or_You name);
                               p_start_date := Some (iso_today clk) |} ])%list)
   end) ;;;
  c <- select (fun db => Z.of_nat (List.length (plan_workouts db))) ;;
  (if c =? 0
   then execute (fun db =>
          set_plan_workouts db (fold_left insert_plan DEFAULT_PLAN (plan_workouts db)))
   else ret tt) ;;;
  execute (fun db => set_goals db (seed_goals (now_iso clk) (goals db))).

(** ** Core operations *)

(** [INSERT INTO goals ... ON CONFLICT(key) DO UPDATE SET value=excluded.value,
    unit=excluded.unit, updated_at=excluded.updated_at]: the row that has the
    key keeps its id and takes the new value, unit and time; without such a
    row one is appended. *)
Definition upsert_goal
    (t : list goal_row) (key : string) (value : Q) (unit_ now : string)
  : list goal_row :=
  if existsb (has_key key) t then
    map (fun r =>
           if has_key key r
           then {| g_id := g_id r; g_key := g_key r; g_value := value;
                   g_unit := unit_; g_updated_at := now |}
           else r) t
  else (t ++ [ {| g_id := next_rowid (map g_id t); g_key := key;
                  g_value := value; g_unit := unit_;
                  g_updated_at := now |} ])%list.

Definition set_goal (clk : Clock) (key : string) (value : Q) (unit_ : option string)
  : SQL NoneType :=
  unit_ <- (match unit_ with
            | Some u => ret u
            | None =>
                row <- select (fun db =>
                         fetchone (map g_unit
                           (filter (has_key key) (goals db)))) ;;
                ret (match row with Some u => u | None => "" end)
            end) ;;
  execute (fun db => set_goals db (upsert_goal (goals db) key value unit_ (now_iso clk))).

Definition add_workout (clk : Clock) (date_str workout_type : string)
    (duration_min distance_km : option Q) (sets reps : option Z)
    (weight_kg : option Q) (notes : option string) : SQL NoneType :=
  execute (fun db =>
    set_workouts db
      (workouts db ++
       [ {| w_id := next_rowid (map w_id (workouts db)); w_date := date_str;
            w_type := workout_type; w_duration_min := duration_min;
            w_distance_km := distance_km; w_sets := sets; w_reps := reps;
            w_weight_kg := weight_kg; w_notes := notes;
            w_created_at := now_iso clk |} ])%list).

Definition add_meal (clk : Clock) (date_str meal_type : string)
    (calories protein_g carbs_g fat_g : option Q) (items : option string)
  : SQL NoneType :=
  (* If calories missing but macros provided, compute estimate *)
  let calories :=
    match calories, protein_g, carbs_g, fat_g with
    | None, Some p, Some c, Some f => Some (4 * p + 4 * c + 9 * f)%Q
    | _, _, _, _ => calories
    end in
  execute (fun db =>
    set_meals db
      (meals db ++
       [ {| m_id := next_rowid (map m_id (meals db)); m_date := date_str;
            m_meal_type := meal_type; m_calories := calories;
            m_protein_g := protein_g; m_carbs_g := carbs_g; m_fat_g := fat_g;
            m_items := items; m_created_at := now_iso clk |} ])%list).

Definition get_goal (key : string) : SQL (Q * string) :=
  row <- select (fun db =>
           fetchone (filter (has_key key) (goals db))) ;;
  ret (match row with
       | None => (0%Q, "")
       | Some r => (g_value r, g_unit r)
       end).

(** The dictionary [get_profile] returns. *)
Record Profile : Type := { name : option string; start_date : option string }.

Definition get_profile (clk : Clock) : SQL Profile :=
  row <- select (fun db => fetchone (filter (fun r => p_id r =? 1) (profile db))) ;;
  ret (match row with
       | None => {| name := Some "You"; start_date := Some (iso_today clk) |}
       | Some r => {| name := p_name r; start_date := p_start_date r |}
       end).

(** The dictionary [sum_today] returns. *)
Record Totals : Type :=
  { t_calories : Q; t_protein : Q; t_exercise_min : Q; t_week_exercise_min : Q }.

Definition sum_today (today_str : string) : SQL Totals :=
  calories <- select (fun db =>
    coalesce (sql_sum (map m_calories
      (filter (fun r => String.eqb (m_date r) today_str) (meals db)))) 0) ;;
  protein <- select (fun db =>
    coalesce (sql_sum (map m_protein_g
      (filter (fun r => String.eqb (m_date r) today_str) (meals db)))) 0) ;;
  exercise_min <- select (fun db =>
    coalesce (sql_sum (map w_duration_min
      (filter (fun r => String.eqb (w_date r) today_str) (workouts db)))) 0) ;;
  lo <- lift (rbind (fromisoformat today_str) iso_week_start) ;;
  hi <- lift (rbind (rbind (fromisoformat today_str) iso_week_start)
                    (fun s => add_days s 6)) ;;
  week_exercise_min <- select (fun db =>
    coalesce (sql_sum (map w_duration_min
      (filter (fun r => text_between (w_date r) (isoformat lo) (isoformat hi))
              (workouts db)))) 0) ;;
  ret {| t_calories := calories; t_protein := protein;
         t_exercise_min := exercise_min;
         t_week_exercise_min := week_exercise_min |}.

(** [if profile.get("start_date")]: a missing or empty value is false. *)
Definition truthy (s : option string) : option string :=
  match s with
  | Some (String c r) => Some (String c r)
  | _ => None
  end.

(** The week of the seed plan that [get_today_plan] looks up. *)
Definition plan_week (start today_date : date) : result Z :=
  rbind (get_week_number_since start today_date) (fun week_number =>
  Ok (Z.max 1 (Z.min 4 week_number))).  (* Cap to 4-week seed plan *)

Definition get_today_plan (clk : Clock) (today_date : date)
  : SQL (option (string * string)) :=
  profile <- get_profile clk ;;
  start <- lift (match truthy (start_date profile) with
                 | Some s => fromisoformat s
                 | None => Ok today_date
                 end) ;;
  week_number <- lift (plan_week start today_date) ;;
  let dow := isoweekday today_date in
  row <- select (fun db =>
           fetchone (filter (fun r => (pl_week r =? week_number) && (pl_dow r =? dow))
                            (plan_workouts db))) ;;
  ret (match row with
       | None => None
       | Some r => Some (pl_name r, pl_details r)
       end).

(** ** CLI commands

    A command runs in a process: the database file, and the two output
    streams.  [sys.exit(n)] is the exception [SystemExit n]. *)

Record World : Type :=
  { storage : Storage; stdout : list string; stderr : list string }.

Definition Cmd (A : Type) : Type := World -> result A * World.

Definition cret {A : Type} (a : A) : Cmd A := fun w => (Ok a, w).

Definition cbind {A B : Type} (m : Cmd A) (k : A -> Cmd B) : Cmd B :=
  fun w =>
    match m w with
    | (Ok a, w') => k a w'
    | (Raise e, w') => (Raise e, w')
    end.

Definition craise {A : Type} (e : exn) : Cmd A := fun w => (Raise e, w).

(** [print(line)] *)
Definition print (line : string) : Cmd NoneType :=
  fun w => (Ok tt, {| storage := storage w;
                      stdout := (stdout w ++ [line])%list;
                      stderr := stderr w |}).

(** [print(line, file=sys.stderr)] *)
Definition eprint (line : string) : Cmd NoneType :=
  fun w => (Ok tt, {| storage := storage w; stdout := stdout w;
                      stderr := (stderr w ++ [line])%list |}).

(** [conn = get_db_connection(); ensure_db_schema(conn)] *)
Definition connect : Cmd NoneType :=
  fun w => (Ok tt, {| storage := Some (ensure_db_schema (storage w));
                      stdout := stdout w; stderr := stderr w |}).

(** A function called on [conn]: it fails on a file without tables. *)
Definition on_conn {A : Type} (m : SQL A) : Cmd A :=
  fun w =>
    match storage w with
    | None => (Raise OperationalError, w)
    | Some db =>
        let (r, db') := m db in
        (r, {| storage := Some db'; stdout := stdout w; stderr := stderr w |})
    end.

Declare Scope cmd_scope.
Delimit Scope cmd_scope with cmd.
Notation "x <- m ;; k" := (cbind m (fun x => k))
  (at level 61, m at next level, right associativity) : cmd_scope.
Notation "m ;;; k" := (cbind m (fun _ => k))
  (at level 61, right associativity) : cmd_scope.

Definition parse_date (clk : Clock) (value : option string) : Cmd string :=
  match value with
  | None => cret (iso_today clk)
  | Some EmptyString => cret (iso_today clk)      (* [if not value] *)
  | Some v =>
      (* Accept YYYY-MM-DD *)
      match strptime_ymd v with
      | Ok d => cret (isoformat d)
      | Raise ValueError =>
          (eprint "Invalid date format. Use YYYY-MM-DD." ;;;
           craise (SystemExit 1))%cmd
      | Raise e => craise e
      end
  end.

(** The namespace argparse builds for [add-workout]. *)
Record WorkoutArgs : Type :=
  { wa_date : option string; wa_type : string;
    wa_duration : option Q; wa_distance : option Q;
    wa_sets : option Z; wa_reps : option Z;
    wa_weight : option Q; wa_notes : option string }.

(** The namespace argparse builds for [add-meal]. *)
Record MealArgs : Type :=
  { ma_date : option string; ma_meal_type : string;
    ma_calories : option Q; ma_protein : option Q;
    ma_carbs : option Q; ma_fat : option Q; ma_items : option string }.

Definition cmd_add_workout (clk : Clock) (args : WorkoutArgs) : Cmd NoneType :=
  (connect ;;;
   date_str <- parse_date clk (wa_date args) ;;
   on_conn (add_workout clk date_str (wa_type args) (wa_duration args)
              (wa_distance args) (wa_sets args) (wa_reps args)
              (wa_weight args) (wa_notes args)) ;;;
   print "Workout logged.")%cmd.

Definition cmd_add_meal (clk : Clock) (args : MealArgs) : Cmd NoneType :=
  (connect ;;;
   date_str <- parse_date clk (ma_date args) ;;
   on_conn (add_meal clk date_str (ma_meal_type args) (ma_calories args)
              (ma_protein args) (ma_carbs args) (ma_fat args) (ma_items args)) ;;;
   print "Meal logged.")%cmd.

(** [cmd_set_goal]: the result is the value and unit it reads back and
    prints. *)
Definition cmd_set_goal (clk : Clock) (key : string) (value : Q)
    (unit_ : option string) : Cmd (Q * string) :=
  (connect ;;;
   on_conn (set_goal clk key value unit_) ;;;
   on_conn (get_goal key))%cmd.

(** The three sums [cmd_week] computes before it prints them, for the week of
    [date.today()]. *)
Record WeekSums : Type :=
  { ws_start : date; ws_end : date;
    week_minutes : Q; week_calories : Q; week_protein : Q }.

Definition cmd_week_sums (clk : Clock) : SQL WeekSums :=
  let today_dt := clock_today clk in
  start <- lift (iso_week_start today_dt) ;;
  end_ <- lift (add_days start 6) ;;
  week_minutes <- select (fun db =>
    coalesce (sql_sum (map w_duration_min
      (filter (fun r => text_between (w_date r) (isoformat start) (isoformat end_))
              (workouts db)))) 0) ;;
  row <- select (fun db =>
    let rows :=
      filter (fun r => text_between (m_date r) (isoformat start) (isoformat end_))
             (meals db) in
    (coalesce (sql_sum (map m_calories rows)) 0,
     coalesce (sql_sum (map m_protein_g rows)) 0)) ;;
  ret {| ws_start := start; ws_end := end_; week_minutes := week_minutes;
         week_calories := fst row; week_protein := snd row |}.

Definition cmd_week (clk : Clock) : Cmd NoneType :=
  (connect ;;;
   s <- on_conn (cmd_week_sums clk) ;;
   g <- on_conn (get_goal "weekly_exercise_minutes") ;;
   print ("Week: " ++ isoformat (ws_start s) ++ " to " ++ isoformat (ws_end s)) ;;;
   line <- (fun w => (print_progress "Exercise minutes" (week_minutes s)
                        (fst g) (snd g) DEFAULT_WIDTH, w)) ;;
   print line ;;;
   print ("Total calories: " ++ fmt0 (week_calories s)
          ++ " kcal | Total protein: " ++ fmt0 (week_protein s) ++ " g"))%cmd.

(** The exit status [main] gives the shell: 0 after a command that returns,
    2 after an [sqlite3.Error], the code of a [sys.exit], and 1 when another
    exception reaches the top. *)
Definition exit_status {A : Type} (r : result A) : Z :=
  match r with
  | Ok _ => 0
  | Raise OperationalError => 2
  | Raise (SystemExit code) => code
  | Raise _ => 1
  end.

(** *** [cmd_export]: one line of the CSV output *)

Definition comma : ascii := ","%char.
Definition dquote : ascii := ascii_of_nat 34.
Definition LF : ascii := ascii_of_nat 10.
Definition CR : ascii := ascii_of_nat 13.

(** [c in s] *)
Fixpoint contains (c : ascii) (s : string) : bool :=
  match s with
  | EmptyString => false
  | String a rest => Ascii.eqb a c || contains c rest
  end.

(** [s.replace(q, q + q)] for the double quote [q]. *)
Fixpoint double_quotes (s : string) : string :=
  match s with
  | EmptyString => EmptyString
  | String a rest =>
      if Ascii.eqb a dquote then String dquote (String dquote (double_quotes rest))
      else String a (double_quotes rest)
  end.

Definition needs_quotes (s : string) : bool :=
  contains comma s || contains LF s || contains dquote s.

(** The text appended to [values] for a column whose [str(v)] is [s]. *)
Definition csv_quote (s : string) : string :=
  if needs_quotes s
  then String dquote (double_quotes s ++ String dquote EmptyString)
  else s.

(** The text appended to [values] for the column value [v] ([None] is SQL's
    [NULL]). *)
Definition csv_value (v : option string) : string :=
  match v with
  | None => ""
  | Some s => csv_quote s
  end.

(** [",".join(values)] *)
Definition csv_line (row : list (option string)) : string :=
  String.concat "," (map csv_value row).

(** *** An RFC 4180 reader

    It reads one record from the start of a text: fields separated by commas,
    up to a line break outside quotes (CR, LF or CRLF) or the end of the text.
    A field that starts with a double quote runs to its closing quote, a
    doubled quote inside standing for one; a quote is not allowed elsewhere.
    The result is what is left of the current field, the fields after it, and
    the text after the record. *)

Inductive reader_state : Type :=
| FieldStart | InUnquoted | InQuoted | AfterQuote.

Definition skip_LF (s : string) : string :=
  match s with
  | String c rest => if Ascii.eqb c LF then rest else s
  | EmptyString => s
  end.

Fixpoint read_from (st : reader_state) (input : string)
  : option (string * list string * string) :=
  match input with
  | EmptyString =>
      match st with
      | InQuoted => None
      | _ => Some (EmptyString, [], EmptyString)
      end
  | String c rest =>
      let next_field :=
        match read_from FieldStart rest with
        | Some (f, fs, r) => Some (EmptyString, f :: fs, r)
        | None => None
        end in
      let more (st' : reader_state) (c' : ascii) :=
        match read_from st' rest with
        | Some (f, fs, r) => Some (String c' f, fs, r)
        | None => None
        end in
      match st with
      | InQuoted =>
          if Ascii.eqb c dquote then read_from AfterQuote rest
          else more InQuoted c
      | AfterQuote =>
          if Ascii.eqb c dquote then more InQuoted dquote
          else if Ascii.eqb c comma then next_field
          else if Ascii.eqb c LF then Some (EmptyString, [], rest)
          else if Ascii.eqb c CR then Some (EmptyString, [], skip_LF rest)
          else None
      | FieldStart =>
          if Ascii.eqb c dquote then read_from InQuoted rest
          else if Ascii.eqb c comma then next_field
          else if Ascii.eqb c LF then Some (EmptyString, [], rest)
          else if Ascii.eqb c CR then Some (EmptyString, [], skip_LF rest)
          else more InUnquoted c
      | InUnquoted =>
          if Ascii.eqb c dquote then None
          else if Ascii.eqb c comma then next_field
          else if Ascii.eqb c LF then Some (EmptyString, [], rest)
          else if Ascii.eqb c CR then Some (EmptyString, [], skip_LF rest)
          else more InUnquoted c
      end
  end.

(** The fields of the first record of [input], and the text after it. *)
Definition csv_read_record (input : string) : option (list string * string) :=
  match read_from FieldStart input with
  | Some (f, fs, r) => Some (f :: fs, r)
  | None => None
  end.

(** [s] put in front of the field a reader is in the middle of. *)
Definition prepend (s : string) (r : option (string * list string * string))
  : option (string * list string * string) :=
  match r with
  | Some (f, fs, rest) => Some (s ++ f, fs, rest)
  | None => None
  end.

(** The text after a field: nothing, or a comma or a line break first. *)
Definition field_end (tail : string) : Prop :=
  match tail with
  | EmptyString => True
  | String c _ => c = comma \/ c = LF \/ c = CR
  end.

(** The value of a column as the reader should give it back: [NULL] is
    exported as the empty text. *)
Definition exported_text (v : option string) : string :=
  match v with
  | None => ""
  | Some s => s
  end.

(** A text that the export writes so that it can be read back: a carriage
    return in it comes with a comma, a quote or a line feed. *)
Definition readable (s : string) : Prop :=
  contains CR s = false \/ needs_quotes s = true.

(** ** The words of the specification

    Definitions that follow the text of the specification, to which the
    program is compared. *)

(** The entry date [s] lies in the inclusive seven-day window that starts on
    [ws]. *)
Definition in_week (ws x : date) : bool :=
  (0 <=? days_between x ws) && (days_between x ws <=? 6).

Definition dated_in_week (ws : date) (s : string) : bool :=
  match fromisoformat s with
  | Ok x => in_week ws x
  | Raise _ => false
  end.

(** The sum of a numeric field over the entries dated in the week of [ws], an
    absent field counting for zero. *)
Definition spec_week_total {R : Type}
    (date_of : R -> string) (field : R -> option Q) (ws : date) (rows : list R)
  : Q :=
  fold_right
    (fun r acc =>
       if dated_in_week ws (date_of r) then (coalesce (field r) 0 + acc)%Q
       else acc)
    0%Q rows.

(** Every row carries the ISO text of a calendar date (section 3 of the
    specification). *)
Definition iso_dated {R : Type} (date_of : R -> string) (rows : list R) : Prop :=
  Forall (fun r => exists x, valid x /\ date_of r = isoformat x) rows.

(** [x] clamped to the closed range from [lo] to [hi]. *)
Definition clamp (lo hi x : Z) : Z :=
  if x <? lo then lo else if hi <? x then hi else x.

(** The plan entry for a week and a day of the week: the first row that
    matches, if any. *)
Definition plan_entry (week dow : Z) (db : DB) : option (string * string) :=
  match filter (fun r => (pl_week r =? week) && (pl_dow r =? dow)) (plan_workouts db) with
  | [] => None
  | r :: _ => Some (pl_name r, pl_details r)
  end.

(** [seed_defaults] called once for each element of [calls], in order, each
    call with its own clock and display name. *)
Fixpoint seed_many (calls : list (Clock * option string)) (db : DB) : DB :=
  match calls with
  | [] => db
  | (clk, name) :: rest => seed_many rest (snd (seed_defaults clk name db))
  end.

(** The rows the seeding gives an empty plan table. *)
Definition seeded_plan : list plan_row := fold_left insert_plan DEFAULT_PLAN [].

(** The columns of a plan row other than its id. *)
Definition plan_columns (r : plan_row) : Z * Z * string * string :=
  (pl_week r, pl_dow r, pl_name r, pl_details r).

(** A database that a call of [seed_defaults] has nothing to add to. *)
Definition seeded (db : DB) : Prop :=
  filter (fun r => p_id r =? 1) (profile db) <> []
  /\ plan_workouts db <> []
  /\ (forall g, In g DEFAULT_GOALS -> In (fst (fst g)) (map g_key (goals db))).

(** ** Example data *)

Definition example_clock : Clock :=
  {| clock_today := mkdate 2024 1 3; clock_now := "2024-01-03T10:00:00Z" |}.

(** The state after [init], a workout on Monday 2024-01-01, one on the next
    Monday, and two meals. *)
Definition example_db : DB :=
  let run (m : SQL NoneType) (db : DB) := snd (m db) in
  run (add_meal example_clock "2024-01-07" "dinner" None (Some 10%Q) None (Some 5%Q) None)
    (run (add_meal example_clock "2024-01-03" "lunch" None (Some 10%Q) (Some 20%Q) (Some 5%Q) None)
       (run (add_workout example_clock "2024-01-08" "run" (Some 30%Q) None None None None None)
          (run (add_workout example_clock "2024-01-01" "strength" (Some 45%Q) None None None None None)
             (run (seed_defaults example_clock None) empty_db)))).

Definition example_workout_args (d : option string) : WorkoutArgs :=
  {| wa_date := d; wa_type := "run"; wa_duration := Some 30%Q;
     wa_distance := None; wa_sets := None; wa_reps := None;
     wa_weight := None; wa_notes := None |}.

Definition example_meal_args (d : option string) : MealArgs :=
  {| ma_date := d; ma_meal_type := "lunch"; ma_calories := None;
     ma_protein := Some 10%Q; ma_carbs := Some 20%Q; ma_fat := Some 5%Q;
     ma_items := None |}.

(** A process that starts on the database [st] with nothing printed yet. *)
Definition start_world (st : Storage) : World :=
  {| storage := st; stdout := []; stderr := [] |}.

(** A note with a comma and a double quote, and one with a carriage return. *)
Definition example_note : string :=
  "5x5, felt " ++ String dquote ("strong" ++ String dquote "").

Definition example_cr_note : string := "a" ++ String CR "b".

(** The last day of the calendar. *)
Definition last_day_clock : Clock :=
  {| clock_today := mkdate 9999 12 31; clock_now := "9999-12-31T10:00:00Z" |}.

(** Lexicographic combination of two comparisons. *)
Definition lexc (c1 c2 : comparison) : comparison :=
  match c1 with
  | Eq => c2
  | _ => c1
  end.

(** ** The other commands *)

(** [str(n)] for an int. *)
Definition str_int (z : Z) : string := NilZero.string_of_int (Z.to_int z).

(** A value that may be [None] inside an f-string. *)
Definition fstr (s : option string) : string :=
  match s with
  | Some x => x
  | None => "None"
  end.

(** [print] once for each line, in order. *)
Fixpoint print_lines (lines : list string) : Cmd NoneType :=
  match lines with
  | [] => cret tt
  | l :: rest => (print l ;;; print_lines rest)%cmd
  end.

(** [print_progress] with the default width, as the commands call it: the
    line is printed, or the exception propagates. *)
Definition do_print_progress (label : string) (current goal : Q) (unit_ : string)
  : Cmd NoneType :=
  match print_progress label current goal unit_ DEFAULT_WIDTH with
  | Ok line => print line
  | Raise e => craise e
  end.

(** [db_path] is what [get_db_path()] returns: the file [fitness.db] beside
    the program. *)
Definition cmd_init (clk : Clock) (db_path : string) (name_arg : option string)
  : Cmd NoneType :=
  (connect ;;;
   on_conn (seed_defaults clk name_arg) ;;;
   profile <- on_conn (get_profile clk) ;;
   print ("Initialized plan for " ++ fstr (name profile) ++ " starting "
          ++ fstr (start_date profile) ++ ". DB: " ++ db_path))%cmd.

Definition no_plan_line : string :=
  "No specific workout planned today. Consider a 20-30 min walk.".

Definition cmd_today (clk : Clock) : Cmd NoneType :=
  (connect ;;;
   let today_dt := clock_today clk in
   let today_str := isoformat today_dt in
   profile <- on_conn (get_profile clk) ;;
   print ("Today: " ++ today_str ++ " | Plan owner: " ++ fstr (name profile)) ;;;
   plan <- on_conn (get_today_plan clk today_dt) ;;
   match plan with
   | Some (n, d) => print ("Suggested workout: " ++ n ++ " - " ++ d)
   | None => print no_plan_line
   end ;;;
   totals <- on_conn (sum_today today_str) ;;
   cal <- on_conn (get_goal "daily_calories") ;;
   prot <- on_conn (get_goal "daily_protein_g") ;;
   walk <- on_conn (get_goal "daily_walk_minutes") ;;
   week_ex <- on_conn (get_goal "weekly_exercise_minutes") ;;
   print "" ;;;
   print "Nutrition" ;;;
   do_print_progress "Calories" (t_calories totals) (fst cal) (snd cal) ;;;
   do_print_progress "Protein" (t_protein totals) (fst prot) (snd prot) ;;;
   print "" ;;;
   print "Exercise" ;;;
   do_print_progress "Today's minutes" (t_exercise_min totals) (fst walk) (snd walk) ;;;
   do_print_progress "This week" (t_week_exercise_min totals)
     (fst week_ex) (snd week_ex))%cmd.

(** [ORDER BY]: a stable insertion sort by the order [leb]. *)
Fixpoint insert_by {A : Type} (leb : A -> A -> bool) (x : A) (l : list A)
  : list A :=
  match l with
  | [] => [x]
  | y :: rest => if leb x y then x :: l else y :: insert_by leb x rest
  end.

Definition order_by {A : Type} (leb : A -> A -> bool) (l : list A) : list A :=
  fold_right (insert_by leb) [] l.

(** [ORDER BY week, dow] *)
Definition plan_leb (a b : plan_row) : bool :=
  (pl_week a <? pl_week b) || ((pl_week a =? pl_week b) && (pl_dow a <=? pl_dow b)).

(** [dow_map.get(dow, '?')] *)
Definition dow_map (dow : Z) : string :=
  match dow with
  | 1 => "Mon" | 2 => "Tue" | 3 => "Wed" | 4 => "Thu" | 5 => "Fri"
  | 6 => "Sat" | 7 => "Sun"
  | _ => "?"
  end.

(** The eight bytes between the name and the details in the line [cmd_plan]
    prints, as the source file has them. *)
Definition plan_dash : string :=
  string_of_list_ascii
    (map ascii_of_nat [195; 162; 226; 130; 172; 226; 128; 157]%nat).

Definition plan_line (r : plan_row) : string :=
  "Week " ++ str_int (pl_week r) ++ " " ++ dow_map (pl_dow r) ++ ": "
  ++ pl_name r ++ " " ++ plan_dash ++ " " ++ pl_details r.

Definition no_plan_found : string :=
  "No plan found. Run `init` to create a starter plan.".

Definition cmd_plan : Cmd NoneType :=
  (connect ;;;
   rows <- on_conn (select (fun db => order_by plan_leb (plan_workouts db))) ;;
   match rows with
   | [] => print no_plan_found
   | _ :: _ =>
       print "4-week starter plan" ;;;
       print_lines (map plan_line rows)
   end)%cmd.

(** *** [cmd_export] *)

(** A column value as [sqlite3] hands it to Python. *)
Inductive cell : Type :=
| CNull
| CInt (z : Z)
| CReal (q : Q)
| CText (s : string).

Definition opt_cell {A : Type} (f : A -> cell) (v : option A) : cell :=
  match v with
  | Some x => f x
  | None => CNull
  end.

(** [str(v)], with [None] kept apart; [str_float] is [str] on floats. *)
Definition str_cell (str_float : Q -> string) (c : cell) : option string :=
  match c with
  | CNull => None
  | CInt z => Some (str_int z)
  | CReal q => Some (str_float q)
  | CText s => Some s
  end.

Definition workout_columns : list string :=
  ["id"; "date"; "type"; "duration_min"; "distance_km"; "sets"; "reps";
   "weight_kg"; "notes"; "created_at"].

Definition workout_cells (r : workout_row) : list cell :=
  [CInt (w_id r); CText (w_date r); CText (w_type r);
   opt_cell CReal (w_duration_min r); opt_cell CReal (w_distance_km r);
   opt_cell CInt (w_sets r); opt_cell CInt (w_reps r);
   opt_cell CReal (w_weight_kg r); opt_cell CText (w_notes r);
   CText (w_created_at r)].

Definition meal_columns : list string :=
  ["id"; "date"; "meal_type"; "calories"; "protein_g"; "carbs_g"; "fat_g";
   "items"; "created_at"].

Definition meal_cells (r : meal_row) : list cell :=
  [CInt (m_id r); CText (m_date r); CText (m_meal_type r);
   opt_cell CReal (m_calories r); opt_cell CReal (m_protein_g r);
   opt_cell CReal (m_carbs_g r); opt_cell CReal (m_fat_g r);
   opt_cell CText (m_items r); CText (m_created_at r)].

Definition goal_columns : list string :=
  ["id"; "key"; "value"; "unit"; "updated_at"].

Definition goal_cells (r : goal_row) : list cell :=
  [CInt (g_id r); CText (g_key r); CReal (g_value r); CText (g_unit r);
   CText (g_updated_at r)].

(** [SELECT * FROM table ORDER BY id]: the column names and the rows, for the
    three tables the command accepts. *)
Definition select_table (table : string) (db : DB)
  : option (list string * list (list cell)) :=
  if String.eqb table "workouts" then
    Some (workout_columns,
          map workout_cells
            (order_by (fun a b => w_id a <=? w_id b) (workouts db)))
  else if String.eqb table "meals" then
    Some (meal_columns,
          map meal_cells (order_by (fun a b => m_id a <=? m_id b) (meals db)))
  else if String.eqb table "goals" then
    Some (goal_columns,
          map goal_cells (order_by (fun a b => g_id a <=? g_id b) (goals db)))
  else None.

Definition invalid_table : string :=
  "Invalid table. Choose from: workouts, meals, goals".

Definition valid_tables : list string := ["workouts"; "meals"; "goals"].

Definition cmd_export (str_float : Q -> string) (table : string)
  : Cmd NoneType :=
  (connect ;;;
   if negb (existsb (String.eqb table) valid_tables) then
     eprint invalid_table ;;; craise (SystemExit 1)
   else
     t <- on_conn (fun db =>
            match select_table table db with
            | Some t => (Ok t, db)
            | None => (Raise OperationalError, db)
            end) ;;
     print (String.concat "," (fst t)) ;;;
     print_lines
       (map (fun row => csv_line (map (str_cell str_float) row)) (snd t)))%cmd.

(** ** Auxiliary definitions for the properties of the commands *)

(** The matches of [-(%m)-(%d)] that [strptime_ymd] looks at, on the text
    after the year and its dash. *)
Definition month_day_matches (rest : string) : list (Z * (Z * string)) :=
  flat_map
    (fun mr : Z * string =>
       match snd mr with
       | String s2 rest' =>
           if Ascii.eqb s2 dash
           then map (fun dr : Z * string => (fst mr, dr))
                    (firstn 1 (strp_day rest'))
           else []
       | EmptyString => []
       end)
    (strp_month rest).

(** [month_day_matches] on two digits, a dash and two digits gives the month
    and the day exactly when they are between 1 and 12 and between 1 and 31,
    and no complete match otherwise. *)
Definition month_day_check (m1 m0 d1 d0 : Z) : bool :=
  let m := 10 * m1 + m0 in
  let d := 10 * d1 + d0 in
  let text :=
    String (digit m1) (String (digit m0) (String dash
      (String (digit d1) (String (digit d0) EmptyString)))) in
  match month_day_matches text with
  | (m', (d', EmptyString)) :: _ =>
      (m' =? m) && (d' =? d) && (1 <=? m) && (m <=? 12) && (1 <=? d) && (d <=? 31)
  | _ => negb ((1 <=? m) && (m <=? 12) && (1 <=? d) && (d <=? 31))
  end.

Definition digits10 : list Z := [0; 1; 2; 3; 4; 5; 6; 7; 8; 9].

(** The text [parse_date] returns for a date argument, when it returns. *)
Definition date_text (clk : Clock) (value : option string) : option string :=
  match value with
  | None => Some (iso_today clk)
  | Some EmptyString => Some (iso_today clk)
  | Some v =>
      match strptime_ymd v with
      | Ok d => Some (isoformat d)
      | Raise _ => None
      end
  end.

(** The profile rows carry the ISO text of a date as start date, as
    [seed_defaults] writes them. *)
Definition profile_dated (db : DB) : Prop :=
  Forall (fun r => exists sd, valid sd /\ p_start_date r = Some (isoformat sd))
         (profile db).

(** The workout of the seed plan for a day of the week. *)
Definition seeded_workout (dow : Z) : option (string * string) :=
  match dow with
  | 1 => Some ("Workout A", details_A)
  | 3 => Some ("Workout B", details_B)
  | 5 => Some ("Workout C", details_C)
  | _ => None
  end.

(** A computation on the connection that only reads. *)
Definition sql_reads_only {A : Type} (m : SQL A) : Prop :=
  forall db, snd (m db) = db.

(** A step of a command that leaves the database file as it is, whether it
    returns or raises. *)
Definition reads_only {A : Type} (c : Cmd A) : Prop :=
  forall w, storage (snd (c w)) = storage w.

(** The text that a sequence of [print] calls writes: each line followed by a
    line feed. *)
Definition unlines (lines : list string) : string :=
  fold_right (fun l rest => l ++ String LF rest) "" lines.

(** The records of a whole text, read one after the other with the RFC 4180
    reader until the text is used up; [fuel] bounds the number of records. *)
Fixpoint read_records (fuel : nat) (input : string)
  : option (list (list string)) :=
  match input with
  | EmptyString => Some []
  | String _ _ =>
      match fuel with
      | O => None
      | S fuel' =>
          match csv_read_record input with
          | Some (fields, rest) =>
              match read_records fuel' rest with
              | Some records => Some (fields :: records)
              | None => None
              end
          | None => None
          end
      end
  end.

(** The text of a cell as a reader of the export should give it back. *)
Definition cell_text (str_float : Q -> string) (c : cell) : string :=
  exported_text (str_cell str_float c).

(** No cell of the rows has a carriage return in its text. *)
Definition no_CR (str_float : Q -> string) (rows : list (list cell)) : bool :=
  forallb (forallb (fun c => negb (contains CR (cell_text str_float c)))) rows.

(** [ORDER BY week, dow] as a relation between a row and a later one. *)
Definition plan_le (a b : plan_row) : Prop :=
  pl_week a < pl_week b \/ (pl_week a = pl_week b /\ pl_dow a <= pl_dow b).

(** ** Sessions

    One invocation of the program: the subcommand and the namespace that the
    parser of [build_parser] hands to the function of the subcommand. *)
Inductive Invocation : Type :=
| Init (name_arg : option string)
| SetGoal (key : string) (value : Q) (unit_ : option string)
| AddWorkout (args : WorkoutArgs)
| AddMeal (args : MealArgs)
| Today
| Week
| Plan
| Export (table : string).

(** [args.func(args)] in [main]. *)
Definition run_func (db_path : string) (str_float : Q -> string)
    (clk : Clock) (i : Invocation) : Cmd NoneType :=
  match i with
  | Init name_arg => cmd_init clk db_path name_arg
  | SetGoal key value unit_ =>
      (cmd_set_goal clk key value unit_ ;;; cret tt)%cmd
  | AddWorkout args => cmd_add_workout clk args
  | AddMeal args => cmd_add_meal clk args
  | Today => cmd_today clk
  | Week => cmd_week clk
  | Plan => cmd_plan
  | Export table => cmd_export str_float table
  end.

(** The database file after a sequence of invocations, each one a process of
    its own, run at its own time. *)
Fixpoint run_session (db_path : string) (str_float : Q -> string)
    (session : list (Clock * Invocation)) (st : Storage) : Storage :=
  match session with
  | [] => st
  | (clk, i) :: rest =>
      run_session db_path str_float rest
        (storage (snd (run_func db_path str_float clk i (start_world st))))
  end.

(** What the program keeps true of its database: the constraints of the
    schema, ISO dates in the profile, the workouts and the meals, no plan or
    the seed plan, and ids that ascend in rowid order. *)
Definition well_formed (db : DB) : Prop :=
  schema_ok db
  /\ profile_dated db
  /\ iso_dated w_date (workouts db)
  /\ iso_dated m_date (meals db)
  /\ (plan_workouts db = [] \/ plan_workouts db = seeded_plan)
  /\ StronglySorted Z.lt (map w_id (workouts db))
  /\ StronglySorted Z.lt (map m_id (meals db))
  /\ StronglySorted Z.lt (map g_id (goals db)).

(** A session of each kind of invocation. *)
Definition example_session : list (Clock * Invocation) :=
  [ (example_clock, Init (Some "Ada"));
    (example_clock, AddWorkout (example_workout_args (Some "2024-01-02")));
    (example_clock, AddMeal (example_meal_args None));
    (example_clock, AddMeal (example_meal_args (Some "yesterday")));
    (example_clock, SetGoal "daily_calories" 2000%Q None);
    (example_clock, Today);
    (last_day_clock, Week);
    (example_clock, Plan);
    (example_clock, Export "meals");
    (last_day_clock, Init None) ].

(** * Properties *)

(** ** Tactics *)

Ltac dlia := Z.to_euclidean_division_equations; lia.

(** Boolean tests in the hypotheses, turned into propositions. *)
Ltac bool_hyps :=
  repeat match goal with
  | H : (_ && _)%bool = true |- _ => apply andb_true_iff in H; destruct H
  | H : (_ || _)%bool = false |- _ => apply orb_false_iff in H; destruct H
  | H : (_ && _)%bool = false |- _ => apply andb_false_iff in H; destruct H
  | H : (_ || _)%bool = true |- _ => apply orb_true_iff in H; destruct H
  | H : negb _ = true |- _ => apply negb_true_iff in H
  | H : negb _ = false |- _ => apply negb_false_iff in H
  | H : (_ =? _) = true |- _ => apply Z.eqb_eq in H
  | H : (_ =? _) = false |- _ => apply Z.eqb_neq in H
  | H : (_ <? _) = true |- _ => apply Z.ltb_lt in H
  | H : (_ <? _) = false |- _ => apply Z.ltb_ge in H
  | H : (_ <=? _) = true |- _ => apply Z.leb_le in H
  | H : (_ <=? _) = false |- _ => apply Z.leb_gt in H
  end.

(** The month tables and the tests on a month that is a numeral. *)
Ltac month_simpl :=
  cbn [DAYS_BEFORE_MONTH DAYS_IN_MONTH Z.ltb Z.eqb Z.compare Pos.compare
       Pos.compare_cont Pos.eqb andb orb negb] in *.

(** ** The calendar *)

Section Calendar.

Lemma valid_iff (d : date) :
  valid d <->
  1 <= year d <= 9999 /\ 1 <= month d <= 12
  /\ 1 <= day d <= days_in_month (year d) (month d).
Proof.
  unfold valid, check_date_fields, MINYEAR, MAXYEAR.
  rewrite !andb_true_iff, !Z.leb_le. tauto.
Qed.

Lemma month_cases (m : Z) :
  1 <= m <= 12 ->
  m = 1 \/ m = 2 \/ m = 3 \/ m = 4 \/ m = 5 \/ m = 6 \/ m = 7 \/ m = 8
  \/ m = 9 \/ m = 10 \/ m = 11 \/ m = 12.
Proof. lia. Qed.

Lemma is_leap_spec (y : Z) :
  is_leap y = true <-> y mod 4 = 0 /\ (y mod 100 <> 0 \/ y mod 400 = 0).
Proof.
  unfold is_leap.
  rewrite andb_true_iff, orb_true_iff, negb_true_iff, !Z.eqb_eq, Z.eqb_neq.
  tauto.
Qed.

Lemma days_before_year_succ (y : Z) :
  days_before_year (y + 1)
  = days_before_year y + 365 + (if is_leap y then 1 else 0).
Proof.
  destruct (is_leap y) eqn:E.
  - apply is_leap_spec in E. unfold days_before_year. cbv zeta. dlia.
  - assert (H : ~ (y mod 4 = 0 /\ (y mod 100 <> 0 \/ y mod 400 = 0))).
    { rewrite <- is_leap_spec. congruence. }
    unfold days_before_year. cbv zeta. dlia.
Qed.

Lemma days_before_year_mono (a b : Z) :
  a <= b -> days_before_year a <= days_before_year b.
Proof. intros H. unfold days_before_year. cbv zeta. dlia. Qed.

(** The cycle counts of [ord2ymd] give the year back. *)
Lemma year_of_cycles (n400 n100 n4 n1 : Z) :
  0 <= n400 -> 0 <= n100 <= 3 -> 0 <= n4 <= 24 -> 0 <= n1 <= 3 ->
  let y := n400 * 400 + 1 + (n100 * 100 + n4 * 4 + n1) in
  days_before_year y = 146097 * n400 + 36524 * n100 + 1461 * n4 + 365 * n1
  /\ is_leap y = (n1 =? 3) && (negb (n4 =? 24) || (n100 =? 3)).
Proof.
  intros H400 H100 H4 H1 y. subst y. split.
  - unfold days_before_year. cbv zeta. dlia.
  - apply eq_true_iff_eq.
    rewrite is_leap_spec, andb_true_iff, orb_true_iff, negb_true_iff,
      !Z.eqb_eq, Z.eqb_neq.
    dlia.
Qed.

Lemma ord2ymd_correct (n : Z) :
  1 <= n <= MAXORDINAL ->
  valid (ord2ymd n) /\ toordinal (ord2ymd n) = n.
Proof.
  intros Hn. unfold MAXORDINAL in Hn. rewrite valid_iff.
  unfold toordinal, ord2ymd. cbv zeta. unfold DI400Y, DI100Y, DI4Y.
  pose proof (Z.div_mod (n - 1) 146097 ltac:(lia)) as E400.
  pose proof (Z.mod_pos_bound (n - 1) 146097 ltac:(lia)) as B400.
  set (n400 := (n - 1) / 146097) in *. set (r400 := (n - 1) mod 146097) in *.
  pose proof (Z.div_mod r400 36524 ltac:(lia)) as E100.
  pose proof (Z.mod_pos_bound r400 36524 ltac:(lia)) as B100.
  set (n100 := r400 / 36524) in *. set (r100 := r400 mod 36524) in *.
  pose proof (Z.div_mod r100 1461 ltac:(lia)) as E4.
  pose proof (Z.mod_pos_bound r100 1461 ltac:(lia)) as B4.
  set (n4 := r100 / 1461) in *. set (r4 := r100 mod 1461) in *.
  pose proof (Z.div_mod r4 365 ltac:(lia)) as E1.
  pose proof (Z.mod_pos_bound r4 365 ltac:(lia)) as B1.
  set (n1 := r4 / 365) in *. set (r := r4 mod 365) in *.
  clearbody n400 r400 n100 r100 n4 r4 n1 r.
  assert (0 <= n400 <= 24) by lia.
  assert (0 <= n100 <= 4) by lia.
  assert (0 <= n4 <= 24) by lia.
  assert (0 <= n1 <= 4) by lia.
  destruct ((n1 =? 4) || (n100 =? 4)) eqn:Eend.
  - (* the last day of a leap year *)
    assert (Hleap :
      is_leap (n400 * 400 + 1 + (n100 * 100 + n4 * 4 + n1) - 1) = true).
    { apply is_leap_spec. bool_hyps; dlia. }
    unfold ymd2ord, days_before_month, days_in_month, days_before_year.
    cbn [year month day]. rewrite Hleap. cbn. cbv zeta.
    bool_hyps; dlia.
  - apply orb_false_iff in Eend. destruct Eend as [F1 F100].
    apply Z.eqb_neq in F1, F100.
    destruct (year_of_cycles n400 n100 n4 n1) as [Hdby Hleap]; try lia.
    cbv zeta in Hdby, Hleap. rewrite <- Hleap.
    set (y := n400 * 400 + 1 + (n100 * 100 + n4 * 4 + n1)) in *.
    assert (Hy : 1 <= y <= 9999) by (subst y; lia).
    assert (Hn' : n = days_before_year y + r + 1) by lia.
    clearbody y. clear Hleap.
    assert (Hm' : Z.shiftr (r + 50) 5 = (r + 50) / 32).
    { rewrite Z.shiftr_div_pow2 by lia. reflexivity. }
    assert (Hm : 1 <= Z.shiftr (r + 50) 5 <= 12) by (rewrite Hm'; dlia).
    set (m := Z.shiftr (r + 50) 5) in *. clearbody m.
    unfold ymd2ord, days_before_month, days_in_month.
    destruct (is_leap y) eqn:EL;
      destruct (month_cases m Hm)
        as [->|[->|[->|[->|[->|[->|[->|[->|[->|[->|[->| ->]]]]]]]]]]];
      cbn;
      match goal with
      | |- context [if ?b then _ else _] => destruct b eqn:E
      end;
      cbn [year month day]; rewrite ?EL; cbn; bool_hyps; dlia.
Qed.

Lemma day_of_year_bounds (d : date) :
  valid d ->
  1 <= days_before_month (year d) (month d) + day d
    <= 365 + (if is_leap (year d) then 1 else 0).
Proof.
  rewrite valid_iff. intros (Hy & Hm & Hd).
  unfold days_before_month, days_in_month in *.
  destruct (is_leap (year d));
    destruct (month_cases _ Hm)
      as [E|[E|[E|[E|[E|[E|[E|[E|[E|[E|[E|E]]]]]]]]]]];
    rewrite E in *; month_simpl; lia.
Qed.

Lemma toordinal_range (d : date) :
  valid d -> 1 <= toordinal d <= MAXORDINAL.
Proof.
  intros Hv. pose proof (day_of_year_bounds d Hv) as Hdoy.
  apply valid_iff in Hv. destruct Hv as (Hy & _).
  pose proof (days_before_year_mono 1 (year d) ltac:(lia)) as Hlo.
  pose proof (days_before_year_mono (year d + 1) 10000 ltac:(lia)) as Hhi.
  rewrite days_before_year_succ in Hhi.
  change (days_before_year 1) with 0 in Hlo.
  change (days_before_year 10000) with 3652059 in Hhi.
  unfold toordinal, ymd2ord, MAXORDINAL. lia.
Qed.

(** Within a year, ordinals are ordered as (month, day). *)
Lemma day_of_year_compare (y m1 d1 m2 d2 : Z) :
  valid (mkdate y m1 d1) -> valid (mkdate y m2 d2) ->
  (days_before_month y m1 + d1 ?= days_before_month y m2 + d2)
  = match m1 ?= m2 with Eq => d1 ?= d2 | c => c end.
Proof.
  rewrite !valid_iff. cbn [year month day].
  intros (_ & Hm1 & Hd1) (_ & Hm2 & Hd2).
  unfold days_before_month, days_in_month in *.
  destruct (Z.compare_spec m1 m2) as [->|Hlt|Hgt].
  - destruct (Z.compare_spec d1 d2); [apply Z.compare_eq_iff|apply Z.compare_lt_iff|apply Z.compare_gt_iff]; lia.
  - apply Z.compare_lt_iff.
    destruct (is_leap y);
      destruct (month_cases _ Hm1)
        as [E|[E|[E|[E|[E|[E|[E|[E|[E|[E|[E|E]]]]]]]]]]];
      rewrite E in *; month_simpl;
      destruct (month_cases _ Hm2)
        as [F|[F|[F|[F|[F|[F|[F|[F|[F|[F|[F|F]]]]]]]]]]];
      rewrite F in *; month_simpl; lia.
  - apply Z.compare_gt_iff.
    destruct (is_leap y);
      destruct (month_cases _ Hm1)
        as [E|[E|[E|[E|[E|[E|[E|[E|[E|[E|[E|E]]]]]]]]]]];
      rewrite E in *; month_simpl;
      destruct (month_cases _ Hm2)
        as [F|[F|[F|[F|[F|[F|[F|[F|[F|[F|[F|F]]]]]]]]]]];
      rewrite F in *; month_simpl; lia.
Qed.

(** Ordinals are ordered as the dates. *)
Lemma toordinal_compare (a b : date) :
  valid a -> valid b ->
  (toordinal a ?= toordinal b) = Datetime.compare a b.
Proof.
  intros Ha Hb. unfold Datetime.compare.
  pose proof (day_of_year_bounds a Ha) as Da.
  pose proof (day_of_year_bounds b Hb) as Db.
  destruct a as [ya ma da], b as [yb mb db]. cbn [year month day] in *.
  unfold toordinal, ymd2ord. cbn [year month day].
  destruct (Z.compare_spec ya yb) as [->|Hlt|Hgt].
  - rewrite <- (day_of_year_compare yb ma da mb db Ha Hb).
    rewrite <- !Z.add_assoc. apply Z.add_compare_mono_l.
  - apply Z.compare_lt_iff.
    pose proof (days_before_year_mono (ya + 1) yb ltac:(lia)) as Hm.
    rewrite days_before_year_succ in Hm. lia.
  - apply Z.compare_gt_iff.
    pose proof (days_before_year_mono (yb + 1) ya ltac:(lia)) as Hm.
    rewrite days_before_year_succ in Hm. lia.
Qed.

Lemma compare_eq (a b : date) : Datetime.compare a b = Eq -> a = b.
Proof.
  unfold Datetime.compare. destruct a as [ya ma da], b as [yb mb db].
  cbn [year month day].
  destruct (Z.compare_spec ya yb); try discriminate.
  destruct (Z.compare_spec ma mb); try discriminate.
  destruct (Z.compare_spec da db); try discriminate.
  intros _. congruence.
Qed.

Lemma toordinal_inj (a b : date) :
  valid a -> valid b -> toordinal a = toordinal b -> a = b.
Proof.
  intros Ha Hb E. apply compare_eq.
  rewrite <- toordinal_compare by assumption. now apply Z.compare_eq_iff.
Qed.

Lemma fromordinal_toordinal (d : date) :
  valid d -> fromordinal (toordinal d) = d.
Proof.
  intros Hv. pose proof (toordinal_range d Hv) as Hr.
  destruct (ord2ymd_correct _ Hr) as [Hv' E].
  now apply toordinal_inj.
Qed.

Lemma add_days_ok (d : date) (k : Z) :
  1 <= toordinal d + k <= MAXORDINAL ->
  exists d', add_days d k = Ok d' /\ valid d'
             /\ toordinal d' = toordinal d + k.
Proof.
  intros H. unfold add_days. cbv zeta.
  replace ((0 <? toordinal d + k) && (toordinal d + k <=? MAXORDINAL))
    with true.
  - exists (fromordinal (toordinal d + k)).
    destruct (ord2ymd_correct _ H). auto.
  - symmetry. apply andb_true_iff. rewrite Z.ltb_lt, Z.leb_le. lia.
Qed.

Lemma add_days_overflow (d : date) (k : Z) :
  MAXORDINAL < toordinal d + k -> add_days d k = Raise OverflowError.
Proof.
  intros H. unfold add_days. cbv zeta.
  replace (toordinal d + k <=? MAXORDINAL) with false.
  - now rewrite andb_false_r.
  - symmetry. apply Z.leb_gt. lia.
Qed.

End Calendar.

(** ** Dates as text *)

Section IsoText.

Lemma N_of_digit (k : Z) :
  0 <= k <= 9 -> N_of_ascii (digit k) = (48 + Z.to_N k)%N.
Proof.
  intros H. unfold digit. apply N_ascii_embedding. lia.
Qed.

Lemma is_digit_digit (k : Z) : 0 <= k <= 9 -> is_digit (digit k) = true.
Proof.
  intros H. unfold is_digit. cbv zeta. rewrite N_of_digit by assumption.
  apply andb_true_iff. rewrite !N.leb_le. lia.
Qed.

Lemma digit_val_digit (k : Z) : 0 <= k <= 9 -> digit_val (digit k) = k.
Proof.
  intros H. unfold digit_val. rewrite N_of_digit by assumption. lia.
Qed.

Lemma digit_compare (j k : Z) :
  0 <= j <= 9 -> 0 <= k <= 9 -> Ascii.compare (digit j) (digit k) = (j ?= k).
Proof.
  intros Hj Hk. unfold Ascii.compare. rewrite !N_of_digit by assumption.
  rewrite <- N2Z.inj_compare, !N2Z.inj_add, !Z2N.id by lia.
  apply Z.add_compare_mono_l.
Qed.

Lemma digit_neq_dash (k : Z) : 0 <= k <= 9 -> Ascii.eqb (digit k) dash = false.
Proof.
  intros H. apply Ascii.eqb_neq. intros E.
  apply (f_equal N_of_ascii) in E. rewrite N_of_digit in E by assumption.
  change (N_of_ascii dash) with 45%N in E. lia.
Qed.

Lemma compare_base10 (a b : Z) :
  lexc (a / 10 ?= b / 10) (a mod 10 ?= b mod 10) = (a ?= b).
Proof.
  unfold lexc.
  destruct (Z.compare_spec (a / 10) (b / 10)) as [E|L|G].
  - destruct (Z.compare_spec (a mod 10) (b mod 10));
      symmetry;
      [apply Z.compare_eq_iff|apply Z.compare_lt_iff|apply Z.compare_gt_iff];
      dlia.
  - symmetry. apply Z.compare_lt_iff. dlia.
  - symmetry. apply Z.compare_gt_iff. dlia.
Qed.

Lemma string_compare_cons (a b : ascii) (s t : string) :
  String.compare (String a s) (String b t)
  = lexc (Ascii.compare a b) (String.compare s t).
Proof. cbn. unfold lexc. destruct (Ascii.compare a b); reflexivity. Qed.

Lemma ascii_compare_refl (a : ascii) : Ascii.compare a a = Eq.
Proof. unfold Ascii.compare. apply N.compare_refl. Qed.

Lemma lexc_assoc (a b c : comparison) : lexc (lexc a b) c = lexc a (lexc b c).
Proof. destruct a; reflexivity. Qed.

Lemma fmt02_compare (a b : Z) (s t : string) :
  0 <= a <= 99 -> 0 <= b <= 99 ->
  String.compare (fmt02 a ++ s) (fmt02 b ++ t)
  = lexc (a ?= b) (String.compare s t).
Proof.
  intros Ha Hb. unfold fmt02. cbn [append].
  rewrite !string_compare_cons, !digit_compare by dlia.
  rewrite <- lexc_assoc, compare_base10. reflexivity.
Qed.

Lemma fmt04_compare (a b : Z) (s t : string) :
  0 <= a <= 9999 -> 0 <= b <= 9999 ->
  String.compare (fmt04 a ++ s) (fmt04 b ++ t)
  = lexc (a ?= b) (String.compare s t).
Proof.
  intros Ha Hb. unfold fmt04. cbn [append].
  rewrite !string_compare_cons, !digit_compare by dlia.
  rewrite <- (compare_base10 a b).
  rewrite <- (compare_base10 (a / 10) (b / 10)).
  rewrite <- (compare_base10 (a / 10 / 10) (b / 10 / 10)).
  replace (a / 10 / 10 / 10) with (a / 1000) by dlia.
  replace (b / 10 / 10 / 10) with (b / 1000) by dlia.
  replace (a / 10 / 10 mod 10) with (a / 100 mod 10) by dlia.
  replace (b / 10 / 10 mod 10) with (b / 100 mod 10) by dlia.
  rewrite !lexc_assoc. reflexivity.
Qed.

Lemma days_in_month_le_31 (y m : Z) : days_in_month y m <= 31.
Proof.
  unfold days_in_month, DAYS_IN_MONTH.
  destruct ((m =? 2) && is_leap y); [lia|].
  destruct m as [|p|p]; try lia.
  do 4 (try destruct p as [p|p|]); lia.
Qed.

Lemma isoformat_shape (d : date) :
  isoformat d
  = fmt04 (year d) ++ String dash (fmt02 (month d) ++ String dash (fmt02 (day d) ++ "")).
Proof.
  unfold isoformat, fmt04, fmt02. reflexivity.
Qed.

(** SQLite's order on the ISO text of dates is the order of the dates. *)
Lemma isoformat_compare (a b : date) :
  valid a -> valid b ->
  String.compare (isoformat a) (isoformat b) = Datetime.compare a b.
Proof.
  rewrite !valid_iff. intros (Hya & Hma & Hda) (Hyb & Hmb & Hdb).
  pose proof (days_in_month_le_31 (year a) (month a)).
  pose proof (days_in_month_le_31 (year b) (month b)).
  rewrite !isoformat_shape.
  rewrite fmt04_compare by lia.
  rewrite string_compare_cons, ascii_compare_refl. cbn [lexc].
  rewrite fmt02_compare by lia.
  rewrite string_compare_cons, ascii_compare_refl. cbn [lexc].
  rewrite fmt02_compare by lia.
  unfold Datetime.compare, lexc. cbn [String.compare].
  destruct (year a ?= year b); try reflexivity.
  destruct (month a ?= month b); try reflexivity.
  destruct (day a ?= day b); reflexivity.
Qed.

Lemma isoformat_leb (a b : date) :
  valid a -> valid b ->
  String.leb (isoformat a) (isoformat b) = (toordinal a <=? toordinal b).
Proof.
  intros Ha Hb. unfold String.leb, Z.leb.
  rewrite isoformat_compare, toordinal_compare by assumption.
  destruct (Datetime.compare a b); reflexivity.
Qed.

Lemma isoformat_inj (a b : date) :
  valid a -> valid b -> isoformat a = isoformat b -> a = b.
Proof.
  intros Ha Hb E. apply compare_eq.
  rewrite <- isoformat_compare by assumption. rewrite E.
  clear. induction (isoformat b) as [|c s IH]; [reflexivity|].
  rewrite string_compare_cons, ascii_compare_refl. exact IH.
Qed.

Lemma fromisoformat_isoformat (d : date) :
  valid d -> fromisoformat (isoformat d) = Ok d.
Proof.
  intros Hv. pose proof Hv as Hv'. apply valid_iff in Hv'.
  destruct Hv' as (Hy & Hm & Hd).
  pose proof (days_in_month_le_31 (year d) (month d)).
  unfold isoformat, fmt04, fmt02. cbn [append].
  unfold fromisoformat. cbn [forallb].
  rewrite !is_digit_digit by dlia.
  rewrite !digit_val_digit by dlia.
  change (Ascii.eqb "-" dash) with true. cbn [andb].
  replace (1000 * (year d / 1000) + 100 * (year d / 100 mod 10)
           + 10 * (year d / 10 mod 10) + year d mod 10)
    with (year d) by dlia.
  replace (10 * (month d / 10) + month d mod 10) with (month d) by dlia.
  replace (10 * (day d / 10) + day d mod 10) with (day d) by dlia.
  unfold new_date. unfold valid in Hv. rewrite Hv. destruct d; reflexivity.
Qed.

End IsoText.

(** ** Weeks *)

Section Weeks.

Lemma weekday_range (d : date) : 0 <= weekday d <= 6.
Proof. unfold weekday. dlia. Qed.

Lemma iso_week_start_ok (d : date) :
  valid d ->
  exists ws, iso_week_start d = Ok ws /\ valid ws
             /\ toordinal ws = toordinal d - weekday d.
Proof.
  intros Hv. pose proof (toordinal_range d Hv) as Hr.
  unfold iso_week_start, sub_days.
  destruct (add_days_ok d (- weekday d)) as (ws & E & Hws & Ho).
  - unfold weekday. dlia.
  - exists ws. repeat split; [exact E|exact Hws|lia].
Qed.

Lemma le_toordinal (a b : date) :
  valid a -> valid b -> (Datetime.le a b <-> toordinal a <= toordinal b).
Proof.
  intros Ha Hb. unfold Datetime.le.
  rewrite <- toordinal_compare by assumption.
  unfold Z.le. tauto.
Qed.

(** The start of the week is a Monday, on or before the date, and no Monday
    lies between the two. *)
Lemma iso_week_start_monday (d : date) :
  valid d ->
  exists ws,
    iso_week_start d = Ok ws /\ valid ws
    /\ weekday ws = 0 /\ isoweekday ws = 1
    /\ Datetime.le ws d
    /\ 0 <= days_between d ws <= 6
    /\ (forall m, valid m -> weekday m = 0 -> Datetime.le m d ->
                  Datetime.le m ws).
Proof.
  intros Hv. destruct (iso_week_start_ok d Hv) as (ws & E & Hws & Ho).
  exists ws. split; [exact E|]. split; [exact Hws|].
  pose proof (toordinal_range d Hv) as Hr.
  assert (Hwd : weekday ws = 0).
  { unfold weekday in *. rewrite Ho. dlia. }
  split; [exact Hwd|].
  split. { unfold isoweekday, weekday in *. cbv zeta.
           destruct (toordinal ws mod 7 =? 0) eqn:T; bool_hyps; dlia. }
  split. { apply le_toordinal; trivial. pose proof (weekday_range d). lia. }
  split. { unfold days_between. pose proof (weekday_range d). lia. }
  intros m Hm Hmon Hle.
  apply le_toordinal in Hle; trivial. apply le_toordinal; trivial.
  unfold weekday in *. dlia.
Qed.

Lemma sql_sum_filter {R : Type} (P : R -> bool) (f : R -> option Q)
      (rows : list R) :
  (coalesce (sql_sum (map f (filter P rows))) 0
   == fold_right (fun r acc => if P r then coalesce (f r) 0 + acc else acc)
                 0 rows)%Q.
Proof.
  induction rows as [|r rows IH]; cbn [filter map sql_sum fold_right coalesce].
  - reflexivity.
  - destruct (P r); [|exact IH].
    cbn [map sql_sum]. destruct (f r) as [v|]; cbn [coalesce].
    + rewrite <- IH. destruct (sql_sum (map f (filter P rows))); cbn [coalesce]; ring.
    + rewrite <- IH. ring.
Qed.

Lemma fold_right_ext_in {R : Type} (g h : R -> Q -> Q) (rows : list R) :
  Forall (fun r => forall acc, g r acc = h r acc) rows ->
  fold_right g 0%Q rows = fold_right h 0%Q rows.
Proof.
  induction 1 as [|r rows Hr _ IH]; cbn [fold_right]; [reflexivity|].
  rewrite IH. apply Hr.
Qed.

(** On ISO dates, the [BETWEEN] of the query is the window of the week. *)
Lemma text_between_in_week (ws we x : date) :
  valid ws -> valid we -> valid x -> toordinal we = toordinal ws + 6 ->
  text_between (isoformat x) (isoformat ws) (isoformat we)
  = dated_in_week ws (isoformat x).
Proof.
  intros Hws Hwe Hx He. unfold text_between, dated_in_week.
  rewrite fromisoformat_isoformat by assumption.
  rewrite !isoformat_leb by assumption.
  unfold in_week, days_between. rewrite He.
  apply eq_true_iff_eq. rewrite !andb_true_iff, !Z.leb_le. lia.
Qed.

(** The total of a weekly query is the total of the specification. *)
Lemma week_query_total {R : Type} (date_of : R -> string)
      (f : R -> option Q) (ws we : date) (rows : list R) :
  valid ws -> valid we -> toordinal we = toordinal ws + 6 ->
  iso_dated date_of rows ->
  (coalesce
     (sql_sum (map f
        (filter (fun r => text_between (date_of r) (isoformat ws) (isoformat we))
                rows))) 0
   == spec_week_total date_of f ws rows)%Q.
Proof.
  intros Hws Hwe He Hrows. rewrite sql_sum_filter. unfold spec_week_total.
  erewrite fold_right_ext_in; [reflexivity|].
  eapply Forall_impl; [|exact Hrows].
  cbv beta. intros r (x & Hx & ->) acc.
  now rewrite text_between_in_week.
Qed.

End Weeks.

(** ** Weekly totals *)

Section WeeklyTotals.

Lemma spec_week_total_app {R : Type} (date_of : R -> string)
      (f : R -> option Q) (ws : date) (rows : list R) (r : R) :
  (spec_week_total date_of f ws (rows ++ [r])
   == spec_week_total date_of f ws rows
      + (if dated_in_week ws (date_of r) then coalesce (f r) 0 else 0))%Q.
Proof.
  unfold spec_week_total.
  induction rows as [|a rows IH]; cbn [app fold_right].
  - destruct (dated_in_week ws (date_of r)); ring.
  - destruct (dated_in_week ws (date_of a)); rewrite IH; ring.
Qed.

(** A row dated seven days after the start of the week, or without the
    field, adds nothing. *)
Lemma spec_week_total_unchanged {R : Type} (date_of : R -> string)
      (f : R -> option Q) (ws : date) (rows : list R) (r : R) :
  (exists x, valid x /\ date_of r = isoformat x /\ days_between x ws = 7)
  \/ f r = None ->
  (spec_week_total date_of f ws (rows ++ [r])
   == spec_week_total date_of f ws rows)%Q.
Proof.
  intros H. rewrite spec_week_total_app.
  destruct H as [(x & Hx & E & H7)|E].
  - unfold dated_in_week. rewrite E, fromisoformat_isoformat by assumption.
    unfold in_week. rewrite H7. cbn. ring.
  - rewrite E. cbn [coalesce]. destruct (dated_in_week ws (date_of r)); ring.
Qed.

Lemma iso_dated_app {R : Type} (date_of : R -> string) (rows : list R) (r : R) :
  iso_dated date_of rows ->
  (exists x, valid x /\ date_of r = isoformat x) ->
  iso_dated date_of (rows ++ [r]).
Proof.
  intros H Hr. unfold iso_dated. apply Forall_app. split; [exact H|].
  constructor; [exact Hr|constructor].
Qed.

(** What [cmd_week_sums] returns when the week fits in the calendar. *)
Lemma cmd_week_sums_run (clk : Clock) (db : DB) (ws we : date) :
  iso_week_start (clock_today clk) = Ok ws ->
  add_days ws 6 = Ok we ->
  cmd_week_sums clk db
  = (Ok {| ws_start := ws; ws_end := we;
           week_minutes :=
             coalesce (sql_sum (map w_duration_min
               (filter (fun r => text_between (w_date r) (isoformat ws) (isoformat we))
                       (workouts db)))) 0;
           week_calories :=
             coalesce (sql_sum (map m_calories
               (filter (fun r => text_between (m_date r) (isoformat ws) (isoformat we))
                       (meals db)))) 0;
           week_protein :=
             coalesce (sql_sum (map m_protein_g
               (filter (fun r => text_between (m_date r) (isoformat ws) (isoformat we))
                       (meals db)))) 0 |}, db).
Proof.
  intros E1 E2. unfold cmd_week_sums. cbv [bind lift select ret].
  rewrite E1, E2. reflexivity.
Qed.

Lemma sum_today_run (d ws we : date) (db : DB) :
  valid d ->
  iso_week_start d = Ok ws ->
  add_days ws 6 = Ok we ->
  exists t,
    sum_today (isoformat d) db = (Ok t, db)
    /\ t_week_exercise_min t
       = coalesce (sql_sum (map w_duration_min
           (filter (fun r => text_between (w_date r) (isoformat ws) (isoformat we))
                   (workouts db)))) 0.
Proof.
  intros Hv E1 E2. unfold sum_today. cbv [bind lift select ret].
  rewrite fromisoformat_isoformat by assumption. cbn [rbind].
  rewrite E1. cbn [rbind]. rewrite E2.
  eexists. split; reflexivity.
Qed.

Lemma week_end_ok (d ws : date) :
  valid d -> valid ws ->
  toordinal ws = toordinal d - weekday d ->
  Datetime.le d (mkdate 9999 12 26) ->
  exists we, add_days ws 6 = Ok we /\ valid we
             /\ toordinal we = toordinal ws + 6.
Proof.
  intros Hd Hws Ho Hle.
  assert (Hmax : valid (mkdate 9999 12 26)) by reflexivity.
  apply le_toordinal in Hle; trivial.
  change (toordinal (mkdate 9999 12 26)) with 3652054 in Hle.
  pose proof (toordinal_range ws Hws).
  apply add_days_ok. unfold MAXORDINAL in *.
  unfold weekday in Ho. dlia.
Qed.

End WeeklyTotals.

(** C3, as amended.  For every calendar date [d] the computed week start is
    the most recent Monday on or before [d].  For every [d] up to 9999-12-26
    (so that the Sunday of its week is still a date of the calendar) and every
    database whose workouts and meals carry ISO dates, the weekly totals of
    [cmd_week] (workout minutes, meal calories, meal protein) and the weekly
    minutes of [sum_today] are the sums over exactly the entries dated in the
    inclusive window from the week start to six days later, an absent field
    counting for zero; nothing is written.  An entry dated seven days after
    the week start, or one whose field is absent, leaves a total unchanged. *)
Theorem weekly_totals_window (clk : Clock) (db : DB) :
  let d := clock_today clk in
  valid d ->
  iso_dated w_date (workouts db) ->
  iso_dated m_date (meals db) ->
  exists ws,
    iso_week_start d = Ok ws /\ valid ws
    /\ weekday ws = 0 /\ Datetime.le ws d
    /\ (forall m, valid m -> weekday m = 0 -> Datetime.le m d -> Datetime.le m ws)
    /\ (Datetime.le d (mkdate 9999 12 26) ->
        exists we s t,
          add_days ws 6 = Ok we /\ days_between we ws = 6
          /\ cmd_week_sums clk db = (Ok s, db)
          /\ ws_start s = ws /\ ws_end s = we
          /\ (week_minutes s
              == spec_week_total w_date w_duration_min ws (workouts db))%Q
          /\ (week_calories s
              == spec_week_total m_date m_calories ws (meals db))%Q
          /\ (week_protein s
              == spec_week_total m_date m_protein_g ws (meals db))%Q
          /\ sum_today (isoformat d) db = (Ok t, db)
          /\ (t_week_exercise_min t
              == spec_week_total w_date w_duration_min ws (workouts db))%Q
          /\ (forall r,
                (exists x, valid x /\ w_date r = isoformat x
                           /\ (days_between x ws = 7 \/ w_duration_min r = None)) ->
                exists s',
                  cmd_week_sums clk (set_workouts db (workouts db ++ [r]))
                  = (Ok s', set_workouts db (workouts db ++ [r]))
                  /\ (week_minutes s' == week_minutes s)%Q)
          /\ (forall r,
                (exists x, valid x /\ m_date r = isoformat x
                           /\ (days_between x ws = 7
                               \/ (m_calories r = None /\ m_protein_g r = None))) ->
                exists s',
                  cmd_week_sums clk (set_meals db (meals db ++ [r]))
                  = (Ok s', set_meals db (meals db ++ [r]))
                  /\ (week_calories s' == week_calories s)%Q
                  /\ (week_protein s' == week_protein s)%Q)).
Proof.
  intros d Hd Hw Hm.
  destruct (iso_week_start_monday d Hd)
    as (ws & E1 & Hws & Hmon & _ & Hle' & Hbetween & Hrecent).
  destruct (iso_week_start_ok d Hd) as (ws' & E1' & _ & Ho).
  rewrite E1 in E1'. injection E1' as <-.
  exists ws.
  split; [exact E1|]. split; [exact Hws|]. split; [exact Hmon|].
  split; [exact Hle'|]. split; [exact Hrecent|].
  intros Hle.
  destruct (week_end_ok d ws Hd Hws Ho Hle) as (we & E2 & Hwe & Hoe).
  destruct (sum_today_run d ws we db Hd E1 E2) as (t & Et & Etw).
  eexists we, _, t.
  split; [exact E2|].
  split; [unfold days_between; lia|].
  split; [apply (cmd_week_sums_run clk db ws we E1 E2)|].
  cbn [ws_start ws_end week_minutes week_calories week_protein].
  split; [reflexivity|]. split; [reflexivity|].
  split; [now apply week_query_total|].
  split; [now apply week_query_total|].
  split; [now apply week_query_total|].
  split; [exact Et|].
  split; [rewrite Etw; now apply week_query_total|].
  split.
  - intros r (x & Hx & Er & Hcase).
    eexists. split; [apply (cmd_week_sums_run clk _ ws we E1 E2)|].
    cbn [week_minutes workouts set_workouts].
    rewrite !week_query_total; trivial.
    + apply spec_week_total_unchanged.
      destruct Hcase as [H7|Hnone]; [left; now exists x|now right].
    + apply iso_dated_app; trivial. now exists x.
  - intros r (x & Hx & Er & Hcase).
    eexists. split; [apply (cmd_week_sums_run clk _ ws we E1 E2)|].
    cbn [week_calories week_protein meals set_meals].
    assert (Hm' : iso_dated m_date (meals db ++ [r])).
    { apply iso_dated_app; trivial. now exists x. }
    rewrite !week_query_total; trivial.
    split; apply spec_week_total_unchanged;
      (destruct Hcase as [H7|[Hc Hp]]; [left; now exists x|now right]).
Qed.

Lemma example_db_iso_dated :
  iso_dated w_date (workouts example_db) /\ iso_dated m_date (meals example_db).
Proof.
  split.
  - repeat constructor.
    + exists (mkdate 2024 1 1). split; reflexivity.
    + exists (mkdate 2024 1 8). split; reflexivity.
  - repeat constructor.
    + exists (mkdate 2024 1 3). split; reflexivity.
    + exists (mkdate 2024 1 7). split; reflexivity.
Qed.

(** On Wednesday 2024-01-03 the week starts on Monday 2024-01-01: the workout
    of that day counts, the one of 2024-01-08 does not. *)
Lemma weekly_totals_window_witness :
  exists s,
    cmd_week_sums example_clock example_db = (Ok s, example_db)
    /\ ws_start s = mkdate 2024 1 1 /\ ws_end s = mkdate 2024 1 7
    /\ (week_minutes s == 45)%Q /\ (week_calories s == 165)%Q.
Proof.
  destruct (weekly_totals_window example_clock example_db)
    as (ws & E1 & _ & _ & _ & _ & Htotals).
  - reflexivity.
  - apply example_db_iso_dated.
  - apply example_db_iso_dated.
  - destruct Htotals
      as (we & s & t & E2 & _ & Es & Hs & He & Hmin & Hcal & _).
    { unfold Datetime.le. cbn. discriminate. }
    assert (E1' : iso_week_start (clock_today example_clock) = Ok (mkdate 2024 1 1))
      by (vm_compute; reflexivity).
    rewrite E1' in E1. injection E1 as <-.
    assert (E2' : add_days (mkdate 2024 1 1) 6 = Ok (mkdate 2024 1 7))
      by (vm_compute; reflexivity).
    rewrite E2' in E2. injection E2 as <-.
    exists s. split; [exact Es|]. split; [exact Hs|]. split; [exact He|].
    split.
    + apply (Qeq_trans _ _ _ Hmin). vm_compute. reflexivity.
    + apply (Qeq_trans _ _ _ Hcal). vm_compute. reflexivity.
Defined.

(** C3 as stated fails on the last five days of the calendar: the week of
    9999-12-31 starts on Monday 9999-12-27, six days later is past
    [date.max], and the weekly totals are an [OverflowError]. *)
Lemma weekly_totals_last_week :
  valid (clock_today last_day_clock)
  /\ iso_week_start (clock_today last_day_clock) = Ok (mkdate 9999 12 27)
  /\ fst (cmd_week_sums last_day_clock example_db) = Raise OverflowError
  /\ fst (sum_today (iso_today last_day_clock) example_db) = Raise OverflowError.
Proof. repeat split; vm_compute; reflexivity. Qed.

(** ** The week of the plan *)

Section PlanWeek.

Lemma clamp_max_min (x : Z) : Z.max 1 (Z.min 4 x) = clamp 1 4 x.
Proof.
  unfold clamp. destruct (x <? 1) eqn:E1; [|destruct (4 <? x) eqn:E2];
    bool_hyps; lia.
Qed.

Lemma plan_week_run (sd td ws_s ws_t : date) :
  iso_week_start sd = Ok ws_s -> iso_week_start td = Ok ws_t ->
  plan_week sd td = Ok (clamp 1 4 (days_between ws_t ws_s / 7 + 1)).
Proof.
  intros Es Et. unfold plan_week, get_week_number_since.
  rewrite Es, Et. cbn [rbind]. now rewrite clamp_max_min.
Qed.

Lemma isoformat_truthy (d : date) :
  truthy (Some (isoformat d)) = Some (isoformat d).
Proof. reflexivity. Qed.

Lemma fetchone_plan_entry (week dow : Z) (db : DB) :
  match fetchone (filter (fun r => (pl_week r =? week) && (pl_dow r =? dow))
                         (plan_workouts db)) with
  | None => None
  | Some r => Some (pl_name r, pl_details r)
  end = plan_entry week dow db.
Proof.
  unfold plan_entry, fetchone.
  destruct (filter _ (plan_workouts db)); reflexivity.
Qed.

(** [get_today_plan] once the start date is known. *)
Lemma get_today_plan_run (clk : Clock) (db : DB) (p : Profile) (sd td : date)
      (w : Z) :
  get_profile clk db = (Ok p, db) ->
  match truthy (start_date p) with
  | Some s => fromisoformat s
  | None => Ok td
  end = Ok sd ->
  plan_week sd td = Ok w ->
  get_today_plan clk td db = (Ok (plan_entry w (isoweekday td) db), db).
Proof.
  intros Ep Es Ew. unfold get_today_plan. unfold bind at 1. rewrite Ep.
  cbv [bind lift select ret]. rewrite Es, Ew.
  now rewrite fetchone_plan_entry.
Qed.

End PlanWeek.

(** C2.  For every profile start date and every target date, the plan week
    that [get_today_plan] looks up is
    [floor((week_start(target) - week_start(start)) / 7 days) + 1] clamped to
    the closed range from 1 to 4; the lookup returns without an exception and
    writes nothing; a target ten weeks after the start gives week 4. *)
Theorem plan_week_clamped
    (clk : Clock) (db : DB) (row : profile_row) (sd td : date) :
  valid sd -> valid td ->
  profile db = [row] -> p_id row = 1 ->
  p_start_date row = Some (isoformat sd) ->
  exists ws_s ws_t,
    iso_week_start sd = Ok ws_s /\ iso_week_start td = Ok ws_t
    /\ plan_week sd td = Ok (clamp 1 4 (days_between ws_t ws_s / 7 + 1))
    /\ 1 <= clamp 1 4 (days_between ws_t ws_s / 7 + 1) <= 4
    /\ get_today_plan clk td db
       = (Ok (plan_entry (clamp 1 4 (days_between ws_t ws_s / 7 + 1))
                         (isoweekday td) db), db)
    /\ (days_between td sd = 70 ->
        days_between ws_t ws_s / 7 + 1 = 11
        /\ clamp 1 4 (days_between ws_t ws_s / 7 + 1) = 4).
Proof.
  intros Hsd Htd Hp Hid Hstart.
  destruct (iso_week_start_ok sd Hsd) as (ws_s & Es & Hvs & Hos).
  destruct (iso_week_start_ok td Htd) as (ws_t & Et & Hvt & Hot).
  exists ws_s, ws_t.
  pose proof (plan_week_run sd td ws_s ws_t Es Et) as Hw.
  split; [exact Es|]. split; [exact Et|]. split; [exact Hw|].
  split.
  { unfold clamp.
    destruct (_ <? 1) eqn:E1; [lia|]. destruct (4 <? _) eqn:E2; bool_hyps; lia. }
  split.
  - eapply get_today_plan_run; [| |exact Hw].
    + unfold get_profile. cbv [bind select ret]. rewrite Hp.
      cbn [filter]. rewrite Hid. cbn [Z.eqb Pos.eqb fetchone hd_error].
      reflexivity.
    + cbn [start_date]. rewrite Hstart, isoformat_truthy.
      now apply fromisoformat_isoformat.
  - intros H70. unfold days_between in *. unfold weekday in *.
    assert (E : (toordinal ws_t - toordinal ws_s) / 7 + 1 = 11) by dlia.
    split; [exact E|]. rewrite E. reflexivity.
Qed.

Lemma plan_week_clamped_witness :
  get_today_plan example_clock (mkdate 2024 3 13) example_db
  = (Ok (Some ("Workout B", details_B)), example_db).
Proof.
  destruct (plan_week_clamped example_clock example_db
              {| p_id := 1; p_name := Some "You";
                 p_start_date := Some "2024-01-03" |}
              (mkdate 2024 1 3) (mkdate 2024 3 13))
    as (ws_s & ws_t & Es & Et & _ & _ & Hget & H70).
  - reflexivity.
  - reflexivity.
  - reflexivity.
  - reflexivity.
  - reflexivity.
  - rewrite Hget. destruct H70 as [_ ->]; [vm_compute; reflexivity|].
    vm_compute. reflexivity.
Defined.

(** C10.  When the profile table is empty, the profile read falls back to the
    name "You" and the current date as start date; the lookup of today's plan
    raises nothing and writes nothing, the plan week is 1, and the entry
    returned is the one for week 1 and today's ISO day of the week (or the
    absent result). *)
Theorem today_plan_without_profile (clk : Clock) (db : DB) :
  valid (clock_today clk) ->
  profile db = [] ->
  get_profile clk db
  = (Ok {| name := Some "You"; start_date := Some (iso_today clk) |}, db)
  /\ plan_week (clock_today clk) (clock_today clk) = Ok 1
  /\ get_today_plan clk (clock_today clk) db
     = (Ok (plan_entry 1 (isoweekday (clock_today clk)) db), db)
  /\ 1 <= isoweekday (clock_today clk) <= 7.
Proof.
  intros Hv Hp.
  assert (Eprof : get_profile clk db
          = (Ok {| name := Some "You"; start_date := Some (iso_today clk) |}, db)).
  { unfold get_profile. cbv [bind select ret]. rewrite Hp. reflexivity. }
  assert (Ew : plan_week (clock_today clk) (clock_today clk) = Ok 1).
  { destruct (iso_week_start_ok _ Hv) as (ws & Es & _ & _).
    rewrite (plan_week_run _ _ ws ws Es Es).
    unfold days_between. rewrite Z.sub_diag. reflexivity. }
  split; [exact Eprof|]. split; [exact Ew|]. split.
  - eapply get_today_plan_run; [exact Eprof| |exact Ew].
    cbn [start_date]. unfold iso_today. rewrite isoformat_truthy.
    now apply fromisoformat_isoformat.
  - unfold isoweekday. cbv zeta.
    destruct (_ =? 0) eqn:E; bool_hyps; dlia.
Qed.

(** Wednesday 2024-01-03 with the seed plan and no profile row: Workout B. *)
Lemma today_plan_without_profile_witness :
  get_today_plan example_clock (mkdate 2024 1 3) (set_profile example_db [])
  = (Ok (Some ("Workout B", details_B)), set_profile example_db []).
Proof.
  destruct (today_plan_without_profile example_clock (set_profile example_db []))
    as (_ & _ & Hget & _).
  - reflexivity.
  - reflexivity.
  - change (clock_today example_clock) with (mkdate 2024 1 3) in Hget.
    rewrite Hget. vm_compute. reflexivity.
Defined.

(** ** Meals *)

(** C1.  [add_meal] appends exactly one row and raises nothing.  In that row:
    when the calories argument is absent and the three macros are present,
    calories is [4*protein_g + 4*carbs_g + 9*fat_g]; when calories is absent
    and a macro is absent too, calories is absent (neither zero nor a partial
    sum); calories that are supplied are stored unchanged.  The macros are
    stored as given. *)
Theorem add_meal_calories
    (clk : Clock) (date_str meal_type : string)
    (calories protein_g carbs_g fat_g : option Q) (items : option string)
    (db : DB) :
  exists row,
    add_meal clk date_str meal_type calories protein_g carbs_g fat_g items db
    = (Ok tt, set_meals db (meals db ++ [row]))
    /\ m_date row = date_str /\ m_meal_type row = meal_type
    /\ m_protein_g row = protein_g /\ m_carbs_g row = carbs_g
    /\ m_fat_g row = fat_g /\ m_items row = items
    /\ (forall p c f,
          calories = None -> protein_g = Some p -> carbs_g = Some c ->
          fat_g = Some f ->
          m_calories row = Some (4 * p + 4 * c + 9 * f)%Q)
    /\ (calories = None ->
        protein_g = None \/ carbs_g = None \/ fat_g = None ->
        m_calories row = None)
    /\ (forall x, calories = Some x -> m_calories row = Some x).
Proof.
  eexists. split; [reflexivity|].
  cbn [m_date m_meal_type m_calories m_protein_g m_carbs_g m_fat_g m_items].
  repeat split.
  - intros p c f -> -> -> ->. reflexivity.
  - intros -> Hm.
    destruct protein_g, carbs_g, fat_g; try reflexivity;
      destruct Hm as [Hm|[Hm|Hm]]; discriminate Hm.
  - intros x ->. destruct protein_g, carbs_g, fat_g; reflexivity.
Qed.

(** The two meals of section 8 of the specification: 165 kcal, and absent. *)
Lemma add_meal_calories_examples :
  map m_calories (meals example_db) = [Some 165%Q; None].
Proof. vm_compute. reflexivity. Qed.

(** ** Goals *)

Section Goals.

Lemma NoDup_snoc {A : Type} (l : list A) (x : A) :
  NoDup l -> ~ In x l -> NoDup (l ++ [x]).
Proof.
  induction 1 as [|a l Ha Hl IH]; cbn [app In]; intros Hx.
  - constructor; [tauto|constructor].
  - constructor.
    + rewrite in_app_iff. cbn [In]. intros [H|[H|[]]]; [tauto|].
      apply Hx. now left.
    + apply IH. tauto.
Qed.

Lemma existsb_has_key (key : string) (t : list goal_row) :
  existsb (has_key key) t = true <-> In key (map g_key t).
Proof.
  rewrite existsb_exists, in_map_iff. unfold has_key.
  split; intros (r & H1 & H2).
  - exists r. apply String.eqb_eq in H2. auto.
  - exists r. split; [exact H2|]. now apply String.eqb_eq.
Qed.

Lemma filter_has_key_none (key : string) (t : list goal_row) :
  ~ In key (map g_key t) -> filter (has_key key) t = [].
Proof.
  induction t as [|r t IH]; cbn [map In filter]; [reflexivity|].
  intros H. unfold has_key at 1.
  destruct (String.eqb_spec (g_key r) key) as [E|E]; [tauto|].
  apply IH. tauto.
Qed.

(** With unique keys, the rows selected by a key are the row that has it. *)
Lemma filter_has_key_unique (key : string) (t : list goal_row) (r : goal_row) :
  NoDup (map g_key t) -> In r t -> g_key r = key ->
  filter (has_key key) t = [r].
Proof.
  induction t as [|a t IH]; cbn [map In filter]; [tauto|].
  intros Hnd Hin Hk. inversion Hnd as [|? ? Hnotin Hnd']; subst.
  unfold has_key at 1.
  destruct Hin as [->|Hin].
  - rewrite String.eqb_refl. f_equal. now apply filter_has_key_none.
  - destruct (String.eqb_spec (g_key a) (g_key r)) as [E|E].
    + exfalso. apply Hnotin. rewrite E. now apply in_map.
    + now apply IH.
Qed.

Lemma get_goal_run (key : string) (db : DB) :
  get_goal key db
  = (Ok match filter (has_key key) (goals db) with
        | [] => (0%Q, "")
        | r :: _ => (g_value r, g_unit r)
        end, db).
Proof.
  unfold get_goal. cbv [bind select ret fetchone].
  destruct (filter (has_key key) (goals db)); reflexivity.
Qed.

Lemma upsert_goal_keys_present (t : list goal_row) (key : string) (v : Q)
      (u now : string) :
  In key (map g_key t) ->
  map g_key (upsert_goal t key v u now) = map g_key t.
Proof.
  intros Hin. unfold upsert_goal.
  replace (existsb (has_key key) t) with true
    by (symmetry; now apply existsb_has_key).
  rewrite map_map. apply map_ext. intros r.
  destruct (has_key key r); reflexivity.
Qed.

Lemma upsert_goal_keys_absent (t : list goal_row) (key : string) (v : Q)
      (u now : string) :
  ~ In key (map g_key t) ->
  upsert_goal t key v u now
  = (t ++ [ {| g_id := next_rowid (map g_id t); g_key := key; g_value := v;
               g_unit := u; g_updated_at := now |} ])%list.
Proof.
  intros Hin. unfold upsert_goal.
  destruct (existsb (has_key key) t) eqn:E; [|reflexivity].
  apply existsb_has_key in E. contradiction.
Qed.

(** After the upsert the first row that has the key carries the new value
    and unit. *)
Lemma upsert_goal_lookup (t : list goal_row) (key : string) (v : Q)
      (u now : string) :
  exists r rest,
    filter (has_key key) (upsert_goal t key v u now) = r :: rest
    /\ g_value r = v /\ g_unit r = u.
Proof.
  destruct (in_dec string_dec key (map g_key t)) as [Hin|Hnot].
  - unfold upsert_goal.
    replace (existsb (has_key key) t) with true
      by (symmetry; now apply existsb_has_key).
    induction t as [|a t IH]; cbn [map In] in Hin; [tauto|].
    cbn [map filter]. destruct (has_key key a) eqn:E.
    + unfold has_key in E |- *. cbn [g_key]. rewrite E. eauto.
    + rewrite E. apply IH. destruct Hin as [Hin|Hin]; [|assumption].
      unfold has_key in E. rewrite Hin, String.eqb_refl in E. discriminate.
  - rewrite upsert_goal_keys_absent by assumption.
    rewrite filter_app, filter_has_key_none by assumption.
    cbn [filter app]. unfold has_key. cbn [g_key].
    rewrite String.eqb_refl. eauto.
Qed.

Lemma upsert_goal_NoDup (t : list goal_row) (key : string) (v : Q)
      (u now : string) :
  NoDup (map g_key t) -> NoDup (map g_key (upsert_goal t key v u now)).
Proof.
  intros Hnd.
  destruct (in_dec string_dec key (map g_key t)) as [Hin|Hnot].
  - now rewrite upsert_goal_keys_present.
  - rewrite upsert_goal_keys_absent by assumption.
    rewrite map_app. cbn [map g_key]. now apply NoDup_snoc.
Qed.

Lemma set_goal_run (clk : Clock) (key : string) (v : Q) (u : option string)
      (db : DB) :
  set_goal clk key v u db
  = (Ok tt,
     set_goals db
       (upsert_goal (goals db) key v
          match u with
          | Some u' => u'
          | None => match filter (has_key key) (goals db) with
                    | [] => ""
                    | r :: _ => g_unit r
                    end
          end (now_iso clk))).
Proof.
  unfold set_goal. destruct u as [u'|].
  - reflexivity.
  - cbv [bind select ret execute fetchone].
    destruct (filter (has_key key) (goals db)); reflexivity.
Qed.

End Goals.

(** C7.  [get_goal] is total over arbitrary keys: it always returns a pair,
    raises nothing and leaves the database as it was; the pair is the stored
    value and unit when a row has the key, and [(0, "")] when none has. *)
Theorem get_goal_total (db : DB) (key : string) :
  (exists v u, get_goal key db = (Ok (v, u), db))
  /\ (forall r, NoDup (map g_key (goals db)) -> In r (goals db) ->
                g_key r = key ->
                get_goal key db = (Ok (g_value r, g_unit r), db))
  /\ (~ In key (map g_key (goals db)) ->
      get_goal key db = (Ok (0%Q, ""), db)).
Proof.
  rewrite get_goal_run. split; [|split].
  - destruct (filter (has_key key) (goals db)); eauto.
  - intros r Hnd Hin Hk.
    now rewrite (filter_has_key_unique key (goals db) r).
  - intros Hnot. now rewrite filter_has_key_none.
Qed.

(** C4.  On a goals table with unique keys: [set_goal k v u] followed by
    [get_goal k] yields the value [v]; with a unit given, that unit; with the
    unit omitted, the unit of the row that had the key, or the empty string
    when no row had it.  Afterwards the keys are still unique, so at most one
    row has any key, and exactly one has [k]. *)
Theorem set_goal_upsert (clk : Clock) (db : DB) (key : string) (v : Q) :
  NoDup (map g_key (goals db)) ->
  forall unit_ : option string,
  exists db',
    set_goal clk key v unit_ db = (Ok tt, db')
    /\ (forall u, unit_ = Some u -> get_goal key db' = (Ok (v, u), db'))
    /\ (forall r, unit_ = None -> In r (goals db) -> g_key r = key ->
                  get_goal key db' = (Ok (v, g_unit r), db'))
    /\ (unit_ = None -> ~ In key (map g_key (goals db)) ->
        get_goal key db' = (Ok (v, ""), db'))
    /\ NoDup (map g_key (goals db'))
    /\ List.length (filter (has_key key) (goals db')) = 1%nat
    /\ (In key (map g_key (goals db)) ->
        map g_key (goals db') = map g_key (goals db)).
Proof.
  intros Hnd unit_. eexists. split; [apply set_goal_run|].
  cbn [goals set_goals].
  set (u_eff := match unit_ with Some u' => u' | None => _ end).
  assert (Hnd' : NoDup (map g_key (upsert_goal (goals db) key v u_eff (now_iso clk))))
    by now apply upsert_goal_NoDup.
  destruct (upsert_goal_lookup (goals db) key v u_eff (now_iso clk))
    as (r' & rest & Hf & Hv & Hu).
  assert (Hget : forall u, u_eff = u ->
            get_goal key (set_goals db (upsert_goal (goals db) key v u_eff (now_iso clk)))
            = (Ok (v, u), set_goals db (upsert_goal (goals db) key v u_eff (now_iso clk)))).
  { intros u <-. rewrite get_goal_run. cbn [goals set_goals].
    rewrite Hf, Hv, Hu. reflexivity. }
  split; [|split; [|split; [|split; [|split]]]].
  - intros u ->. now apply Hget.
  - intros r -> Hin Hk. apply Hget. subst u_eff.
    now rewrite (filter_has_key_unique key (goals db) r).
  - intros -> Hnot. apply Hget. subst u_eff.
    now rewrite filter_has_key_none.
  - exact Hnd'.
  - assert (Hin : In r' (filter (has_key key)
                     (upsert_goal (goals db) key v u_eff (now_iso clk))))
      by (rewrite Hf; now left).
    apply filter_In in Hin. destruct Hin as [Hin Hk].
    apply String.eqb_eq in Hk.
    now rewrite (filter_has_key_unique key _ r' Hnd' Hin Hk).
  - intros Hin. now apply upsert_goal_keys_present.
Qed.

(** Section 8 of the specification: ["k"] set to 10 with unit ["u"], then to 20
    with no unit, reads 20 with unit ["u"]. *)
Lemma set_goal_upsert_witness :
  exists db1 db2,
    set_goal example_clock "k" 10 (Some "u") example_db = (Ok tt, db1)
    /\ set_goal example_clock "k" 20 None db1 = (Ok tt, db2)
    /\ get_goal "k" db2 = (Ok (20%Q, "u"), db2)
    /\ NoDup (map g_key (goals db2)).
Proof.
  assert (H0 : NoDup (map g_key (goals example_db))).
  { vm_compute. repeat constructor; cbn; intuition discriminate. }
  destruct (set_goal_upsert example_clock example_db "k" 10 H0 (Some "u"))
    as (db1 & E1 & _ & _ & _ & H1 & _).
  destruct (set_goal_upsert example_clock db1 "k" 20 H1 None)
    as (db2 & E2 & _ & Hcarry & _ & H2 & _).
  exists db1, db2. split; [exact E1|]. split; [exact E2|]. split; [|exact H2].
  assert (Edb1 : db1 = snd (set_goal example_clock "k" 10 (Some "u") example_db))
    by now rewrite E1.
  apply (Hcarry {| g_id := 5; g_key := "k"; g_value := 10; g_unit := "u";
                   g_updated_at := now_iso example_clock |}).
  - reflexivity.
  - rewrite Edb1. vm_compute. do 4 right. now left.
  - reflexivity.
Defined.

(** ** Seeding *)

Section Seeding.

Lemma DB_eta (db : DB) :
  db = {| profile := profile db; goals := goals db; workouts := workouts db;
          meals := meals db; plan_workouts := plan_workouts db |}.
Proof. destruct db; reflexivity. Qed.

Lemma insert_or_ignore_present (t : list goal_row) (k : string) (v : Q)
      (u now : string) :
  In k (map g_key t) -> insert_or_ignore_goal t k v u now = t.
Proof.
  intros H. unfold insert_or_ignore_goal.
  apply existsb_has_key in H. now rewrite H.
Qed.

Lemma insert_or_ignore_absent (t : list goal_row) (k : string) (v : Q)
      (u now : string) :
  ~ In k (map g_key t) ->
  insert_or_ignore_goal t k v u now
  = (t ++ [ {| g_id := next_rowid (map g_id t); g_key := k; g_value := v;
               g_unit := u; g_updated_at := now |} ])%list.
Proof.
  intros H. unfold insert_or_ignore_goal.
  destruct (existsb (has_key k) t) eqn:E; [|reflexivity].
  apply existsb_has_key in E. contradiction.
Qed.

(** What one [INSERT OR IGNORE] does to the table: rows are only appended,
    the key is present afterwards, and unique keys stay unique. *)
Lemma insert_or_ignore_spec (t : list goal_row) (k : string) (v : Q)
      (u now : string) :
  let t' := insert_or_ignore_goal t k v u now in
  (exists added, t' = (t ++ added)%list)
  /\ In k (map g_key t')
  /\ (forall k', In k' (map g_key t) -> In k' (map g_key t'))
  /\ (NoDup (map g_key t) -> NoDup (map g_key t')).
Proof.
  cbv zeta. destruct (in_dec string_dec k (map g_key t)) as [Hin|Hnot].
  - rewrite insert_or_ignore_present by assumption.
    repeat split; auto. exists []. now rewrite app_nil_r.
  - rewrite insert_or_ignore_absent by assumption.
    rewrite map_app. cbn [map g_key]. repeat split.
    + eauto.
    + apply in_or_app. right. now left.
    + intros k' H. apply in_or_app. now left.
    + intros Hnd. now apply NoDup_snoc.
Qed.

Lemma seed_goals_spec (now : string) (t : list goal_row) :
  (exists added, seed_goals now t = (t ++ added)%list)
  /\ (forall g, In g DEFAULT_GOALS ->
                In (fst (fst g)) (map g_key (seed_goals now t)))
  /\ (NoDup (map g_key t) -> NoDup (map g_key (seed_goals now t))).
Proof.
  unfold seed_goals, DEFAULT_GOALS. cbn [fold_left].
  set (t1 := insert_or_ignore_goal t "daily_calories" 1800 "kcal" now).
  set (t2 := insert_or_ignore_goal t1 "daily_protein_g" 120 "g" now).
  set (t3 := insert_or_ignore_goal t2 "weekly_exercise_minutes" 150 "min" now).
  set (t4 := insert_or_ignore_goal t3 "daily_walk_minutes" 30 "min" now).
  destruct (insert_or_ignore_spec t "daily_calories" 1800 "kcal" now)
    as ((a1 & A1) & I1 & M1 & N1).
  destruct (insert_or_ignore_spec t1 "daily_protein_g" 120 "g" now)
    as ((a2 & A2) & I2 & M2 & N2).
  destruct (insert_or_ignore_spec t2 "weekly_exercise_minutes" 150 "min" now)
    as ((a3 & A3) & I3 & M3 & N3).
  destruct (insert_or_ignore_spec t3 "daily_walk_minutes" 30 "min" now)
    as ((a4 & A4) & I4 & M4 & N4).
  fold t1 in A1, I1, M1, N1, A2, I2, M2, N2.
  fold t2 in A2, I2, M2, N2, A3, I3, M3, N3.
  fold t3 in A3, I3, M3, N3, A4, I4, M4, N4.
  fold t4 in A4, I4, M4, N4.
  split; [|split].
  - exists (a1 ++ a2 ++ a3 ++ a4)%list.
    rewrite A4, A3, A2, A1, <- !app_assoc. reflexivity.
  - intros g [<-|[<-|[<-|[<-|[]]]]]; cbn [fst]; auto.
  - auto.
Qed.

Lemma seed_goals_fixed (now : string) (t : list goal_row) :
  (forall g, In g DEFAULT_GOALS -> In (fst (fst g)) (map g_key t)) ->
  seed_goals now t = t.
Proof.
  intros H. unfold seed_goals, DEFAULT_GOALS in *. cbn [fold_left].
  assert (H1 : In "daily_calories" (map g_key t))
    by (apply (H ("daily_calories", 1800%Q, "kcal")); cbn; tauto).
  assert (H2 : In "daily_protein_g" (map g_key t))
    by (apply (H ("daily_protein_g", 120%Q, "g")); cbn; tauto).
  assert (H3 : In "weekly_exercise_minutes" (map g_key t))
    by (apply (H ("weekly_exercise_minutes", 150%Q, "min")); cbn; tauto).
  assert (H4 : In "daily_walk_minutes" (map g_key t))
    by (apply (H ("daily_walk_minutes", 30%Q, "min")); cbn; tauto).
  rewrite (insert_or_ignore_present t "daily_calories") by assumption.
  rewrite (insert_or_ignore_present t "daily_protein_g") by assumption.
  rewrite (insert_or_ignore_present t "weekly_exercise_minutes") by assumption.
  now rewrite (insert_or_ignore_present t "daily_walk_minutes").
Qed.

(** One call of [seed_defaults], table by table. *)
Lemma seed_defaults_run (clk : Clock) (name : option string) (db : DB) :
  seed_defaults clk name db
  = (Ok tt,
     {| profile :=
          match filter (fun r => p_id r =? 1) (profile db) with
          | [] => (profile db ++
                   [ {| p_id := 1; p_name := Some (name_or_You name);
                        p_start_date := Some (iso_today clk) |} ])%list
          | _ :: _ => profile db
          end;
        goals := seed_goals (now_iso clk) (goals db);
        workouts := workouts db;
        meals := meals db;
        plan_workouts :=
          match plan_workouts db with
          | [] => seeded_plan
          | _ :: _ => plan_workouts db
          end |}).
Proof.
  unfold seed_defaults.
  cbv [bind select ret execute fetchone set_profile set_goals set_plan_workouts].
  destruct (filter (fun r => p_id r =? 1) (profile db)) eqn:Ef;
    cbn [hd_error profile goals workouts meals plan_workouts];
    destruct (plan_workouts db) eqn:Ep;
    cbn [List.length Z.of_nat Z.eqb profile goals workouts meals plan_workouts];
    rewrite ?Ep; reflexivity.
Qed.

Lemma seeded_plan_rows :
  map plan_columns seeded_plan = DEFAULT_PLAN
  /\ List.length seeded_plan = 12%nat.
Proof. split; reflexivity. Qed.

(** A seeded database is a fixed point of [seed_defaults]. *)
Lemma seed_defaults_fixed (clk : Clock) (name : option string) (db : DB) :
  seeded db -> snd (seed_defaults clk name db) = db.
Proof.
  intros (Hp & Hplan & Hg). rewrite seed_defaults_run. cbn [snd].
  rewrite seed_goals_fixed by assumption.
  destruct (filter (fun r => p_id r =? 1) (profile db)); [now destruct Hp|].
  destruct (plan_workouts db) eqn:E; [now destruct Hplan|].
  rewrite <- E. symmetry. apply DB_eta.
Qed.

Lemma seed_defaults_seeded (clk : Clock) (name : option string) (db : DB) :
  seeded (snd (seed_defaults clk name db)).
Proof.
  rewrite seed_defaults_run. cbn [snd]. unfold seeded.
  cbn [profile plan_workouts goals]. split; [|split].
  - destruct (filter (fun r => p_id r =? 1) (profile db)) eqn:Ef.
    + rewrite filter_app, Ef. cbn [filter p_id Z.eqb Pos.eqb app]. discriminate.
    + rewrite Ef. discriminate.
  - destruct (plan_workouts db); [|discriminate].
    intros H. pose proof (proj2 seeded_plan_rows) as L.
    rewrite H in L. discriminate L.
  - apply seed_goals_spec.
Qed.

Lemma seed_many_seeded (calls : list (Clock * option string)) (db : DB) :
  seeded db -> seed_many calls db = db.
Proof.
  intros H. induction calls as [|[clk name] rest IH]; cbn [seed_many].
  - reflexivity.
  - now rewrite seed_defaults_fixed.
Qed.

(** Any number of calls does what the first one does. *)
Lemma seed_many_first (clk : Clock) (name : option string)
      (rest : list (Clock * option string)) (db : DB) :
  seed_many ((clk, name) :: rest) db = snd (seed_defaults clk name db).
Proof.
  cbn [seed_many]. apply seed_many_seeded, seed_defaults_seeded.
Qed.

Lemma profile_singleton (db : DB) (r : profile_row) :
  schema_ok db -> In r (profile db) ->
  profile db = [r] /\ filter (fun r => p_id r =? 1) (profile db) = [r].
Proof.
  intros (Hlen & Hid & _) Hin.
  destruct (profile db) as [|a [|b l]] eqn:E.
  - destruct Hin.
  - destruct Hin as [->|[]]. split; [reflexivity|].
    cbn [filter]. rewrite (Hid r) by now left. reflexivity.
  - cbn in Hlen. lia.
Qed.

End Seeding.

(** C5.  [seed_defaults] is idempotent.  From any database that meets the
    constraints of the schema, after one or more calls (each with its own
    clock and display name): there is exactly one profile row, and a profile
    row that existed is unchanged (name and start date); the plan table holds
    the 12 fixed rows once if it was empty and is unchanged otherwise; each of
    the 4 default goal keys is present exactly once, and the goal rows that
    existed are all still there, unchanged; workouts and meals are untouched;
    and further calls change nothing. *)
Theorem seed_defaults_idempotent
    (calls : list (Clock * option string)) (db : DB) :
  schema_ok db ->
  calls <> [] ->
  schema_ok (seed_many calls db)
  /\ List.length (profile (seed_many calls db)) = 1%nat
  /\ (forall r, In r (profile db) -> profile (seed_many calls db) = [r])
  /\ (plan_workouts db = [] ->
      plan_workouts (seed_many calls db) = seeded_plan)
  /\ (plan_workouts db <> [] ->
      plan_workouts (seed_many calls db) = plan_workouts db)
  /\ map plan_columns seeded_plan = DEFAULT_PLAN
  /\ (forall g, In g DEFAULT_GOALS ->
        count_occ string_dec (map g_key (goals (seed_many calls db)))
                  (fst (fst g)) = 1%nat)
  /\ (exists added, goals (seed_many calls db) = (goals db ++ added)%list)
  /\ workouts (seed_many calls db) = workouts db
  /\ meals (seed_many calls db) = meals db
  /\ (forall more, seed_many more (seed_many calls db) = seed_many calls db).
Proof.
  intros Hok Hcalls. destruct calls as [|[clk name] rest]; [congruence|].
  clear Hcalls. rewrite seed_many_first.
  pose proof (seed_defaults_seeded clk name db) as Hseeded.
  assert (Hfix : forall more,
            seed_many more (snd (seed_defaults clk name db))
            = snd (seed_defaults clk name db))
    by (intros more; now apply seed_many_seeded).
  revert Hseeded Hfix. rewrite seed_defaults_run. cbn [snd].
  intros Hseeded Hfix.
  destruct (seed_goals_spec (now_iso clk) (goals db)) as (Hadd & Hin & Hnd).
  pose proof Hok as (Hlen & Hid & Hkeys).
  assert (Hprof :
    (profile db = [] /\ filter (fun r => p_id r =? 1) (profile db) = [])
    \/ exists r, profile db = [r]
                 /\ filter (fun r => p_id r =? 1) (profile db) = [r]).
  { destruct (profile db) as [|r l] eqn:E; [now left|].
    right. exists r. rewrite <- E. apply profile_singleton; trivial.
    rewrite E. now left. }
  cbn [profile goals workouts meals plan_workouts].
  split.
  { unfold schema_ok. cbn [profile goals].
    destruct Hprof as [[E1 E2]|(r & E1 & E2)]; rewrite E2, E1.
    - repeat split; [cbn; lia| |now apply Hnd].
      intros r [<-|[]]. reflexivity.
    - repeat split; [cbn; lia| |now apply Hnd].
      intros r' Hr'. apply Hid. now rewrite E1. }
  split.
  { destruct Hprof as [[E1 E2]|(r & E1 & E2)]; rewrite E2, E1; reflexivity. }
  split.
  { intros r Hr. destruct (profile_singleton db r Hok Hr) as [E1 E2].
    now rewrite E2. }
  split. { intros ->. reflexivity. }
  split. { intros Hne. destruct (plan_workouts db); [congruence|reflexivity]. }
  split. { apply seeded_plan_rows. }
  split.
  { intros g Hg. apply NoDup_count_occ'; [now apply Hnd|now apply Hin]. }
  split; [exact Hadd|].
  split; [reflexivity|]. split; [reflexivity|].
  exact Hfix.
Qed.

(** Three calls with three display names on a fresh database: the first name
    and start date stay, and the plan has its 12 rows. *)
Lemma seed_defaults_idempotent_witness :
  let calls := [ (example_clock, Some "Ann"); (last_day_clock, Some "Bob");
                 (example_clock, None) ] in
  profile (seed_many calls empty_db)
  = [ {| p_id := 1; p_name := Some "Ann"; p_start_date := Some "2024-01-03" |} ]
  /\ List.length (plan_workouts (seed_many calls empty_db)) = 12%nat
  /\ count_occ string_dec (map g_key (goals (seed_many calls empty_db)))
               "daily_calories" = 1%nat.
Proof.
  intros calls.
  destruct (seed_defaults_idempotent calls empty_db)
    as (_ & Hone & _ & Hplan & _ & _ & Hgoal & _).
  - unfold schema_ok. cbn [profile goals empty_db map List.length In].
    repeat split; [lia|tauto|constructor].
  - discriminate.
  - split; [|split].
    + vm_compute. reflexivity.
    + rewrite Hplan by reflexivity. apply seeded_plan_rows.
    + apply (Hgoal ("daily_calories", 1800%Q, "kcal")). cbn [DEFAULT_GOALS In].
      now left.
Defined.

(** ** The progress bar *)

Section ProgressBar.

Lemma Qltb_true (a b : Q) : Qltb a b = true <-> (a < b)%Q.
Proof.
  unfold Qltb. rewrite negb_true_iff, <- not_true_iff_false, Qle_bool_iff.
  split; [apply Qnot_le_lt|apply Qlt_not_le].
Qed.

Lemma Qltb_false (a b : Q) : Qltb a b = false <-> (b <= a)%Q.
Proof.
  unfold Qltb. rewrite negb_false_iff. apply Qle_bool_iff.
Qed.

Lemma py_max_0_nonpos (x : Q) : (x <= 0)%Q -> py_max 0 x = 0%Q.
Proof.
  intros H. unfold py_max. apply Qltb_false in H. now rewrite H.
Qed.

Lemma py_max_0_pos (x : Q) : (0 < x)%Q -> py_max 0 x = x.
Proof.
  intros H. unfold py_max. apply Qltb_true in H. now rewrite H.
Qed.

Lemma py_max_0_nonneg (x : Q) : (0 <= py_max 0 x)%Q.
Proof.
  destruct (Qlt_le_dec 0 x) as [H|H].
  - rewrite py_max_0_pos by assumption. now apply Qlt_le_weak.
  - rewrite py_max_0_nonpos by assumption. apply Qle_refl.
Qed.

Lemma py_div_pos (a b : Q) : (0 < b)%Q -> py_div a b = Ok (a / b)%Q.
Proof.
  intros H. unfold py_div.
  destruct (Qeq_bool b 0) eqn:E; [|reflexivity].
  apply Qeq_bool_iff in E. rewrite E in H. now apply Qlt_irrefl in H.
Qed.

Lemma Qdiv_nonneg (a b : Q) : (0 <= a)%Q -> (0 < b)%Q -> (0 <= a / b)%Q.
Proof.
  intros Ha Hb. apply Qle_shift_div_l; [exact Hb|].
  now rewrite Qmult_0_l.
Qed.

Lemma Qdiv_nonpos (a b : Q) : (a <= 0)%Q -> (0 < b)%Q -> (a / b <= 0)%Q.
Proof.
  intros Ha Hb. apply Qle_shift_div_r; [exact Hb|].
  now rewrite Qmult_0_l.
Qed.

Lemma py_min_1_range (q : Q) :
  (0 <= q)%Q -> (0 <= py_min 1 q <= 1)%Q.
Proof.
  intros H. unfold py_min. destruct (Qltb q 1) eqn:E.
  - apply Qltb_true in E. split; [exact H|now apply Qlt_le_weak].
  - split; [discriminate|apply Qle_refl].
Qed.

Lemma py_min_1_clamp (q : Q) :
  (0 <= q)%Q -> (py_min 1 q == Qmax 0 (Qmin 1 q))%Q.
Proof.
  intros H. unfold py_min. destruct (Qltb q 1) eqn:E.
  - apply Qltb_true in E.
    rewrite (Q.min_r 1 q) by now apply Qlt_le_weak.
    now rewrite Q.max_r.
  - apply Qltb_false in E. rewrite (Q.min_l 1 q) by assumption.
    rewrite Q.max_r; [reflexivity|discriminate].
Qed.

Lemma py_int_width (width : Z) : py_int (1 * inject_Z width) = width.
Proof.
  unfold py_int. cbn [Qmult Qnum Qden inject_Z Pos.mul].
  rewrite Z.quot_1_r. destruct width; reflexivity.
Qed.

Lemma py_int_zero (width : Z) : py_int (0 * inject_Z width) = 0.
Proof. unfold py_int. cbn [Qmult Qnum Qden inject_Z Pos.mul]. reflexivity. Qed.

Lemma append_empty (s : string) : s ++ "" = s.
Proof. induction s as [|c s IH]; cbn [append]; congruence. Qed.

(** What [progress] computes when the goal is not positive: no division. *)
Lemma progress_goal_nonpos (current goal : Q) (width : Z) :
  (goal <= 0)%Q ->
  progress current goal width
  = Ok {| pr_current := py_max 0 current; pr_goal := 0; pr_ratio := 0;
          pr_filled := 0;
          pr_bar := str_repeat "#" 0 ++ str_repeat "-" (width - 0) |}.
Proof.
  intros H. unfold progress. cbv zeta.
  rewrite (py_max_0_nonpos goal H).
  change (Qeq_bool 0 0) with true. cbn [rbind].
  rewrite py_int_zero. reflexivity.
Qed.

(** What [progress] computes for a positive goal. *)
Lemma progress_goal_pos (current goal : Q) (width : Z) :
  (0 < goal)%Q ->
  let ratio := py_min 1 (py_max 0 current / goal) in
  let filled := py_int (ratio * inject_Z width) in
  progress current goal width
  = Ok {| pr_current := py_max 0 current; pr_goal := goal; pr_ratio := ratio;
          pr_filled := filled;
          pr_bar := str_repeat "#" filled ++ str_repeat "-" (width - filled) |}.
Proof.
  intros H. unfold progress. cbv zeta.
  rewrite (py_max_0_pos goal H).
  destruct (Qeq_bool goal 0) eqn:E.
  - apply Qeq_bool_iff in E. rewrite E in H. now apply Qlt_irrefl in H.
  - rewrite py_div_pos by assumption. reflexivity.
Qed.

Lemma clamp_ratio (current goal : Q) :
  (0 < goal)%Q ->
  (py_min 1 (py_max 0 current / goal)
   == Qmax 0 (Qmin 1 (current / goal)))%Q.
Proof.
  intros Hg. destruct (Qlt_le_dec 0 current) as [Hc|Hc].
  - rewrite py_max_0_pos by assumption.
    apply py_min_1_clamp. apply Qdiv_nonneg; [now apply Qlt_le_weak|exact Hg].
  - rewrite py_max_0_nonpos by assumption.
    pose proof (Qdiv_nonpos current goal Hc Hg) as Hq.
    assert (E0 : (0 / goal == 0)%Q) by (unfold Qdiv; apply Qmult_0_l).
    unfold py_min. destruct (Qltb (0 / goal) 1) eqn:E.
    + rewrite E0. rewrite (Q.min_r 1 (current / goal)).
      * now rewrite Q.max_l.
      * eapply Qle_trans; [exact Hq|discriminate].
    + apply Qltb_false in E. rewrite E0 in E.
      exfalso. apply (Qle_not_lt _ _ E). reflexivity.
Qed.

End ProgressBar.

(** C6, as amended.  [print_progress] never raises; it first raises current
    and goal to at least 0.  When the goal is zero or negative the ratio is 0
    and no division is performed; when the goal is positive the ratio is
    [current/goal] clamped to the range from 0 to 1.  When the goal is
    positive and current is at least the goal, the ratio is 1, the bar is
    [width] filled cells, and the number printed for current is the true
    current value (formatted with no decimals), not one capped at the goal. *)
Theorem progress_ratio_clamped (current goal : Q) (width : Z) :
  exists p,
    progress current goal width = Ok p
    /\ (forall label unit_,
          print_progress label current goal unit_ width
          = Ok (ljust label 20 ++ " [" ++ pr_bar p ++ "] " ++ fmt0 (pr_current p)
                ++ "/" ++ fmt0 (pr_goal p) ++ " " ++ unit_))
    /\ (0 <= pr_ratio p <= 1)%Q
    /\ ((goal <= 0)%Q -> pr_ratio p = 0%Q /\ pr_filled p = 0)
    /\ ((0 < goal)%Q ->
        (pr_ratio p == Qmax 0 (Qmin 1 (current / goal)))%Q
        /\ pr_goal p = goal)
    /\ ((0 < goal)%Q -> (goal <= current)%Q ->
        pr_ratio p = 1%Q /\ pr_filled p = width
        /\ pr_current p = current
        /\ (0 <= width -> pr_bar p = str_repeat "#" width)).
Proof.
  destruct (Qlt_le_dec 0 goal) as [Hg|Hg].
  - eexists. split; [now apply progress_goal_pos|].
    cbn [pr_current pr_goal pr_ratio pr_filled pr_bar].
    split.
    { intros label unit_. unfold print_progress.
      rewrite progress_goal_pos by assumption. reflexivity. }
    split.
    { apply py_min_1_range. apply Qdiv_nonneg; [apply py_max_0_nonneg|exact Hg]. }
    split.
    { intros Hle. exfalso. exact (Qlt_not_le _ _ Hg Hle). }
    split.
    { intros _. split; [now apply clamp_ratio|reflexivity]. }
    intros _ Hcur.
    assert (Hc : (0 < current)%Q) by (eapply Qlt_le_trans; eassumption).
    rewrite (py_max_0_pos current Hc).
    assert (Hr : py_min 1 (current / goal) = 1%Q).
    { unfold py_min. destruct (Qltb (current / goal) 1) eqn:E; [|reflexivity].
      apply Qltb_true in E. exfalso.
      apply (Qlt_not_le _ _ E). apply Qle_shift_div_l; [exact Hg|].
      now rewrite Qmult_1_l. }
    rewrite Hr, py_int_width. repeat split.
    intros Hw. rewrite Z.sub_diag. apply append_empty.
  - eexists. split; [now apply progress_goal_nonpos|].
    cbn [pr_current pr_goal pr_ratio pr_filled pr_bar].
    split.
    { intros label unit_. unfold print_progress.
      rewrite progress_goal_nonpos by assumption. reflexivity. }
    split. { split; discriminate. }
    split. { intros _. split; reflexivity. }
    split. { intros Hlt. exfalso. exact (Qlt_not_le _ _ Hlt Hg). }
    intros Hlt. exfalso. exact (Qlt_not_le _ _ Hlt Hg).
Qed.

(** Section 8 of the specification: with zero current and zero goal the bar is
    empty and nothing raises; with current above a positive goal the bar is
    full and the true current value is printed. *)
Lemma print_progress_examples :
  print_progress "Calories" 0 0 "kcal" DEFAULT_WIDTH
  = Ok "Calories             [------------------------] 0/0 kcal"
  /\ print_progress "Calories" 2500 1800 "kcal" DEFAULT_WIDTH
     = Ok "Calories             [########################] 2500/1800 kcal".
Proof. split; vm_compute; reflexivity. Qed.

(** C6 as stated fails in two places.  With current 5 and goal 0, current
    exceeds the goal and yet the bar is empty.  With current -5 and goal -10,
    [current/goal] is 1/2, which the clamp leaves alone, but the ratio is 0;
    current exceeds the goal and the bar is empty; and the number printed is 0,
    not the current value. *)
Lemma progress_not_clamped_quotient :
  print_progress "Calories" 5 0 "kcal" DEFAULT_WIDTH
  = Ok "Calories             [------------------------] 5/0 kcal"
  /\ print_progress "Calories" (-5) (-10) "kcal" DEFAULT_WIDTH
     = Ok "Calories             [------------------------] 0/0 kcal"
  /\ (exists p, progress (-5) (-10) DEFAULT_WIDTH = Ok p /\ pr_ratio p = 0%Q)
  /\ (Qmax 0 (Qmin 1 (-5 / -10)) == 1 # 2)%Q.
Proof.
  split; [vm_compute; reflexivity|].
  split; [vm_compute; reflexivity|].
  split; [eexists; split; vm_compute; reflexivity|].
  vm_compute. reflexivity.
Qed.

(** ** Malformed dates *)

Section BadDates.

Lemma new_date_cases (y m d : Z) :
  (exists x, new_date y m d = Ok x) \/ new_date y m d = Raise ValueError.
Proof. unfold new_date. destruct (check_date_fields y m d); eauto. Qed.

(** [strptime] either gives a date or raises [ValueError]. *)
Lemma strptime_ymd_cases (s : string) :
  (exists x, strptime_ymd s = Ok x) \/ strptime_ymd s = Raise ValueError.
Proof.
  unfold strptime_ymd.
  repeat match goal with
  | |- context [match ?x with _ => _ end] =>
      match x with
      | new_date _ _ _ => fail 1
      | _ => destruct x; try (right; reflexivity)
      end
  end.
  apply new_date_cases.
Qed.

(** [parse_date] on a string that is not empty and is not a date. *)
Lemma parse_date_rejects (clk : Clock) (v : string) (w : World) :
  v <> "" ->
  (forall x, strptime_ymd v <> Ok x) ->
  parse_date clk (Some v) w
  = (Raise (SystemExit 1),
     {| storage := storage w; stdout := stdout w;
        stderr := (stderr w ++ ["Invalid date format. Use YYYY-MM-DD."])%list |}).
Proof.
  intros Hne Hbad. unfold parse_date.
  destruct v as [|c v]; [congruence|].
  destruct (strptime_ymd_cases (String c v)) as [(x & E)|E].
  - exfalso. exact (Hbad x E).
  - rewrite E. reflexivity.
Qed.

End BadDates.

(** C8, as amended.  For every [add-workout] or [add-meal] invocation whose
    date is a non-empty string that [strptime] does not accept, the program
    writes the message to standard error and exits with code 1 before any row
    is written: every table is as it was, nothing is printed on standard
    output.  The schema is created first, so a file that had no table yet has
    the five empty tables afterwards. *)
Theorem bad_date_exits_before_insert
    (clk : Clock) (v : string) (wargs : WorkoutArgs) (margs : MealArgs)
    (w : World) :
  v <> "" ->
  (forall x, strptime_ymd v <> Ok x) ->
  wa_date wargs = Some v ->
  ma_date margs = Some v ->
  let w' := {| storage := Some (ensure_db_schema (storage w));
               stdout := stdout w;
               stderr := (stderr w ++ ["Invalid date format. Use YYYY-MM-DD."])%list |} in
  cmd_add_workout clk wargs w = (Raise (SystemExit 1), w')
  /\ cmd_add_meal clk margs w = (Raise (SystemExit 1), w')
  /\ exit_status (fst (cmd_add_workout clk wargs w)) = 1
  /\ exit_status (fst (cmd_add_meal clk margs w)) = 1
  /\ (forall db, storage w = Some db -> storage w' = storage w)
  /\ (storage w = None -> storage w' = Some empty_db).
Proof.
  intros Hne Hbad Hw Hm w'.
  assert (Ew : cmd_add_workout clk wargs w = (Raise (SystemExit 1), w')).
  { unfold cmd_add_workout. rewrite Hw. unfold cbind at 1. unfold connect.
    unfold cbind at 1. rewrite parse_date_rejects by assumption. reflexivity. }
  assert (Em : cmd_add_meal clk margs w = (Raise (SystemExit 1), w')).
  { unfold cmd_add_meal. rewrite Hm. unfold cbind at 1. unfold connect.
    unfold cbind at 1. rewrite parse_date_rejects by assumption. reflexivity. }
  rewrite Ew, Em. repeat split.
  - intros db E. subst w'. cbn [storage]. now rewrite E.
  - intros E. subst w'. cbn [storage]. now rewrite E.
Qed.

Lemma bad_date_exits_before_insert_witness :
  cmd_add_workout example_clock (example_workout_args (Some "2024-13-01"))
                  (start_world (Some example_db))
  = (Raise (SystemExit 1),
     {| storage := Some example_db; stdout := [];
        stderr := ["Invalid date format. Use YYYY-MM-DD."] |}).
Proof.
  destruct (bad_date_exits_before_insert example_clock "2024-13-01"
              (example_workout_args (Some "2024-13-01"))
              (example_meal_args (Some "2024-13-01"))
              (start_world (Some example_db)))
    as (E & _).
  - discriminate.
  - intros x. vm_compute. discriminate.
  - reflexivity.
  - reflexivity.
  - exact E.
Defined.

(** C8 as stated fails in two places.  On a file that has no table yet, the
    invocation with the date 2024-13-01 exits with code 1 but leaves the five
    tables created: the persisted state has changed.  And the empty string,
    which is not a date either, is taken as no date at all: the workout is
    written under today's date, nothing goes to standard error, and the exit
    code is 0. *)
Lemma bad_date_writes :
  (let r := cmd_add_workout example_clock (example_workout_args (Some "2024-13-01"))
                            (start_world None) in
   exit_status (fst r) = 1
   /\ storage (snd r) = Some empty_db
   /\ storage (snd r) <> storage (start_world None))
  /\ (let r := cmd_add_workout example_clock (example_workout_args (Some ""))
                               (start_world (Some empty_db)) in
      strptime_ymd "" = Raise ValueError
      /\ fst r = Ok tt
      /\ exit_status (fst r) = 0
      /\ stderr (snd r) = []
      /\ option_map (fun db => map w_date (workouts db)) (storage (snd r))
         = Some ["2024-01-03"]).
Proof.
  split.
  - cbv zeta. split; [vm_compute; reflexivity|].
    split; [vm_compute; reflexivity|]. vm_compute. discriminate.
  - cbv zeta. repeat split; vm_compute; reflexivity.
Qed.

(** ** CSV export *)

Section Csv.

Lemma prepend_empty (r : option (string * list string * string)) :
  prepend "" r = r.
Proof. destruct r as [[[f fs] rest]|]; reflexivity. Qed.

Lemma prepend_cons (c : ascii) (s : string)
      (r : option (string * list string * string)) :
  match prepend s r with
  | Some (f, fs, rest) => Some (String c f, fs, rest)
  | None => None
  end = prepend (String c s) r.
Proof. destruct r as [[[f fs] rest]|]; reflexivity. Qed.

Lemma special_chars_distinct :
  Ascii.eqb comma dquote = false /\ Ascii.eqb LF dquote = false
  /\ Ascii.eqb CR dquote = false /\ Ascii.eqb LF comma = false
  /\ Ascii.eqb CR comma = false /\ Ascii.eqb CR LF = false.
Proof. repeat split. Qed.

(** After a field, the three states that can end it read the same. *)
Lemma read_from_field_end (tail : string) :
  field_end tail ->
  read_from FieldStart tail = read_from InUnquoted tail
  /\ read_from AfterQuote tail = read_from InUnquoted tail.
Proof.
  destruct tail as [|c rest]; [split; reflexivity|].
  unfold field_end.
  intros [->|[->| ->]]; split; reflexivity.
Qed.

Lemma read_from_plain (s tail : string) :
  contains comma s = false -> contains LF s = false ->
  contains dquote s = false -> contains CR s = false ->
  read_from InUnquoted (s ++ tail) = prepend s (read_from InUnquoted tail).
Proof.
  induction s as [|c s IH]; cbn [contains append].
  - intros _ _ _ _. now rewrite prepend_empty.
  - intros Hc Hl Hq Hr.
    apply orb_false_iff in Hc, Hl, Hq, Hr.
    destruct Hc as [Hc Hc'], Hl as [Hl Hl'], Hq as [Hq Hq'], Hr as [Hr Hr'].
    cbn [read_from]. rewrite Hq, Hc, Hl, Hr.
    rewrite IH by assumption. apply prepend_cons.
Qed.

Lemma read_from_plain_start (s tail : string) :
  field_end tail ->
  contains comma s = false -> contains LF s = false ->
  contains dquote s = false -> contains CR s = false ->
  read_from FieldStart (s ++ tail) = prepend s (read_from InUnquoted tail).
Proof.
  intros Hend. destruct s as [|c s]; cbn [contains append].
  - intros _ _ _ _. rewrite prepend_empty.
    now apply read_from_field_end.
  - intros Hc Hl Hq Hr.
    apply orb_false_iff in Hc, Hl, Hq, Hr.
    destruct Hc as [Hc Hc'], Hl as [Hl Hl'], Hq as [Hq Hq'], Hr as [Hr Hr'].
    cbn [read_from]. rewrite Hq, Hc, Hl, Hr.
    rewrite read_from_plain by assumption. apply prepend_cons.
Qed.

Lemma read_from_quoted (s tail : string) :
  read_from InQuoted (double_quotes s ++ String dquote tail)
  = prepend s (read_from AfterQuote tail).
Proof.
  induction s as [|c s IH]; cbn [double_quotes append].
  - cbn [read_from]. rewrite Ascii.eqb_refl. now rewrite prepend_empty.
  - destruct (Ascii.eqb c dquote) eqn:E.
    + apply Ascii.eqb_eq in E. subst c. cbn [append read_from].
      rewrite Ascii.eqb_refl. rewrite IH. apply prepend_cons.
    + cbn [append read_from]. rewrite E, IH. apply prepend_cons.
Qed.

Lemma append_assoc (a b c : string) : (a ++ b) ++ c = a ++ (b ++ c).
Proof. induction a as [|x a IH]; cbn [append]; congruence. Qed.

(** Reading what [csv_quote] wrote gives the text back. *)
Lemma read_from_csv_quote (s tail : string) :
  readable s -> field_end tail ->
  read_from FieldStart (csv_quote s ++ tail)
  = prepend s (read_from InUnquoted tail).
Proof.
  intros Hs Hend. unfold csv_quote.
  destruct (needs_quotes s) eqn:E.
  - cbn [append]. rewrite append_assoc. cbn [append read_from].
    rewrite Ascii.eqb_refl. rewrite read_from_quoted.
    f_equal. now apply read_from_field_end.
  - destruct Hs as [Hcr|Hq]; [|rewrite E in Hq; discriminate].
    unfold needs_quotes in E.
    apply orb_false_iff in E. destruct E as [E Hq].
    apply orb_false_iff in E. destruct E as [Hc Hl].
    now apply read_from_plain_start.
Qed.

Lemma readable_empty : readable "".
Proof. left. reflexivity. Qed.

Lemma read_from_csv_value (v : option string) (tail : string) :
  readable (exported_text v) -> field_end tail ->
  read_from FieldStart (csv_value v ++ tail)
  = prepend (exported_text v) (read_from InUnquoted tail).
Proof.
  intros Hv Hend. destruct v as [s|]; cbn [csv_value exported_text] in *.
  - now apply read_from_csv_quote.
  - cbn [append]. rewrite prepend_empty. now apply read_from_field_end.
Qed.

(** A whole line of the export reads back as the row. *)
Lemma read_from_csv_line (v : option string) (row : list (option string))
      (rest : string) :
  Forall (fun v => readable (exported_text v)) (v :: row) ->
  read_from FieldStart (csv_line (v :: row) ++ String LF rest)
  = Some (exported_text v, map exported_text row, rest).
Proof.
  revert v. induction row as [|v' row IH]; intros v Hall.
  - unfold csv_line. cbn [map concat].
    inversion Hall as [|? ? Hv _]; subst.
    rewrite read_from_csv_value; [|exact Hv|cbn; tauto].
    cbn [read_from]. 
    destruct special_chars_distinct as (_ & Hlq & _ & Hlc & _).
    rewrite Hlq, Hlc, Ascii.eqb_refl. cbn [prepend].
    now rewrite append_empty.
  - inversion Hall as [|? ? Hv Hrow]; subst.
    change (csv_line (v :: v' :: row))
      with (csv_value v ++ "," ++ csv_line (v' :: row)).
    rewrite append_assoc.
    rewrite read_from_csv_value; [|exact Hv|cbn; tauto].
    rewrite append_assoc. cbn [append read_from].
    change (Ascii.eqb ","%char dquote) with false.
    change (Ascii.eqb ","%char comma) with true. cbv beta iota zeta.
    rewrite (IH v' Hrow). cbn [prepend map].
    now rewrite append_empty.
Qed.

End Csv.

(** C9, as amended.  The export wraps a text in double quotes, with the
    quotes inside doubled, exactly when it contains a comma, a double quote
    or a line feed, and writes it as it is otherwise.  For every text in
    which a carriage return, if there is one, comes with one of those three
    characters, an RFC 4180 reader gives back exactly that text as one field,
    from the field alone, from the field followed by a line break, and from
    a line of such fields. *)
Theorem csv_field_roundtrip (s : string) :
  readable s ->
  (needs_quotes s = true <->
   contains comma s = true \/ contains dquote s = true \/ contains LF s = true)
  /\ (needs_quotes s = true ->
      csv_quote s = String dquote (double_quotes s ++ String dquote ""))
  /\ (needs_quotes s = false -> csv_quote s = s)
  /\ csv_read_record (csv_quote s) = Some ([s], "")
  /\ (forall rest,
        csv_read_record (csv_quote s ++ String LF rest) = Some ([s], rest))
  /\ (forall before after rest,
        Forall (fun v => readable (exported_text v)) before ->
        Forall (fun v => readable (exported_text v)) after ->
        csv_read_record (csv_line (before ++ Some s :: after) ++ String LF rest)
        = Some ((map exported_text before ++ s :: map exported_text after)%list,
                rest)).
Proof.
  intros Hs. split; [|split; [|split; [|split; [|split]]]].
  - unfold needs_quotes. rewrite !orb_true_iff. tauto.
  - intros E. unfold csv_quote. now rewrite E.
  - intros E. unfold csv_quote. now rewrite E.
  - unfold csv_read_record.
    rewrite <- (append_empty (csv_quote s)).
    rewrite read_from_csv_quote; [|exact Hs|exact I].
    cbn [read_from prepend]. now rewrite append_empty.
  - intros rest. unfold csv_read_record.
    change (csv_quote s) with (csv_line [Some s]).
    rewrite (read_from_csv_line (Some s) [] rest).
    + reflexivity.
    + constructor; [exact Hs|constructor].
  - intros before after rest Hb Ha. unfold csv_read_record.
    assert (Hall : Forall (fun v => readable (exported_text v))
                          (before ++ Some s :: after)).
    { apply Forall_app. split; [exact Hb|]. constructor; assumption. }
    destruct (before ++ Some s :: after)%list as [|v row] eqn:E.
    + destruct before; discriminate E.
    + rewrite (read_from_csv_line v row rest Hall).
      change (exported_text v :: map exported_text row)
        with (map exported_text (v :: row)).
      rewrite <- E, map_app. reflexivity.
Qed.

(** Section 8 of the specification: a note with a comma and a double quote
    is one quoted field and reads back as it was. *)
Lemma csv_field_roundtrip_witness :
  csv_read_record
    (csv_line [Some "2024-01-01"; Some example_note; None] ++ String LF "")
  = Some (["2024-01-01"; example_note; ""], "").
Proof.
  destruct (csv_field_roundtrip example_note) as (_ & _ & _ & _ & _ & Hrow).
  - right. reflexivity.
  - apply (Hrow [Some "2024-01-01"] [None] "").
    + constructor; [left; reflexivity|constructor].
    + constructor; [left; reflexivity|constructor].
Defined.

(** C9 as stated fails on a text with a carriage return and none of the comma,
    the double quote and the line feed: it is written without quotes, and the
    reader ends the record at the carriage return. *)
Lemma csv_carriage_return_splits :
  needs_quotes example_cr_note = false
  /\ csv_quote example_cr_note = example_cr_note
  /\ csv_read_record (csv_quote example_cr_note ++ String LF "")
     = Some (["a"], "b" ++ String LF "")
  /\ csv_read_record (csv_quote example_cr_note ++ String LF "")
     <> Some ([example_cr_note], "").
Proof.
  repeat split; try (vm_compute; reflexivity).
  vm_compute. discriminate.
Qed.

(** ** Stored dates

    The commands only ever store the ISO text of a calendar date: the
    hypothesis of the weekly totals is an invariant of the program. *)

Section StoredDates.

Lemma new_date_valid (y m d : Z) (x : date) :
  new_date y m d = Ok x -> valid x.
Proof.
  unfold new_date, valid.
  destruct (check_date_fields y m d) eqn:E; [|discriminate].
  intros [= <-]. exact E.
Qed.

Lemma strptime_ymd_valid (s : string) (x : date) :
  strptime_ymd s = Ok x -> valid x.
Proof.
  unfold strptime_ymd.
  repeat match goal with
  | |- context [match ?t with _ => _ end] =>
      match t with
      | new_date _ _ _ => fail 1
      | _ => destruct t; try discriminate
      end
  end.
  apply new_date_valid.
Qed.

(** The text [parse_date] returns is the ISO text of a date. *)
Lemma parse_date_iso (clk : Clock) (value : option string) (w w' : World)
      (s : string) :
  valid (clock_today clk) ->
  parse_date clk value w = (Ok s, w') ->
  w' = w /\ exists x, valid x /\ s = isoformat x.
Proof.
  intros Hclk. unfold parse_date.
  destruct value as [[|c v]|].
  - intros [= <- <-]. split; [reflexivity|]. now exists (clock_today clk).
  - destruct (strptime_ymd (String c v)) as [x|e] eqn:E.
    + intros [= <- <-]. split; [reflexivity|]. exists x.
      split; [now apply (strptime_ymd_valid _ _ E)|reflexivity].
    + destruct e; discriminate.
  - intros [= <- <-]. split; [reflexivity|]. now exists (clock_today clk).
Qed.

(** The databases whose workouts and meals carry ISO dates. *)
Lemma cmd_add_workout_iso_dated (clk : Clock) (args : WorkoutArgs) (w : World) :
  valid (clock_today clk) ->
  iso_dated w_date (workouts (ensure_db_schema (storage w))) ->
  exists db',
    storage (snd (cmd_add_workout clk args w)) = Some db'
    /\ iso_dated w_date (workouts db')
    /\ meals db' = meals (ensure_db_schema (storage w)).
Proof.
  intros Hclk Hiso. unfold cmd_add_workout.
  unfold cbind at 1. unfold connect. unfold cbind at 1.
  destruct (parse_date clk (wa_date args) _) as [[s|e] w'] eqn:E.
  - apply parse_date_iso in E; [|exact Hclk]. destruct E as [-> Hs].
    cbv [cbind on_conn add_workout execute print storage stdout stderr snd].
    eexists. split; [reflexivity|]. cbn [workouts meals set_workouts].
    split; [|reflexivity]. now apply iso_dated_app.
  - assert (Hst : storage w' = Some (ensure_db_schema (storage w))).
    { unfold parse_date in E.
      destruct (wa_date args) as [[|c v]|]; try discriminate E.
      destruct (strptime_ymd (String c v)) as [x|e']; [discriminate E|].
      destruct e'; injection E as _ <-; reflexivity. }
    cbn [snd]. eexists. split; [exact Hst|]. split; [exact Hiso|reflexivity].
Qed.

Lemma cmd_add_meal_iso_dated (clk : Clock) (args : MealArgs) (w : World) :
  valid (clock_today clk) ->
  iso_dated m_date (meals (ensure_db_schema (storage w))) ->
  exists db',
    storage (snd (cmd_add_meal clk args w)) = Some db'
    /\ iso_dated m_date (meals db')
    /\ workouts db' = workouts (ensure_db_schema (storage w)).
Proof.
  intros Hclk Hiso. unfold cmd_add_meal.
  unfold cbind at 1. unfold connect. unfold cbind at 1.
  destruct (parse_date clk (ma_date args) _) as [[s|e] w'] eqn:E.
  - apply parse_date_iso in E; [|exact Hclk]. destruct E as [-> Hs].
    cbv [cbind on_conn add_meal execute print storage stdout stderr snd].
    eexists. split; [reflexivity|]. cbn [workouts meals set_meals].
    split; [|reflexivity]. now apply iso_dated_app.
  - assert (Hst : storage w' = Some (ensure_db_schema (storage w))).
    { unfold parse_date in E.
      destruct (ma_date args) as [[|c v]|]; try discriminate E.
      destruct (strptime_ymd (String c v)) as [x|e']; [discriminate E|].
      destruct e'; injection E as _ <-; reflexivity. }
    cbn [snd]. eexists. split; [exact Hst|]. split; [exact Hiso|reflexivity].
Qed.

End StoredDates.

(** * More properties of the program *)

(** ** Date arguments *)

Section DateArguments.

Lemma month_day_check_all :
  forallb (fun m1 => forallb (fun m0 => forallb (fun d1 => forallb (fun d0 =>
    month_day_check m1 m0 d1 d0) digits10) digits10) digits10) digits10 = true.
Proof. vm_compute. reflexivity. Qed.

Lemma in_digits10 (k : Z) : 0 <= k <= 9 -> In k digits10.
Proof. unfold digits10. cbn [In]. lia. Qed.

Lemma month_day_check_true (m1 m0 d1 d0 : Z) :
  0 <= m1 <= 9 -> 0 <= m0 <= 9 -> 0 <= d1 <= 9 -> 0 <= d0 <= 9 ->
  month_day_check m1 m0 d1 d0 = true.
Proof.
  intros H1 H2 H3 H4. pose proof month_day_check_all as H.
  rewrite forallb_forall in H. specialize (H m1 (in_digits10 _ H1)).
  rewrite forallb_forall in H. specialize (H m0 (in_digits10 _ H2)).
  rewrite forallb_forall in H. specialize (H d1 (in_digits10 _ H3)).
  rewrite forallb_forall in H. exact (H d0 (in_digits10 _ H4)).
Qed.

(** A character that is a digit is the digit of its value. *)
Lemma is_digit_inv (c : ascii) :
  is_digit c = true -> c = digit (digit_val c) /\ 0 <= digit_val c <= 9.
Proof.
  unfold is_digit, digit, digit_val. cbv zeta. intros H.
  apply andb_true_iff in H. destruct H as [Hlo Hhi].
  apply N.leb_le in Hlo, Hhi. split; [|lia].
  replace (48 + Z.to_N (Z.of_N (N_of_ascii c) - 48))%N with (N_of_ascii c) by lia.
  now rewrite ascii_N_embedding.
Qed.

Lemma new_date_out_of_range (y m d : Z) :
  (1 <=? m) && (m <=? 12) && (1 <=? d) && (d <=? 31) = false ->
  new_date y m d = Raise ValueError.
Proof.
  intros H. unfold new_date.
  destruct (check_date_fields y m d) eqn:E; [|reflexivity].
  exfalso. unfold check_date_fields in E.
  pose proof (days_in_month_le_31 y m) as Hdim.
  repeat (apply andb_true_iff in E; destruct E as [E ?]).
  bool_hyps; lia.
Qed.

(** On a text of the shape of an ISO date, [strptime] and [fromisoformat]
    agree: both give the date of the three numbers, or [ValueError]. *)
Lemma strptime_ymd_shape (y3 y2 y1 y0 m1 m0 d1 d0 : ascii) :
  forallb is_digit [y3; y2; y1; y0; m1; m0; d1; d0] = true ->
  let s := String y3 (String y2 (String y1 (String y0 (String dash
             (String m1 (String m0 (String dash
                (String d1 (String d0 EmptyString))))))))) in
  strptime_ymd s = fromisoformat s
  /\ fromisoformat s
     = new_date (1000 * digit_val y3 + 100 * digit_val y2
                 + 10 * digit_val y1 + digit_val y0)
                (10 * digit_val m1 + digit_val m0)
                (10 * digit_val d1 + digit_val d0).
Proof.
  intros Hd s.
  assert (Hf : fromisoformat s
     = new_date (1000 * digit_val y3 + 100 * digit_val y2
                 + 10 * digit_val y1 + digit_val y0)
                (10 * digit_val m1 + digit_val m0)
                (10 * digit_val d1 + digit_val d0)).
  { subst s. unfold fromisoformat. rewrite Hd.
    rewrite Ascii.eqb_refl. reflexivity. }
  split; [|exact Hf]. rewrite Hf. subst s.
  cbn [forallb] in Hd.
  repeat (apply andb_true_iff in Hd; destruct Hd as [? Hd]).
  unfold strptime_ymd. cbn [forallb].
  repeat match goal with H : is_digit _ = true |- _ => rewrite H end.
  rewrite Ascii.eqb_refl. cbn [andb]. cbv zeta.
  change (flat_map _ (strp_month ?r)) with (month_day_matches r).
  destruct (is_digit_inv m1) as [Em1 Bm1]; trivial.
  destruct (is_digit_inv m0) as [Em0 Bm0]; trivial.
  destruct (is_digit_inv d1) as [Ed1 Bd1]; trivial.
  destruct (is_digit_inv d0) as [Ed0 Bd0]; trivial.
  pose proof (month_day_check_true _ _ _ _ Bm1 Bm0 Bd1 Bd0) as Hc.
  unfold month_day_check in Hc. cbv zeta in Hc.
  rewrite <- Em1, <- Em0, <- Ed1, <- Ed0 in Hc.
  destruct (month_day_matches _) as [|[m' [d' [|c r]]] l].
  - apply negb_true_iff in Hc. symmetry. now apply new_date_out_of_range.
  - repeat (apply andb_true_iff in Hc; destruct Hc as [Hc ?]).
    bool_hyps. congruence.
  - apply negb_true_iff in Hc. symmetry. now apply new_date_out_of_range.
Qed.

Lemma isoformat_digits (d : date) :
  valid d ->
  exists y3 y2 y1 y0 m1 m0 d1 d0,
    isoformat d
    = String y3 (String y2 (String y1 (String y0 (String dash
        (String m1 (String m0 (String dash
           (String d1 (String d0 EmptyString)))))))))
    /\ forallb is_digit [y3; y2; y1; y0; m1; m0; d1; d0] = true.
Proof.
  intros Hv. apply valid_iff in Hv. destruct Hv as (Hy & Hm & Hd).
  pose proof (days_in_month_le_31 (year d) (month d)).
  do 8 eexists. split; [reflexivity|].
  cbn [forallb]. rewrite !is_digit_digit by dlia. reflexivity.
Qed.

Lemma strptime_ymd_isoformat (d : date) :
  valid d -> strptime_ymd (isoformat d) = Ok d.
Proof.
  intros Hv.
  destruct (isoformat_digits d Hv) as (y3 & y2 & y1 & y0 & m1 & m0 & d1 & d0 & E & Hd).
  rewrite E. rewrite (proj1 (strptime_ymd_shape _ _ _ _ _ _ _ _ Hd)).
  rewrite <- E. now apply fromisoformat_isoformat.
Qed.

(** Reading an ISO text and formatting the date gives the text back. *)
Lemma isoformat_fromisoformat (s : string) (x : date) :
  fromisoformat s = Ok x -> isoformat x = s.
Proof.
  unfold fromisoformat.
  destruct s as [|y3 [|y2 [|y1 [|y0 [|s1 [|m1 [|m0 [|s2 [|d1 [|d0 [|c r]]]]]]]]]]];
    try discriminate.
  destruct (forallb is_digit [y3; y2; y1; y0; m1; m0; d1; d0]) eqn:Hd;
    [|discriminate].
  destruct (Ascii.eqb s1 dash) eqn:E1; [|discriminate].
  destruct (Ascii.eqb s2 dash) eqn:E2; [|discriminate].
  apply Ascii.eqb_eq in E1, E2. subst s1 s2. cbn [andb].
  cbn [forallb] in Hd.
  repeat (apply andb_true_iff in Hd; destruct Hd as [? Hd]).
  destruct (is_digit_inv y3) as [Ey3 By3]; trivial.
  destruct (is_digit_inv y2) as [Ey2 By2]; trivial.
  destruct (is_digit_inv y1) as [Ey1 By1]; trivial.
  destruct (is_digit_inv y0) as [Ey0 By0]; trivial.
  destruct (is_digit_inv m1) as [Em1 Bm1]; trivial.
  destruct (is_digit_inv m0) as [Em0 Bm0]; trivial.
  destruct (is_digit_inv d1) as [Ed1 Bd1]; trivial.
  destruct (is_digit_inv d0) as [Ed0 Bd0]; trivial.
  remember (digit_val y3) as v3. remember (digit_val y2) as v2.
  remember (digit_val y1) as v1. remember (digit_val y0) as v0.
  remember (digit_val m1) as a1. remember (digit_val m0) as a0.
  remember (digit_val d1) as b1. remember (digit_val d0) as b0.
  remember (1000 * v3 + 100 * v2 + 10 * v1 + v0) as Y eqn:EY.
  remember (10 * a1 + a0) as M eqn:EM.
  remember (10 * b1 + b0) as D eqn:ED.
  unfold new_date. destruct (check_date_fields _ _ _); [|discriminate].
  intros E. injection E as <-.
  unfold isoformat, fmt04, fmt02. cbn [year month day append].
  replace (Y / 1000) with v3 by dlia.
  replace (Y / 100 mod 10) with v2 by dlia.
  replace (Y / 10 mod 10) with v1 by dlia.
  replace (Y mod 10) with v0 by dlia.
  replace (M / 10) with a1 by dlia.
  replace (M mod 10) with a0 by dlia.
  replace (D / 10) with b1 by dlia.
  replace (D mod 10) with b0 by dlia.
  rewrite <- Ey3, <- Ey2, <- Ey1, <- Ey0, <- Em1, <- Em0, <- Ed1, <- Ed0.
  reflexivity.
Qed.

End DateArguments.

(** X1.  [parse_date] on a text of the shape of an ISO date (four digits, a
    dash, two digits, a dash, two digits): when the three numbers are a date
    of the calendar the text is returned as it is and nothing is printed;
    otherwise the message goes to standard error and the process exits with
    code 1.  No other outcome exists. *)
Theorem parse_date_iso_shape
    (clk : Clock) (w : World) (y3 y2 y1 y0 m1 m0 d1 d0 : ascii) :
  forallb is_digit [y3; y2; y1; y0; m1; m0; d1; d0] = true ->
  let s := String y3 (String y2 (String y1 (String y0 (String dash
             (String m1 (String m0 (String dash
                (String d1 (String d0 EmptyString))))))))) in
  let y := 1000 * digit_val y3 + 100 * digit_val y2
           + 10 * digit_val y1 + digit_val y0 in
  let m := 10 * digit_val m1 + digit_val m0 in
  let d := 10 * digit_val d1 + digit_val d0 in
  (check_date_fields y m d = true ->
   parse_date clk (Some s) w = (Ok s, w))
  /\ (check_date_fields y m d = false ->
      parse_date clk (Some s) w
      = (Raise (SystemExit 1),
         {| storage := storage w; stdout := stdout w;
            stderr := (stderr w ++ ["Invalid date format. Use YYYY-MM-DD."])%list |})).
Proof.
  intros Hd s y m d.
  destruct (strptime_ymd_shape _ _ _ _ _ _ _ _ Hd) as [E1 E2].
  fold s in E1, E2. fold y m d in E2.
  assert (Hp : parse_date clk (Some s) w
               = match strptime_ymd s with
                 | Ok x => cret (isoformat x) w
                 | Raise ValueError =>
                     (eprint "Invalid date format. Use YYYY-MM-DD." ;;;
                      craise (SystemExit 1))%cmd w
                 | Raise e => craise e w
                 end).
  { subst s. unfold parse_date. destruct (strptime_ymd _) as [x|[]]; reflexivity. }
  rewrite Hp, E1, E2. unfold new_date. split; intros Hc; rewrite Hc.
  - cbv [cret]. f_equal. f_equal. apply isoformat_fromisoformat.
    rewrite E2. unfold new_date. now rewrite Hc.
  - reflexivity.
Qed.

(** 2024-02-29 is a date and comes back as it is; 2023-02-29 is not. *)
Lemma parse_date_iso_shape_witness :
  parse_date example_clock (Some "2024-02-29") (start_world None)
  = (Ok "2024-02-29", start_world None)
  /\ fst (parse_date example_clock (Some "2023-02-29") (start_world None))
     = Raise (SystemExit 1).
Proof.
  destruct (parse_date_iso_shape example_clock (start_world None)
              "2" "0" "2" "4" "0" "2" "2" "9"%char) as [Hyes _].
  - reflexivity.
  - destruct (parse_date_iso_shape example_clock (start_world None)
                "2" "0" "2" "3" "0" "2" "2" "9"%char) as [_ Hno].
    + reflexivity.
    + split.
      * exact (Hyes eq_refl).
      * exact (f_equal fst (Hno eq_refl)).
Defined.

(** ** Logging a workout or a meal *)

Section Logging.

Lemma parse_date_accepts (clk : Clock) (value : option string) (s : string)
      (w : World) :
  date_text clk value = Some s -> parse_date clk value w = (Ok s, w).
Proof.
  unfold date_text, parse_date. destruct value as [[|c v]|].
  - intros [= <-]. reflexivity.
  - destruct (strptime_ymd (String c v)) as [x|e]; [|discriminate].
    intros [= <-]. reflexivity.
  - intros [= <-]. reflexivity.
Qed.

(** The text [parse_date] accepts is the ISO text of a date. *)
Lemma date_text_iso (clk : Clock) (value : option string) (s : string) :
  valid (clock_today clk) ->
  date_text clk value = Some s -> exists x, valid x /\ s = isoformat x.
Proof.
  intros Hclk H.
  destruct (parse_date_iso clk value (start_world None) (start_world None) s Hclk)
    as [_ Hx]; [now apply parse_date_accepts|exact Hx].
Qed.

Lemma fold_max_ge (ids : list Z) (z : Z) :
  In z ids -> z <= fold_right Z.max 0 ids.
Proof.
  induction ids as [|a ids IH]; cbn [In fold_right]; [tauto|].
  intros [->|H]; [lia|]. specialize (IH H). lia.
Qed.

(** A new rowid is larger than every rowid in use. *)
Lemma next_rowid_fresh {R : Type} (id_of : R -> Z) (rows : list R) :
  Forall (fun r => id_of r < next_rowid (map id_of rows)) rows.
Proof.
  apply Forall_forall. intros r Hr. unfold next_rowid.
  pose proof (fold_max_ge (map id_of rows) (id_of r) (in_map id_of _ _ Hr)).
  lia.
Qed.

Lemma next_rowid_pos (ids : list Z) : 1 <= next_rowid ids.
Proof.
  unfold next_rowid.
  assert (0 <= fold_right Z.max 0 ids); [|lia].
  induction ids as [|a ids IH]; cbn [fold_right]; lia.
Qed.

End Logging.

(** X2.  [cmd_add_workout] with no date, an empty date, or a date that
    [strptime] accepts: exactly one workout row is appended, holding the
    arguments as given and the date in ISO form (today's when none was
    given), under a rowid larger than every rowid of the table; the other
    rows and tables are as before; "Workout logged." is printed, nothing goes
    to standard error, and the command returns. *)
Theorem cmd_add_workout_logs
    (clk : Clock) (args : WorkoutArgs) (w : World) (s : string) :
  date_text clk (wa_date args) = Some s ->
  let db := ensure_db_schema (storage w) in
  let row :=
    {| w_id := next_rowid (map w_id (workouts db)); w_date := s;
       w_type := wa_type args; w_duration_min := wa_duration args;
       w_distance_km := wa_distance args; w_sets := wa_sets args;
       w_reps := wa_reps args; w_weight_kg := wa_weight args;
       w_notes := wa_notes args; w_created_at := now_iso clk |} in
  cmd_add_workout clk args w
  = (Ok tt,
     {| storage := Some (set_workouts db (workouts db ++ [row]));
        stdout := (stdout w ++ ["Workout logged."])%list;
        stderr := stderr w |})
  /\ Forall (fun r => w_id r < w_id row) (workouts db)
  /\ (wa_date args = None \/ wa_date args = Some "" -> s = iso_today clk)
  /\ (valid (clock_today clk) -> exists x, valid x /\ s = isoformat x).
Proof.
  intros Hs db row. split; [|split; [|split]].
  - unfold cmd_add_workout. unfold cbind at 1. unfold connect.
    unfold cbind at 1. rewrite (parse_date_accepts _ _ _ _ Hs). reflexivity.
  - apply (next_rowid_fresh w_id).
  - unfold date_text in Hs. intros [E|E]; rewrite E in Hs; congruence.
  - intros Hclk. now apply (date_text_iso clk (wa_date args)).
Qed.

(** A run with the date written without padding: it is stored padded. *)
Lemma cmd_add_workout_logs_witness :
  option_map (fun db => map w_date (workouts db))
    (storage (snd (cmd_add_workout example_clock
                     (example_workout_args (Some "2024-1-5"))
                     (start_world (Some example_db)))))
  = Some ["2024-01-01"; "2024-01-08"; "2024-01-05"].
Proof.
  destruct (cmd_add_workout_logs example_clock
              (example_workout_args (Some "2024-1-5"))
              (start_world (Some example_db)) "2024-01-05") as [E _].
  - vm_compute. reflexivity.
  - rewrite E. vm_compute. reflexivity.
Defined.

(** X3.  [cmd_add_meal] with no date, an empty date, or a date that
    [strptime] accepts: exactly one meal row is appended, with the date in ISO
    form and the macros as given; its calories are the ones given, or
    [4*protein + 4*carbs + 9*fat] when none were given and the three macros
    were, or absent; the rowid is larger than every rowid of the table; the
    other rows and tables are as before; "Meal logged." is printed and the
    command returns. *)
Theorem cmd_add_meal_logs
    (clk : Clock) (args : MealArgs) (w : World) (s : string) :
  date_text clk (ma_date args) = Some s ->
  let db := ensure_db_schema (storage w) in
  let row :=
    {| m_id := next_rowid (map m_id (meals db)); m_date := s;
       m_meal_type := ma_meal_type args;
       m_calories :=
         match ma_calories args, ma_protein args, ma_carbs args, ma_fat args with
         | Some c, _, _, _ => Some c
         | None, Some p, Some c, Some f => Some (4 * p + 4 * c + 9 * f)%Q
         | None, _, _, _ => None
         end;
       m_protein_g := ma_protein args; m_carbs_g := ma_carbs args;
       m_fat_g := ma_fat args; m_items := ma_items args;
       m_created_at := now_iso clk |} in
  cmd_add_meal clk args w
  = (Ok tt,
     {| storage := Some (set_meals db (meals db ++ [row]));
        stdout := (stdout w ++ ["Meal logged."])%list;
        stderr := stderr w |})
  /\ Forall (fun r => m_id r < m_id row) (meals db)
  /\ (ma_date args = None \/ ma_date args = Some "" -> s = iso_today clk)
  /\ (valid (clock_today clk) -> exists x, valid x /\ s = isoformat x).
Proof.
  intros Hs db row. split; [|split; [|split]].
  - unfold cmd_add_meal. unfold cbind at 1. unfold connect.
    unfold cbind at 1. rewrite (parse_date_accepts _ _ _ _ Hs).
    subst row.
    destruct (ma_calories args), (ma_protein args), (ma_carbs args),
      (ma_fat args); reflexivity.
  - apply (next_rowid_fresh m_id).
  - unfold date_text in Hs. intros [E|E]; rewrite E in Hs; congruence.
  - intros Hclk. now apply (date_text_iso clk (ma_date args)).
Qed.

(** A meal logged with macros only, no date: 165 kcal under today's date. *)
Lemma cmd_add_meal_logs_witness :
  option_map (fun db => map (fun r => (m_date r, m_calories r)) (meals db))
    (storage (snd (cmd_add_meal example_clock (example_meal_args None)
                     (start_world None))))
  = Some [("2024-01-03", Some (4 * 10 + 4 * 20 + 9 * 5)%Q)].
Proof.
  destruct (cmd_add_meal_logs example_clock (example_meal_args None)
              (start_world None) "2024-01-03") as [E _].
  - reflexivity.
  - rewrite E. reflexivity.
Defined.

(** ** Totals after logging *)

Section TotalsAfterLogging.

(** A total over a table with one more row. *)
Lemma query_total_app {R : Type} (P : R -> bool) (f : R -> option Q)
      (rows : list R) (r : R) :
  (coalesce (sql_sum (map f (filter P (rows ++ [r])))) 0
   == coalesce (sql_sum (map f (filter P rows))) 0
      + (if P r then coalesce (f r) 0 else 0))%Q.
Proof.
  rewrite !sql_sum_filter.
  induction rows as [|a rows IH]; cbn [app fold_right].
  - destruct (P r); ring.
  - destruct (P a); rewrite IH; ring.
Qed.

(** Whether [sum_today] returns depends on the date text alone, and what it
    returns is the four queries. *)
Lemma sum_today_cases (today_str : string) :
  (exists lo hi,
     (forall db,
       sum_today today_str db
       = (Ok {| t_calories :=
                  coalesce (sql_sum (map m_calories
                    (filter (fun r => String.eqb (m_date r) today_str) (meals db)))) 0;
                t_protein :=
                  coalesce (sql_sum (map m_protein_g
                    (filter (fun r => String.eqb (m_date r) today_str) (meals db)))) 0;
                t_exercise_min :=
                  coalesce (sql_sum (map w_duration_min
                    (filter (fun r => String.eqb (w_date r) today_str) (workouts db)))) 0;
                t_week_exercise_min :=
                  coalesce (sql_sum (map w_duration_min
                    (filter (fun r => text_between (w_date r) (isoformat lo) (isoformat hi))
                            (workouts db)))) 0 |}, db))
     /\ rbind (fromisoformat today_str) iso_week_start = Ok lo
     /\ add_days lo 6 = Ok hi)
  \/ (exists e, forall db, sum_today today_str db = (Raise e, db)).
Proof.
  unfold sum_today. cbv [bind lift select ret].
  destruct (rbind (fromisoformat today_str) iso_week_start) as [lo|e] eqn:E1.
  - cbn [rbind]. destruct (add_days lo 6) as [hi|e] eqn:E2.
    + left. exists lo, hi.
      split; [reflexivity|]. split; first [reflexivity|assumption].
    + right. exists e. reflexivity.
  - right. exists e. reflexivity.
Qed.

End TotalsAfterLogging.

(** X4.  Daily totals after a meal is logged.  When [sum_today] returns for a
    day, it also returns after [add_meal]; the calories total has grown by the
    calories stored for the meal (given, or derived from the three macros, or
    nothing) and the protein total by its protein, if the meal is dated that
    day, and by nothing otherwise; the exercise totals are the same. *)
Theorem sum_today_after_add_meal
    (clk : Clock) (date_str meal_type : string)
    (calories protein_g carbs_g fat_g : option Q) (items : option string)
    (today_str : string) (db : DB) (t : Totals) :
  sum_today today_str db = (Ok t, db) ->
  let db' := snd (add_meal clk date_str meal_type calories protein_g carbs_g
                           fat_g items db) in
  let stored :=
    match calories, protein_g, carbs_g, fat_g with
    | Some c, _, _, _ => Some c
    | None, Some p, Some c, Some f => Some (4 * p + 4 * c + 9 * f)%Q
    | None, _, _, _ => None
    end in
  exists t',
    sum_today today_str db' = (Ok t', db')
    /\ (t_calories t'
        == t_calories t
           + (if String.eqb date_str today_str then coalesce stored 0 else 0))%Q
    /\ (t_protein t'
        == t_protein t
           + (if String.eqb date_str today_str then coalesce protein_g 0 else 0))%Q
    /\ t_exercise_min t' = t_exercise_min t
    /\ t_week_exercise_min t' = t_week_exercise_min t.
Proof.
  intros Ht db' stored.
  destruct (sum_today_cases today_str) as [(lo & hi & Hrun & _)|(e & Hfail)].
  - rewrite (Hrun db) in Ht. injection Ht as <-.
    eexists. split; [apply Hrun|].
    cbn [t_calories t_protein t_exercise_min t_week_exercise_min].
    subst db'. unfold add_meal, execute. cbn [snd meals workouts set_meals].
    split; [|split; [|split; reflexivity]].
    + rewrite query_total_app. cbn [m_date m_calories].
      subst stored.
      destruct calories, protein_g, carbs_g, fat_g; reflexivity.
    + rewrite query_total_app. cbn [m_date m_protein_g]. reflexivity.
  - rewrite (Hfail db) in Ht. discriminate.
Qed.

Lemma sum_today_after_add_meal_witness :
  exists t',
    fst (sum_today "2024-01-03"
           (snd (add_meal example_clock "2024-01-03" "snack" None
                          (Some 1%Q) (Some 2%Q) (Some 3%Q) None example_db)))
    = Ok t'
    /\ (t_calories t' == 165 + 39)%Q /\ (t_protein t' == 10 + 1)%Q.
Proof.
  destruct (sum_today_after_add_meal example_clock "2024-01-03" "snack" None
              (Some 1%Q) (Some 2%Q) (Some 3%Q) None "2024-01-03" example_db
              {| t_calories := 165; t_protein := 10; t_exercise_min := 0;
                 t_week_exercise_min := 45 |})
    as (t' & E & Hc & Hp & _).
  - vm_compute. reflexivity.
  - exists t'. split; [now rewrite E|]. split.
    + apply (Qeq_trans _ _ _ Hc). vm_compute. reflexivity.
    + apply (Qeq_trans _ _ _ Hp). vm_compute. reflexivity.
Defined.

(** X5.  Exercise totals after a workout is logged, for a day [d] up to
    9999-12-26 and a workout dated [x]: today's minutes grow by the duration
    (an absent duration counting for zero) when [x] is [d], the week's minutes
    grow by it when [x] lies in the Monday-to-Sunday week of [d], and the
    nutrition totals are the same. *)
Theorem sum_today_after_add_workout
    (clk : Clock) (workout_type : string)
    (duration_min distance_km : option Q) (sets reps : option Z)
    (weight_kg : option Q) (notes : option string)
    (d x : date) (db : DB) :
  valid d -> valid x ->
  Datetime.le d (mkdate 9999 12 26) ->
  let db' := snd (add_workout clk (isoformat x) workout_type duration_min
                              distance_km sets reps weight_kg notes db) in
  exists ws t t',
    iso_week_start d = Ok ws
    /\ sum_today (isoformat d) db = (Ok t, db)
    /\ sum_today (isoformat d) db' = (Ok t', db')
    /\ (t_exercise_min t'
        == t_exercise_min t
           + (if Z.eqb (toordinal x) (toordinal d)
              then coalesce duration_min 0 else 0))%Q
    /\ (t_week_exercise_min t'
        == t_week_exercise_min t
           + (if in_week ws x then coalesce duration_min 0 else 0))%Q
    /\ t_calories t' = t_calories t
    /\ t_protein t' = t_protein t.
Proof.
  intros Hd Hx Hle db'.
  destruct (iso_week_start_ok d Hd) as (ws & E1 & Hws & Ho).
  destruct (week_end_ok d ws Hd Hws Ho Hle) as (we & E2 & Hwe & Hoe).
  destruct (sum_today_cases (isoformat d)) as [(lo & hi & Hrun & Hlo & Hhi)|(e & Hfail)].
  - rewrite fromisoformat_isoformat in Hlo by assumption. cbn [rbind] in Hlo.
    rewrite E1 in Hlo. injection Hlo as <-.
    rewrite E2 in Hhi. injection Hhi as <-.
    exists ws. eexists. eexists.
    split; [exact E1|]. split; [apply Hrun|]. split; [apply Hrun|].
    cbn [t_calories t_protein t_exercise_min t_week_exercise_min].
    subst db'. unfold add_workout, execute.
    cbn [snd meals workouts set_workouts].
    split; [|split; [|split; reflexivity]].
    + rewrite query_total_app. cbn [w_date w_duration_min].
      replace (String.eqb (isoformat x) (isoformat d))
        with (Z.eqb (toordinal x) (toordinal d)); [reflexivity|].
      apply eq_true_iff_eq. rewrite Z.eqb_eq, String.eqb_eq. split.
      * intros E. f_equal. now apply toordinal_inj.
      * intros E. f_equal. now apply isoformat_inj.
    + rewrite query_total_app. cbn [w_date w_duration_min].
      rewrite (text_between_in_week ws we x) by assumption.
      unfold dated_in_week. rewrite fromisoformat_isoformat by assumption.
      reflexivity.
  - exfalso. specialize (Hfail db).
    destruct (sum_today_run d ws we db Hd E1 E2) as (t & Et & _).
    rewrite Et in Hfail. discriminate.
Qed.

(** A 20-minute walk on Sunday 2024-01-07, seen from Wednesday 2024-01-03:
    the week has 45 + 20 minutes, the day none. *)
Lemma sum_today_after_add_workout_witness :
  exists t',
    fst (sum_today "2024-01-03"
           (snd (add_workout example_clock "2024-01-07" "walk" (Some 20%Q)
                             None None None None None example_db)))
    = Ok t'
    /\ (t_week_exercise_min t' == 65)%Q /\ (t_exercise_min t' == 0)%Q.
Proof.
  destruct (sum_today_after_add_workout example_clock "walk" (Some 20%Q)
              None None None None None (mkdate 2024 1 3) (mkdate 2024 1 7)
              example_db)
    as (ws & t & t' & E1 & Et & Et' & Hday & Hweek & _).
  - reflexivity.
  - reflexivity.
  - unfold Datetime.le. cbn. discriminate.
  - assert (E1' : iso_week_start (mkdate 2024 1 3) = Ok (mkdate 2024 1 1))
      by (vm_compute; reflexivity).
    rewrite E1' in E1. injection E1 as <-.
    assert (Et0 : fst (sum_today "2024-01-03" example_db)
                  = Ok {| t_calories := 165; t_protein := 10;
                          t_exercise_min := 0; t_week_exercise_min := 45 |})
      by (vm_compute; reflexivity).
    change (isoformat (mkdate 2024 1 3)) with "2024-01-03" in Et, Et'.
    change (isoformat (mkdate 2024 1 7)) with "2024-01-07" in Et'.
    rewrite Et in Et0. cbn [fst] in Et0. injection Et0 as ->.
    exists t'. split; [now rewrite Et'|]. split.
    + apply (Qeq_trans _ _ _ Hweek). vm_compute. reflexivity.
    + apply (Qeq_trans _ _ _ Hday). vm_compute. reflexivity.
Defined.

(** ** The plan of the day *)

Section PlanOfTheDay.

Lemma isoweekday_range (d : date) : 1 <= isoweekday d <= 7.
Proof.
  unfold isoweekday. cbv zeta.
  destruct (toordinal d mod 7 =? 0) eqn:E; bool_hyps; dlia.
Qed.

Lemma clamp_range (x : Z) : 1 <= clamp 1 4 x <= 4.
Proof.
  unfold clamp. destruct (x <? 1) eqn:E1; [lia|].
  destruct (4 <? x) eqn:E2; bool_hyps; lia.
Qed.

(** [plan_week] returns for any two dates. *)
Lemma plan_week_total (sd td : date) :
  valid sd -> valid td ->
  exists ws_s ws_t,
    toordinal ws_s = toordinal sd - weekday sd
    /\ toordinal ws_t = toordinal td - weekday td
    /\ plan_week sd td = Ok (clamp 1 4 ((toordinal ws_t - toordinal ws_s) / 7 + 1)).
Proof.
  intros Hsd Htd.
  destruct (iso_week_start_ok sd Hsd) as (ws_s & Es & _ & Hos).
  destruct (iso_week_start_ok td Htd) as (ws_t & Et & _ & Hot).
  exists ws_s, ws_t. split; [exact Hos|]. split; [exact Hot|].
  apply (plan_week_run sd td ws_s ws_t Es Et).
Qed.

(** On a database whose profile rows are dated, [get_today_plan] returns, for
    a week between 1 and 4, and writes nothing. *)
Lemma get_today_plan_total (clk : Clock) (db : DB) (td : date) :
  valid (clock_today clk) -> valid td -> profile_dated db ->
  exists w,
    1 <= w <= 4
    /\ get_today_plan clk td db = (Ok (plan_entry w (isoweekday td) db), db).
Proof.
  intros Hclk Htd Hprof.
  assert (Hstart : exists p sd,
            get_profile clk db = (Ok p, db) /\ valid sd
            /\ start_date p = Some (isoformat sd)).
  { unfold get_profile. cbv [bind select ret fetchone].
    destruct (filter (fun r => p_id r =? 1) (profile db)) as [|r l] eqn:Ef;
      cbn [hd_error].
    - eexists. exists (clock_today clk). split; [reflexivity|].
      split; [exact Hclk|reflexivity].
    - assert (Hin : In r (profile db)).
      { apply (proj1 (filter_In (fun r => p_id r =? 1) r (profile db))).
        rewrite Ef. now left. }
      unfold profile_dated in Hprof. rewrite Forall_forall in Hprof.
      destruct (Hprof r Hin) as (sd & Hsd & Es).
      eexists. exists sd. split; [reflexivity|]. split; [exact Hsd|exact Es]. }
  destruct Hstart as (p & sd & Ep & Hsd & Es).
  destruct (plan_week_total sd td Hsd Htd) as (ws_s & ws_t & _ & _ & Hw).
  eexists. split; [apply clamp_range|].
  eapply get_today_plan_run; [exact Ep| |exact Hw].
  rewrite Es, isoformat_truthy. now apply fromisoformat_isoformat.
Qed.

Lemma seeded_plan_entry (db : DB) (w dow : Z) :
  plan_workouts db = seeded_plan ->
  1 <= w <= 4 -> 1 <= dow <= 7 ->
  plan_entry w dow db = seeded_workout dow.
Proof.
  intros Hplan Hw Hd. unfold plan_entry. rewrite Hplan.
  assert (Hw' : w = 1 \/ w = 2 \/ w = 3 \/ w = 4) by lia.
  assert (Hd' : dow = 1 \/ dow = 2 \/ dow = 3 \/ dow = 4 \/ dow = 5
                \/ dow = 6 \/ dow = 7) by lia.
  destruct Hw' as [->|[->|[->| ->]]];
    destruct Hd' as [->|[->|[->|[->|[->|[->| ->]]]]]];
    vm_compute; reflexivity.
Qed.

End PlanOfTheDay.

(** X6.  The plan week as the target date moves, for a fixed start date: it
    always lies between 1 and 4 and never decreases when the target moves
    forward; it is 1 for every target on or before the start date, and 4 for
    every target three weeks or more after it; and from a target on or after
    the start date, seven days later the week is one more, capped at 4. *)
Theorem plan_week_monotone (sd td1 td2 : date) :
  valid sd -> valid td1 -> valid td2 ->
  Datetime.le td1 td2 ->
  exists w1 w2,
    plan_week sd td1 = Ok w1 /\ plan_week sd td2 = Ok w2
    /\ 1 <= w1 /\ w1 <= w2 /\ w2 <= 4
    /\ (Datetime.le td1 sd -> w1 = 1)
    /\ (21 <= days_between td2 sd -> w2 = 4)
    /\ (Datetime.le sd td1 -> days_between td2 td1 = 7 -> w2 = Z.min 4 (w1 + 1)).
Proof.
  intros Hsd H1 H2 Hle.
  apply le_toordinal in Hle; trivial.
  destruct (plan_week_total sd td1 Hsd H1) as (s1 & t1 & Hs1 & Ht1 & E1).
  destruct (plan_week_total sd td2 Hsd H2) as (s2 & t2 & Hs2 & Ht2 & E2).
  rewrite Hs1, Ht1 in E1. rewrite Hs2, Ht2 in E2.
  eexists. eexists. split; [exact E1|]. split; [exact E2|].
  pose proof (toordinal_range sd Hsd). pose proof (toordinal_range td1 H1).
  pose proof (toordinal_range td2 H2).
  unfold weekday, days_between.
  set (a := toordinal sd) in *. set (b := toordinal td1) in *.
  set (c := toordinal td2) in *.
  assert (Hmono : (b - (b + 6) mod 7 - (a - (a + 6) mod 7)) / 7
                  <= (c - (c + 6) mod 7 - (a - (a + 6) mod 7)) / 7) by dlia.
  split; [apply clamp_range|]. split.
  { unfold clamp.
    repeat match goal with
           | |- context [?x <? ?y] => destruct (Z.ltb_spec x y)
           end; lia. }
  split; [apply clamp_range|]. split.
  { intros Hb. apply le_toordinal in Hb; trivial. fold a b in Hb.
    unfold clamp.
    assert ((b - (b + 6) mod 7 - (a - (a + 6) mod 7)) / 7 + 1 <= 1) by dlia.
    repeat match goal with
           | |- context [?x <? ?y] => destruct (Z.ltb_spec x y)
           end; lia. }
  split.
  { intros H21. unfold clamp.
    assert (4 <= (c - (c + 6) mod 7 - (a - (a + 6) mod 7)) / 7 + 1) by dlia.
    repeat match goal with
           | |- context [?x <? ?y] => destruct (Z.ltb_spec x y)
           end; lia. }
  intros Hab H7. apply le_toordinal in Hab; trivial. fold a b in Hab.
  assert (Hn1 : 1 <= (b - (b + 6) mod 7 - (a - (a + 6) mod 7)) / 7 + 1) by dlia.
  assert (Hn2 : (c - (c + 6) mod 7 - (a - (a + 6) mod 7)) / 7
                = (b - (b + 6) mod 7 - (a - (a + 6) mod 7)) / 7 + 1) by dlia.
  rewrite Hn2. unfold clamp.
  repeat match goal with
         | |- context [?x <? ?y] => destruct (Z.ltb_spec x y)
         end; lia.
Qed.

(** Started on Wednesday 2024-01-03: Sunday 2024-01-07 is in week 1, Monday
    2024-01-08 in week 2. *)
Lemma plan_week_monotone_witness :
  plan_week (mkdate 2024 1 3) (mkdate 2024 1 7) = Ok 1
  /\ plan_week (mkdate 2024 1 3) (mkdate 2024 1 8) = Ok 2.
Proof.
  destruct (plan_week_monotone (mkdate 2024 1 3) (mkdate 2024 1 7)
              (mkdate 2024 1 8))
    as (w1 & w2 & E1 & E2 & _).
  - reflexivity.
  - reflexivity.
  - reflexivity.
  - unfold Datetime.le. cbn. discriminate.
  - assert (F1 : plan_week (mkdate 2024 1 3) (mkdate 2024 1 7) = Ok 1)
      by (vm_compute; reflexivity).
    assert (F2 : plan_week (mkdate 2024 1 3) (mkdate 2024 1 8) = Ok 2)
      by (vm_compute; reflexivity).
    rewrite E1 in F1. rewrite E2 in F2. rewrite E1, E2. split; assumption.
Defined.

(** X7.  A profile row whose start date is [NULL] or empty is taken as
    started on the target date: [get_today_plan] looks up week 1 and the
    target's ISO day of the week, raises nothing and writes nothing. *)
Theorem today_plan_missing_start_date
    (clk : Clock) (db : DB) (row : profile_row) (td : date) :
  valid td ->
  profile db = [row] -> p_id row = 1 ->
  p_start_date row = None \/ p_start_date row = Some "" ->
  get_today_plan clk td db = (Ok (plan_entry 1 (isoweekday td) db), db).
Proof.
  intros Htd Hp Hid Hstart.
  destruct (plan_week_total td td Htd Htd) as (s & t & Hs & Ht & Hw).
  rewrite Hs, Ht, Z.sub_diag in Hw. change (clamp 1 4 (0 / 7 + 1)) with 1 in Hw.
  eapply get_today_plan_run; [| |exact Hw].
  - unfold get_profile. cbv [bind select ret]. rewrite Hp.
    cbn [filter]. rewrite Hid. cbn [Z.eqb Pos.eqb fetchone hd_error].
    reflexivity.
  - cbn [start_date]. destruct Hstart as [-> | ->]; reflexivity.
Qed.

Lemma today_plan_missing_start_date_witness :
  get_today_plan example_clock (mkdate 2024 3 13)
    (set_profile example_db
       [ {| p_id := 1; p_name := Some "You"; p_start_date := None |} ])
  = (Ok (Some ("Workout B", details_B)),
     set_profile example_db
       [ {| p_id := 1; p_name := Some "You"; p_start_date := None |} ]).
Proof.
  rewrite (today_plan_missing_start_date example_clock _
             {| p_id := 1; p_name := Some "You"; p_start_date := None |}).
  - vm_compute. reflexivity.
  - reflexivity.
  - reflexivity.
  - reflexivity.
  - now left.
Defined.

(** X8.  With the seed plan in the plan table and dated profile rows,
    [get_today_plan] returns for every target date, whatever the start date:
    Workout A on a Monday, Workout B on a Wednesday, Workout C on a Friday,
    and no workout on the other four days; nothing is written. *)
Theorem seeded_plan_by_weekday (clk : Clock) (db : DB) (td : date) :
  valid (clock_today clk) -> valid td ->
  profile_dated db ->
  plan_workouts db = seeded_plan ->
  get_today_plan clk td db = (Ok (seeded_workout (isoweekday td)), db).
Proof.
  intros Hclk Htd Hprof Hplan.
  destruct (get_today_plan_total clk db td Hclk Htd Hprof) as (w & Hw & E).
  rewrite E. now rewrite (seeded_plan_entry db w _ Hplan Hw (isoweekday_range td)).
Qed.

(** Thursday 2024-01-04: no workout. *)
Lemma seeded_plan_by_weekday_witness :
  get_today_plan example_clock (mkdate 2024 1 4) example_db
  = (Ok None, example_db).
Proof.
  rewrite (seeded_plan_by_weekday example_clock example_db (mkdate 2024 1 4)).
  - vm_compute. reflexivity.
  - reflexivity.
  - reflexivity.
  - repeat constructor. exists (mkdate 2024 1 3). split; reflexivity.
  - vm_compute. reflexivity.
Defined.

(** ** Commands that only read *)

Section ReadOnly.

Lemma reads_only_cret {A : Type} (a : A) : reads_only (cret a).
Proof. intros w. reflexivity. Qed.

Lemma reads_only_craise {A : Type} (e : exn) : reads_only (@craise A e).
Proof. intros w. reflexivity. Qed.

Lemma reads_only_print (l : string) : reads_only (print l).
Proof. intros w. reflexivity. Qed.

Lemma reads_only_eprint (l : string) : reads_only (eprint l).
Proof. intros w. reflexivity. Qed.

Lemma reads_only_cbind {A B : Type} (c : Cmd A) (k : A -> Cmd B) :
  reads_only c -> (forall a, reads_only (k a)) -> reads_only (cbind c k).
Proof.
  intros Hc Hk w. unfold cbind. specialize (Hc w).
  destruct (c w) as [[a|e] w']; cbn [snd] in *.
  - now rewrite (Hk a w').
  - exact Hc.
Qed.

Lemma reads_only_on_conn {A : Type} (m : SQL A) :
  sql_reads_only m -> reads_only (on_conn m).
Proof.
  intros Hm w. unfold on_conn. destruct (storage w) as [db|] eqn:E.
  - specialize (Hm db). destruct (m db) as [r db']. cbn [snd] in *.
    cbn [storage]. now rewrite Hm.
  - cbn [snd]. exact E.
Qed.

Lemma reads_only_print_lines (ls : list string) : reads_only (print_lines ls).
Proof.
  induction ls as [|l ls IH]; cbn [print_lines].
  - apply reads_only_cret.
  - apply reads_only_cbind; [apply reads_only_print|intros _; exact IH].
Qed.

Lemma reads_only_do_print_progress (label : string) (c g : Q) (u : string) :
  reads_only (do_print_progress label c g u).
Proof.
  unfold do_print_progress. destruct (print_progress label c g u DEFAULT_WIDTH).
  - apply reads_only_print.
  - apply reads_only_craise.
Qed.

Lemma sql_reads_only_ret {A : Type} (a : A) : sql_reads_only (ret a).
Proof. intros db. reflexivity. Qed.

Lemma sql_reads_only_lift {A : Type} (r : result A) : sql_reads_only (lift r).
Proof. intros db. reflexivity. Qed.

Lemma sql_reads_only_select {A : Type} (q : DB -> A) : sql_reads_only (select q).
Proof. intros db. reflexivity. Qed.

Lemma sql_reads_only_bind {A B : Type} (m : SQL A) (k : A -> SQL B) :
  sql_reads_only m -> (forall a, sql_reads_only (k a)) ->
  sql_reads_only (bind m k).
Proof.
  intros Hm Hk db. unfold bind. specialize (Hm db).
  destruct (m db) as [[a|e] db']; cbn [snd] in *; subst db'.
  - apply Hk.
  - reflexivity.
Qed.

(** One step of a proof that a computation only reads. *)
Ltac reads_only_step :=
  first
    [ apply sql_reads_only_bind; [|intros ?]
    | apply sql_reads_only_select
    | apply sql_reads_only_lift
    | apply sql_reads_only_ret ].

Lemma sql_reads_only_get_goal (key : string) : sql_reads_only (get_goal key).
Proof. unfold get_goal. repeat reads_only_step. Qed.

Lemma sql_reads_only_get_profile (clk : Clock) :
  sql_reads_only (get_profile clk).
Proof. unfold get_profile. repeat reads_only_step. Qed.

Lemma sql_reads_only_sum_today (today_str : string) :
  sql_reads_only (sum_today today_str).
Proof. unfold sum_today. repeat reads_only_step. Qed.

Lemma sql_reads_only_get_today_plan (clk : Clock) (td : date) :
  sql_reads_only (get_today_plan clk td).
Proof.
  unfold get_today_plan.
  apply sql_reads_only_bind; [apply sql_reads_only_get_profile|intros p].
  repeat reads_only_step.
Qed.

Lemma sql_reads_only_cmd_week_sums (clk : Clock) :
  sql_reads_only (cmd_week_sums clk).
Proof. unfold cmd_week_sums. repeat reads_only_step. Qed.

(** A command made of [connect] and steps that only read leaves the file with
    the schema and the rows it had. *)
Lemma connect_then_reads {A : Type} (c : Cmd A) (w : World) :
  reads_only c ->
  storage (snd (cbind connect (fun _ => c) w))
  = Some (ensure_db_schema (storage w)).
Proof.
  intros Hc. unfold cbind at 1. unfold connect. now rewrite Hc.
Qed.

Ltac cmd_reads_only :=
  repeat first
    [ apply reads_only_cbind; [|intros ?]
    | apply reads_only_print
    | apply reads_only_eprint
    | apply reads_only_cret
    | apply reads_only_craise
    | apply reads_only_print_lines
    | apply reads_only_do_print_progress
    | apply reads_only_on_conn ].

Lemma cmd_today_storage (clk : Clock) (w : World) :
  storage (snd (cmd_today clk w)) = Some (ensure_db_schema (storage w)).
Proof.
  unfold cmd_today. apply connect_then_reads. cbv zeta.
  cmd_reads_only;
    first [ apply sql_reads_only_get_profile
          | apply sql_reads_only_get_today_plan
          | apply sql_reads_only_sum_today
          | apply sql_reads_only_get_goal
          | idtac ].
  destruct a1 as [[n d]|]; apply reads_only_print.
Qed.

Lemma cmd_week_storage (clk : Clock) (w : World) :
  storage (snd (cmd_week clk w)) = Some (ensure_db_schema (storage w)).
Proof.
  unfold cmd_week. apply connect_then_reads.
  cmd_reads_only;
    first [ apply sql_reads_only_cmd_week_sums
          | apply sql_reads_only_get_goal
          | idtac ].
  intros w'. reflexivity.
Qed.

Lemma cmd_plan_storage (w : World) :
  storage (snd (cmd_plan w)) = Some (ensure_db_schema (storage w)).
Proof.
  unfold cmd_plan. apply connect_then_reads.
  apply reads_only_cbind.
  - apply reads_only_on_conn, sql_reads_only_select.
  - intros [|r rows]; cmd_reads_only.
Qed.

Lemma cmd_export_storage (str_float : Q -> string) (table : string) (w : World) :
  storage (snd (cmd_export str_float table w))
  = Some (ensure_db_schema (storage w)).
Proof.
  unfold cmd_export. apply connect_then_reads.
  destruct (negb (existsb (String.eqb table) valid_tables)).
  - cmd_reads_only.
  - apply reads_only_cbind.
    + apply reads_only_on_conn. intros db.
      destruct (select_table table db); reflexivity.
    + intros t. cmd_reads_only.
Qed.

End ReadOnly.

(** X9.  The commands [today], [week], [plan] and [export] never change a
    row: whether they return or raise, and whatever the clock, the table name
    and the contents of the database, the file afterwards holds the schema
    and exactly the rows it held before. *)
Theorem reading_commands_write_nothing
    (clk : Clock) (str_float : Q -> string) (table : string) (w : World) :
  storage (snd (cmd_today clk w)) = Some (ensure_db_schema (storage w))
  /\ storage (snd (cmd_week clk w)) = Some (ensure_db_schema (storage w))
  /\ storage (snd (cmd_plan w)) = Some (ensure_db_schema (storage w))
  /\ storage (snd (cmd_export str_float table w))
     = Some (ensure_db_schema (storage w))
  /\ (forall db, storage w = Some db -> ensure_db_schema (storage w) = db).
Proof.
  split; [apply cmd_today_storage|].
  split; [apply cmd_week_storage|].
  split; [apply cmd_plan_storage|].
  split; [apply cmd_export_storage|].
  intros db ->. reflexivity.
Qed.

(** ** What the reports print *)

Section Reports.

Lemma cbind_ok {A B : Type} (m : Cmd A) (k : A -> Cmd B) (w w' : World) (a : A) :
  m w = (Ok a, w') -> cbind m k w = k a w'.
Proof. intros H. unfold cbind. now rewrite H. Qed.

Lemma cbind_raise {A B : Type} (m : Cmd A) (k : A -> Cmd B) (w w' : World)
      (e : exn) :
  m w = (Raise e, w') -> cbind m k w = (Raise e, w').
Proof. intros H. unfold cbind. now rewrite H. Qed.

Lemma on_conn_read {A : Type} (m : SQL A) (r : result A) (db : DB)
      (out err : list string) :
  m db = (r, db) ->
  on_conn m {| storage := Some db; stdout := out; stderr := err |}
  = (r, {| storage := Some db; stdout := out; stderr := err |}).
Proof. intros H. unfold on_conn. cbn [storage stdout stderr]. now rewrite H. Qed.

Lemma print_run (l : string) (st : Storage) (out err : list string) :
  print l {| storage := st; stdout := out; stderr := err |}
  = (Ok tt, {| storage := st; stdout := (out ++ [l])%list; stderr := err |}).
Proof. reflexivity. Qed.

Lemma print_lines_run (ls : list string) (st : Storage) (out err : list string) :
  print_lines ls {| storage := st; stdout := out; stderr := err |}
  = (Ok tt, {| storage := st; stdout := (out ++ ls)%list; stderr := err |}).
Proof.
  revert out. induction ls as [|l ls IH]; intros out; cbn [print_lines].
  - unfold cret. now rewrite app_nil_r.
  - rewrite (cbind_ok _ _ _ _ _ (print_run l st out err)).
    rewrite IH, <- app_assoc. reflexivity.
Qed.

(** [print_progress] never raises. *)
Lemma print_progress_total (label : string) (current goal : Q) (u : string)
      (width : Z) :
  exists p,
    progress current goal width = Ok p
    /\ print_progress label current goal u width = Ok (progress_line label p u).
Proof.
  unfold print_progress. destruct (Qlt_le_dec 0 goal) as [H|H].
  - pose proof (progress_goal_pos current goal width H) as E. cbv zeta in E.
    rewrite E. eexists. split; reflexivity.
  - rewrite (progress_goal_nonpos current goal width H).
    eexists. split; reflexivity.
Qed.


Lemma get_profile_run (clk : Clock) (db : DB) :
  get_profile clk db
  = (Ok match filter (fun r => p_id r =? 1) (profile db) with
        | [] => {| name := Some "You"; start_date := Some (iso_today clk) |}
        | r :: _ => {| name := p_name r; start_date := p_start_date r |}
        end, db).
Proof.
  unfold get_profile, bind, select, ret, fetchone.
  destruct (filter _ (profile db)); reflexivity.
Qed.


End Reports.

(** X10.  On any day up to 9999-12-26 the command [week] returns, writes no
    row and prints three lines: the Monday and the Sunday of the current week
    in ISO form, the progress line of the exercise minutes against the goal
    [weekly_exercise_minutes], and the totals of calories and protein. *)
Theorem cmd_week_report (clk : Clock) (w : World) :
  valid (clock_today clk) ->
  Datetime.le (clock_today clk) (mkdate 9999 12 26) ->
  let db := ensure_db_schema (storage w) in
  exists (monday sunday : date) (s : WeekSums) (g : Q * string) (bar : string),
    valid monday /\ weekday monday = 0
    /\ toordinal monday <= toordinal (clock_today clk) <= toordinal monday + 6
    /\ toordinal sunday = toordinal monday + 6
    /\ cmd_week_sums clk db = (Ok s, db)
    /\ get_goal "weekly_exercise_minutes" db = (Ok g, db)
    /\ print_progress "Exercise minutes" (week_minutes s) (fst g) (snd g) 24
       = Ok bar
    /\ cmd_week clk w
       = (Ok tt,
          {| storage := Some db;
             stdout :=
               (stdout w
                ++ [ ("Week: " ++ isoformat monday ++ " to "
                      ++ isoformat sunday)%string;
                     bar;
                     ("Total calories: " ++ fmt0 (week_calories s)
                      ++ " kcal | Total protein: " ++ fmt0 (week_protein s)
                      ++ " g")%string ])%list;
             stderr := stderr w |}).
Proof.
  intros Hd Hle db.
  destruct (iso_week_start_ok _ Hd) as (ws & Hws & Hv & Ho).
  destruct (week_end_ok _ ws Hd Hv Ho Hle) as (we & Hwe & _ & Hoe).
  pose proof (cmd_week_sums_run clk db ws we Hws Hwe) as Hs.
  match type of Hs with _ = (Ok ?v, _) => set (s := v) in Hs end.
  pose proof (get_goal_run "weekly_exercise_minutes" db) as Hg.
  match type of Hg with _ = (Ok ?v, _) => set (g := v) in Hg end.
  destruct (print_progress_total "Exercise minutes" (week_minutes s)
              (fst g) (snd g) DEFAULT_WIDTH) as (p & _ & Hp).
  exists ws, we, s, g, (progress_line "Exercise minutes" p (snd g)).
  assert (Hwd : 0 <= weekday (clock_today clk) <= 6)
    by (unfold weekday; dlia).
  split; [exact Hv|].
  split; [unfold weekday in *; rewrite Ho; dlia|].
  split; [lia|].
  split; [exact Hoe|].
  split; [exact Hs|].
  split; [exact Hg|].
  split; [exact Hp|].
  unfold cmd_week.
  rewrite (cbind_ok _ _ w _ tt (eq_refl : connect w = (Ok tt, _))).
  rewrite (cbind_ok _ _ _ _ _ (on_conn_read _ _ _ _ _ Hs)).
  rewrite (cbind_ok _ _ _ _ _ (on_conn_read _ _ _ _ _ Hg)).
  rewrite (cbind_ok _ _ _ _ _ (print_run _ _ _ _)).
  unfold cbind at 1. rewrite Hp.
  rewrite (cbind_ok _ _ _ _ _ (print_run _ _ _ _)).
  rewrite print_run. rewrite <- !app_assoc. reflexivity.
Qed.

Lemma cmd_week_report_witness :
  exists (monday sunday : date) (s : WeekSums) (g : Q * string) (bar : string),
    valid monday /\ weekday monday = 0
    /\ toordinal monday <= toordinal (clock_today example_clock)
       <= toordinal monday + 6
    /\ toordinal sunday = toordinal monday + 6
    /\ cmd_week_sums example_clock example_db = (Ok s, example_db)
    /\ get_goal "weekly_exercise_minutes" example_db = (Ok g, example_db)
    /\ print_progress "Exercise minutes" (week_minutes s) (fst g) (snd g) 24
       = Ok bar
    /\ cmd_week example_clock (start_world (Some example_db))
       = (Ok tt,
          {| storage := Some example_db;
             stdout :=
               ([] ++ [ ("Week: " ++ isoformat monday ++ " to "
                         ++ isoformat sunday)%string;
                        bar;
                        ("Total calories: " ++ fmt0 (week_calories s)
                         ++ " kcal | Total protein: " ++ fmt0 (week_protein s)
                         ++ " g")%string ])%list;
             stderr := [] |}).
Proof.
  apply (cmd_week_report example_clock (start_world (Some example_db))).
  - vm_compute. reflexivity.
  - vm_compute. discriminate.
Defined.



(** ** [ORDER BY] *)

Section Sorting.

Variable A : Type.
Variable leb : A -> A -> bool.
Hypothesis leb_total : forall a b, leb a b = true \/ leb b a = true.
Hypothesis leb_trans :
  forall a b c, leb a b = true -> leb b c = true -> leb a c = true.

Lemma insert_by_perm (x : A) (l : list A) :
  Permutation (x :: l) (insert_by leb x l).
Proof.
  induction l as [|y l IH]; cbn [insert_by].
  - apply Permutation_refl.
  - destruct (leb x y).
    + apply Permutation_refl.
    + eapply Permutation_trans; [apply perm_swap|].
      now apply perm_skip.
Qed.

Lemma order_by_perm (l : list A) : Permutation l (order_by leb l).
Proof.
  induction l as [|x l IH]; cbn [order_by fold_right].
  - apply Permutation_refl.
  - eapply Permutation_trans; [|apply insert_by_perm].
    now apply perm_skip.
Qed.

Lemma insert_by_sorted (x : A) (l : list A) :
  StronglySorted (fun a b => leb a b = true) l ->
  StronglySorted (fun a b => leb a b = true) (insert_by leb x l).
Proof.
  induction 1 as [|y l Hs IH Hy]; cbn [insert_by].
  - constructor; constructor.
  - destruct (leb x y) eqn:E.
    + constructor; [now constructor|].
      constructor; [exact E|].
      eapply Forall_impl; [|exact Hy].
      intros b Hb. now apply (leb_trans x y b).
    + constructor; [exact IH|].
      apply (Permutation_Forall (insert_by_perm x l)).
      constructor; [|exact Hy].
      destruct (leb_total x y) as [H|H]; [congruence|exact H].
Qed.

Lemma order_by_sorted (l : list A) :
  StronglySorted (fun a b => leb a b = true) (order_by leb l).
Proof.
  induction l as [|x l IH]; cbn [order_by fold_right].
  - constructor.
  - now apply insert_by_sorted.
Qed.

(** Rows that are in order already stay as they are. *)
Lemma order_by_id (l : list A) :
  StronglySorted (fun a b => leb a b = true) l -> order_by leb l = l.
Proof.
  induction 1 as [|x l Hs IH Hx]; cbn [order_by fold_right]; [reflexivity|].
  fold (order_by leb l). rewrite IH.
  destruct l as [|y l]; cbn [insert_by]; [reflexivity|].
  inversion Hx as [|? ? Hxy _]; subst. now rewrite Hxy.
Qed.

End Sorting.

Section Tables.

Lemma plan_leb_le (a b : plan_row) : plan_leb a b = true <-> plan_le a b.
Proof.
  unfold plan_leb, plan_le.
  rewrite orb_true_iff, andb_true_iff, Z.ltb_lt, Z.eqb_eq, Z.leb_le.
  reflexivity.
Qed.

Lemma plan_leb_total (a b : plan_row) :
  plan_leb a b = true \/ plan_leb b a = true.
Proof. rewrite !plan_leb_le. unfold plan_le. lia. Qed.

Lemma plan_leb_trans (a b c : plan_row) :
  plan_leb a b = true -> plan_leb b c = true -> plan_leb a c = true.
Proof. rewrite !plan_leb_le. unfold plan_le. lia. Qed.

Lemma StronglySorted_impl {A : Type} (R S : A -> A -> Prop) (l : list A) :
  (forall a b, R a b -> S a b) -> StronglySorted R l -> StronglySorted S l.
Proof.
  intros H. induction 1 as [|x l Hs IH Hx]; constructor; [exact IH|].
  eapply Forall_impl; [|exact Hx]. intros b. apply H.
Qed.

End Tables.

(** X12.  The command [plan] never fails and writes no row.  On an empty plan
    table it prints the hint to run [init]; otherwise it prints the heading
    and then one line for each row of the table, every row once, ordered by
    week and then by day of the week.  For the seed plan these are the days
    1, 3, 5 of week 1, then of week 2, 3 and 4. *)
Theorem cmd_plan_report (w : World) :
  let db := ensure_db_schema (storage w) in
  exists rows,
    Permutation (plan_workouts db) rows
    /\ StronglySorted plan_le rows
    /\ cmd_plan w
       = (Ok tt,
          {| storage := Some db;
             stdout :=
               (stdout w
                ++ match rows with
                   | [] => [no_plan_found]
                   | _ :: _ =>
                       "4-week starter plan"%string :: map plan_line rows
                   end)%list;
             stderr := stderr w |})
    /\ (plan_workouts db = seeded_plan ->
        map (fun r => (pl_week r, pl_dow r)) rows
        = [(1, 1); (1, 3); (1, 5); (2, 1); (2, 3); (2, 5);
           (3, 1); (3, 3); (3, 5); (4, 1); (4, 3); (4, 5)]).
Proof.
  intros db. exists (order_by plan_leb (plan_workouts db)).
  split; [apply order_by_perm|].
  split.
  - apply (StronglySorted_impl (fun a b => plan_leb a b = true)).
    + intros a b. apply plan_leb_le.
    + apply order_by_sorted; [apply plan_leb_total|apply plan_leb_trans].
  - split.
    + unfold cmd_plan.
      rewrite (cbind_ok _ _ w _ tt (eq_refl : connect w = (Ok tt, _))).
      rewrite (cbind_ok _ _ _ _ _
                 (on_conn_read
                    (select (fun db => order_by plan_leb (plan_workouts db)))
                    _ db _ _ eq_refl)).
      destruct (order_by plan_leb (plan_workouts db)) as [|r rows].
      * reflexivity.
      * rewrite (cbind_ok _ _ _ _ _ (print_run _ _ _ _)).
        rewrite print_lines_run, <- app_assoc. reflexivity.
    + intros ->. vm_compute. reflexivity.
Qed.

(** ** The export *)

Section ExportCommand.

Lemma valid_tables_spec (table : string) :
  existsb (String.eqb table) valid_tables = true <-> In table valid_tables.
Proof.
  rewrite existsb_exists. split.
  - intros (x & Hx & E). apply String.eqb_eq in E. now subst.
  - intros H. exists table. split; [exact H|apply String.eqb_refl].
Qed.

Lemma select_table_valid (table : string) (db : DB) :
  In table valid_tables ->
  exists cols rows, select_table table db = Some (cols, rows).
Proof.
  intros [<-|[<-|[<-|[]]]]; eexists; eexists; reflexivity.
Qed.

Lemma select_table_width (table : string) (db : DB) (cols : list string)
      (rows : list (list cell)) :
  select_table table db = Some (cols, rows) ->
  Forall (fun row => List.length row = List.length cols) rows
  /\ csv_line (map Some cols) = String.concat "," cols
  /\ Forall (fun v => readable (exported_text v)) (map Some cols)
  /\ cols <> [].
Proof.
  unfold select_table.
  destruct (String.eqb table "workouts");
    [|destruct (String.eqb table "meals");
      [|destruct (String.eqb table "goals"); [|discriminate]]];
    intros [= <- <-];
    (split; [apply Forall_forall; intros row Hin;
             apply in_map_iff in Hin; destruct Hin as (r & <- & _);
             reflexivity|]);
    (split; [vm_compute; reflexivity|]);
    (split; [|discriminate]);
    repeat constructor.
Qed.

Lemma cmd_export_run (str_float : Q -> string) (table : string) (w : World)
      (cols : list string) (rows : list (list cell)) :
  In table valid_tables ->
  select_table table (ensure_db_schema (storage w)) = Some (cols, rows) ->
  cmd_export str_float table w
  = (Ok tt,
     {| storage := Some (ensure_db_schema (storage w));
        stdout :=
          (stdout w
           ++ String.concat "," cols
              :: map (fun row => csv_line (map (str_cell str_float) row)) rows)%list;
        stderr := stderr w |}).
Proof.
  intros Hin Hsel. unfold cmd_export.
  rewrite (cbind_ok _ _ w _ tt (eq_refl : connect w = (Ok tt, _))).
  apply valid_tables_spec in Hin. rewrite Hin. cbn [negb].
  unfold cbind at 1, on_conn at 1. cbn [storage stdout stderr].
  rewrite Hsel.
  rewrite (cbind_ok _ _ _ _ _ (print_run _ _ _ _)).
  rewrite print_lines_run, <- app_assoc. reflexivity.
Qed.

Lemma no_CR_readable (str_float : Q -> string) (rows : list (list cell)) :
  no_CR str_float rows = true ->
  Forall (Forall (fun c => readable (cell_text str_float c))) rows.
Proof.
  unfold no_CR. rewrite forallb_forall. intros H.
  apply Forall_forall. intros row Hrow. specialize (H row Hrow).
  rewrite forallb_forall in H. apply Forall_forall. intros c Hc.
  left. specialize (H c Hc). now apply negb_true_iff in H.
Qed.

(** A line of the export, followed by a line break, read back. *)
Lemma csv_read_line (row : list (option string)) (rest : string) :
  row <> [] ->
  Forall (fun v => readable (exported_text v)) row ->
  csv_read_record (csv_line row ++ String LF rest)
  = Some (map exported_text row, rest).
Proof.
  intros Hne Hall. destruct row as [|v row]; [now destruct Hne|].
  unfold csv_read_record. now rewrite read_from_csv_line.
Qed.

Lemma read_records_unlines (lines : list string) (records : list (list string)) :
  Forall2 (fun l r => forall rest,
             csv_read_record (l ++ String LF rest) = Some (r, rest))
          lines records ->
  forall fuel, (List.length lines <= fuel)%nat ->
    read_records fuel (unlines lines) = Some records.
Proof.
  induction 1 as [|l r lines records Hl Hrest IH]; intros fuel Hfuel.
  - destruct fuel; reflexivity.
  - cbn [List.length] in Hfuel. destruct fuel as [|fuel]; [lia|].
    cbn [unlines fold_right]. fold (unlines lines).
    assert (E : exists c s, l ++ String LF (unlines lines) = String c s).
    { destruct l as [|c l]; cbn [append]; eexists; eexists; reflexivity. }
    destruct E as (c & s & E).
    specialize (Hl (unlines lines)). rewrite E in *.
    cbn [read_records]. rewrite Hl. rewrite IH by lia. reflexivity.
Qed.

End ExportCommand.

(** X13.  [export] with a table name other than [workouts], [meals] and
    [goals] (the names are compared as they are, capitals included): the
    message goes to standard error, nothing is printed, no row is changed, and
    the program exits with status 1. *)
Theorem cmd_export_invalid_table
    (str_float : Q -> string) (table : string) (w : World) :
  ~ In table valid_tables ->
  cmd_export str_float table w
  = (Raise (SystemExit 1),
     {| storage := Some (ensure_db_schema (storage w));
        stdout := stdout w;
        stderr := (stderr w ++ [invalid_table])%list |})
  /\ exit_status (fst (cmd_export str_float table w)) = 1.
Proof.
  intros Hin.
  assert (E : cmd_export str_float table w
              = (Raise (SystemExit 1),
                 {| storage := Some (ensure_db_schema (storage w));
                    stdout := stdout w;
                    stderr := (stderr w ++ [invalid_table])%list |})).
  { unfold cmd_export.
    rewrite (cbind_ok _ _ w _ tt (eq_refl : connect w = (Ok tt, _))).
    destruct (existsb (String.eqb table) valid_tables) eqn:Ex.
    - apply valid_tables_spec in Ex. contradiction.
    - reflexivity. }
  split; [exact E|]. rewrite E. reflexivity.
Qed.

Lemma cmd_export_invalid_table_witness :
  cmd_export fmt0 "Workouts" (start_world (Some example_db))
  = (Raise (SystemExit 1),
     {| storage := Some example_db; stdout := [];
        stderr := [invalid_table] |})
  /\ exit_status (fst (cmd_export fmt0 "Workouts"
                         (start_world (Some example_db)))) = 1.
Proof.
  apply (cmd_export_invalid_table fmt0 "Workouts"
           (start_world (Some example_db))).
  intros [H|[H|[H|[]]]]; discriminate H.
Defined.

(** X14.  [export] of one of the three tables returns, changes no row, and
    prints the names of the columns joined by commas, then one line for each
    row of the table, every row once and in the order of the ids, with as many
    values as there are columns.  A table whose ids ascend in rowid order is
    printed in that order. *)
Theorem cmd_export_prints
    (str_float : Q -> string) (table : string) (w : World) :
  In table valid_tables ->
  let db := ensure_db_schema (storage w) in
  exists cols rows,
    select_table table db = Some (cols, rows)
    /\ Forall (fun row => List.length row = List.length cols) rows
    /\ cmd_export str_float table w
       = (Ok tt,
          {| storage := Some db;
             stdout :=
               (stdout w
                ++ String.concat "," cols
                   :: map (fun row => csv_line (map (str_cell str_float) row))
                          rows)%list;
             stderr := stderr w |})
    /\ (table = "workouts" ->
        exists sorted,
          Permutation (workouts db) sorted
          /\ StronglySorted (fun a b => w_id a <= w_id b) sorted
          /\ (StronglySorted (fun a b => w_id a <= w_id b) (workouts db) ->
              sorted = workouts db)
          /\ cols = workout_columns /\ rows = map workout_cells sorted)
    /\ (table = "meals" ->
        exists sorted,
          Permutation (meals db) sorted
          /\ StronglySorted (fun a b => m_id a <= m_id b) sorted
          /\ (StronglySorted (fun a b => m_id a <= m_id b) (meals db) ->
              sorted = meals db)
          /\ cols = meal_columns /\ rows = map meal_cells sorted)
    /\ (table = "goals" ->
        exists sorted,
          Permutation (goals db) sorted
          /\ StronglySorted (fun a b => g_id a <= g_id b) sorted
          /\ (StronglySorted (fun a b => g_id a <= g_id b) (goals db) ->
              sorted = goals db)
          /\ cols = goal_columns /\ rows = map goal_cells sorted).
Proof.
  intros Hin db.
  destruct (select_table_valid table db Hin) as (cols & rows & Hsel).
  exists cols, rows.
  split; [exact Hsel|].
  split; [apply (select_table_width table db cols rows Hsel)|].
  split; [now apply cmd_export_run|].
  assert (Hsort : forall (R : Type) (id_of : R -> Z) (t : list R),
            let leb := fun a b => id_of a <=? id_of b in
            Permutation t (order_by leb t)
            /\ StronglySorted (fun a b => id_of a <= id_of b) (order_by leb t)
            /\ (StronglySorted (fun a b => id_of a <= id_of b) t ->
                order_by leb t = t)).
  { intros R id_of t leb.
    split; [apply order_by_perm|]. split.
    - apply (StronglySorted_impl (fun a b => leb a b = true)).
      + intros a b. apply Z.leb_le.
      + apply order_by_sorted; unfold leb; intros; lia.
    - intros H. apply order_by_id.
      apply (StronglySorted_impl (fun a b => id_of a <= id_of b)); [|exact H].
      intros a b. apply Z.leb_le. }
  split; [|split].
  - intros ->. unfold select_table in Hsel. cbn [String.eqb Ascii.eqb Bool.eqb] in Hsel.
    injection Hsel as <- <-.
    exists (order_by (fun a b => w_id a <=? w_id b) (workouts db)).
    destruct (Hsort _ w_id (workouts db)) as (H1 & H2 & H3).
    repeat split; assumption.
  - intros ->. unfold select_table in Hsel. cbn [String.eqb Ascii.eqb Bool.eqb] in Hsel.
    injection Hsel as <- <-.
    exists (order_by (fun a b => m_id a <=? m_id b) (meals db)).
    destruct (Hsort _ m_id (meals db)) as (H1 & H2 & H3).
    repeat split; assumption.
  - intros ->. unfold select_table in Hsel. cbn [String.eqb Ascii.eqb Bool.eqb] in Hsel.
    injection Hsel as <- <-.
    exists (order_by (fun a b => g_id a <=? g_id b) (goals db)).
    destruct (Hsort _ g_id (goals db)) as (H1 & H2 & H3).
    repeat split; assumption.
Qed.

Lemma cmd_export_prints_witness :
  exists cols rows,
    select_table "goals" example_db = Some (cols, rows)
    /\ List.length rows = 4%nat
    /\ stdout (snd (cmd_export fmt0 "goals" (start_world (Some example_db))))
       = String.concat "," cols
         :: map (fun row => csv_line (map (str_cell fmt0) row)) rows.
Proof.
  destruct (cmd_export_prints fmt0 "goals" (start_world (Some example_db)))
    as (cols & rows & Hsel & _ & Hrun & _ & _ & Hgoals).
  - right. right. left. reflexivity.
  - exists cols, rows. split; [exact Hsel|]. split.
    + destruct (Hgoals eq_refl) as (sorted & Hperm & _ & _ & _ & ->).
      rewrite length_map. rewrite <- (Permutation_length Hperm).
      reflexivity.
    + rewrite Hrun. reflexivity.
Defined.

(** X15.  The export reads back: when no exported text holds a carriage
    return, an RFC 4180 reader run over everything [export] printed gives the
    names of the columns as the first record and then, for each row, the texts
    of its values, [NULL] as the empty text. *)
Theorem cmd_export_reads_back
    (str_float : Q -> string) (table : string) (db : DB)
    (cols : list string) (rows : list (list cell)) :
  In table valid_tables ->
  select_table table db = Some (cols, rows) ->
  no_CR str_float rows = true ->
  forall fuel, (List.length rows < fuel)%nat ->
    read_records fuel
      (unlines (stdout (snd (cmd_export str_float table
                               (start_world (Some db))))))
    = Some (cols :: map (map (cell_text str_float)) rows).
Proof.
  intros Hin Hsel Hcr fuel Hfuel.
  rewrite (cmd_export_run str_float table (start_world (Some db)) cols rows Hin Hsel).
  cbn [snd stdout start_world app].
  destruct (select_table_width table db cols rows Hsel)
    as (Hwidth & Hhead & Hcols & Hne).
  apply read_records_unlines; [|cbn [List.length]; rewrite length_map; lia].
  constructor.
  - intros rest. rewrite <- Hhead.
    rewrite csv_read_line; [|destruct cols; [now destruct Hne|discriminate]|exact Hcols].
    rewrite map_map. cbn [exported_text]. now rewrite map_id.
  - apply no_CR_readable in Hcr. clear Hfuel Hsel.
    induction rows as [|row rows IH]; cbn [map]; constructor.
    + intros rest.
      inversion Hwidth as [|? ? Hlen _]; subst.
      inversion Hcr as [|? ? Hrow _]; subst.
      rewrite csv_read_line.
      * now rewrite map_map.
      * destruct row; [|discriminate]. destruct cols; [now destruct Hne|discriminate].
      * apply Forall_map. exact Hrow.
    + inversion Hwidth; inversion Hcr; subst. apply IH; assumption.
Qed.

Lemma cmd_export_reads_back_witness :
  let str_float := fun q => (fmt0 q ++ ".0")%string in
  exists cols rows,
    select_table "workouts" example_db = Some (cols, rows)
    /\ read_records 3
         (unlines (stdout (snd (cmd_export str_float "workouts"
                                  (start_world (Some example_db))))))
       = Some (cols :: map (map (cell_text str_float)) rows).
Proof.
  intros str_float.
  destruct (select_table "workouts" example_db) as [[cols rows]|] eqn:Hsel;
    [|discriminate Hsel].
  exists cols, rows. split; [reflexivity|].
  assert (Hrows : rows = snd (workout_columns,
                              map workout_cells
                                (order_by (fun a b => w_id a <=? w_id b)
                                          (workouts example_db))))
    by (injection Hsel as _ <-; reflexivity).
  apply (cmd_export_reads_back str_float "workouts" example_db cols rows).
  - left. reflexivity.
  - exact Hsel.
  - rewrite Hrows. vm_compute. reflexivity.
  - rewrite Hrows. vm_compute. lia.
Defined.

(** ** [init] run again *)

Section Init.

Lemma cmd_init_run (clk : Clock) (db_path : string) (name_arg : option string)
      (w : World) (p : Profile) :
  let db := snd (seed_defaults clk name_arg (ensure_db_schema (storage w))) in
  get_profile clk db = (Ok p, db) ->
  cmd_init clk db_path name_arg w
  = (Ok tt,
     {| storage := Some db;
        stdout :=
          (stdout w
           ++ [("Initialized plan for " ++ fstr (name p) ++ " starting "
                ++ fstr (start_date p) ++ ". DB: " ++ db_path)%string])%list;
        stderr := stderr w |}).
Proof.
  intros db Hp. unfold cmd_init.
  rewrite (cbind_ok _ _ w _ tt (eq_refl : connect w = (Ok tt, _))).
  assert (Hseed : seed_defaults clk name_arg (ensure_db_schema (storage w))
                  = (Ok tt, db)).
  { unfold db. now rewrite seed_defaults_run. }
  unfold cbind at 1, on_conn at 1. cbn [storage stdout stderr].
  rewrite Hseed.
  rewrite (cbind_ok _ _ _ _ _ (on_conn_read _ _ _ _ _ Hp)).
  reflexivity.
Qed.

(** Once a row with id 1 is there, the profile read does not look at the
    clock. *)
Lemma get_profile_seeded (clk clk' : Clock) (db : DB) :
  seeded db -> get_profile clk' db = get_profile clk db.
Proof.
  intros (Hp & _). rewrite !get_profile_run.
  destruct (filter (fun r => p_id r =? 1) (profile db)); [now destruct Hp|].
  reflexivity.
Qed.

End Init.

(** X16.  [init] returns and prints one line, on any database and with or
    without a name.  Running it again, on any later day and with any other
    name, changes nothing in the database and prints the same line again: the
    name and the start date of the first run stay.  On a file without tables
    the line names the given name, or You, and today. *)
Theorem cmd_init_again
    (clk1 clk2 : Clock) (db_path : string) (name1 name2 : option string)
    (w : World) :
  exists db line,
    cmd_init clk1 db_path name1 w
    = (Ok tt,
       {| storage := Some db; stdout := (stdout w ++ [line])%list;
          stderr := stderr w |})
    /\ cmd_init clk2 db_path name2 (snd (cmd_init clk1 db_path name1 w))
       = (Ok tt,
          {| storage := Some db; stdout := (stdout w ++ [line; line])%list;
             stderr := stderr w |})
    /\ (storage w = None ->
        line = "Initialized plan for " ++ name_or_You name1 ++ " starting "
               ++ iso_today clk1 ++ ". DB: " ++ db_path
        /\ profile db = [ {| p_id := 1; p_name := Some (name_or_You name1);
                             p_start_date := Some (iso_today clk1) |} ]
        /\ plan_workouts db = seeded_plan
        /\ workouts db = [] /\ meals db = []).
Proof.
  set (db := snd (seed_defaults clk1 name1 (ensure_db_schema (storage w)))).
  pose proof (get_profile_run clk1 db) as Hp.
  match type of Hp with _ = (Ok ?v, _) => set (p := v) in Hp end.
  pose proof (cmd_init_run clk1 db_path name1 w p Hp) as Hrun1.
  fold db in Hrun1.
  exists db. eexists. split; [exact Hrun1|]. split.
  - rewrite Hrun1. cbn [snd].
    assert (Hseeded : seeded db) by apply seed_defaults_seeded.
    assert (Hfix : snd (seed_defaults clk2 name2 db) = db)
      by now apply seed_defaults_fixed.
    rewrite (cmd_init_run clk2 db_path name2 _ p).
    + cbn [storage stdout stderr ensure_db_schema]. rewrite Hfix.
      rewrite <- app_assoc. reflexivity.
    + cbn [storage ensure_db_schema]. rewrite Hfix.
      rewrite (get_profile_seeded clk1 clk2 db Hseeded). exact Hp.
  - intros Hst. unfold p, db. rewrite Hst. cbn [ensure_db_schema].
    rewrite seed_defaults_run. cbn [snd profile plan_workouts workouts meals
      empty_db filter app p_id Z.eqb Pos.eqb name start_date p_name
      p_start_date fstr].
    repeat split; reflexivity.
Qed.

(** ** A goal set beside the others *)

Section GoalFrame.

Lemma filter_other_key (t : list goal_row) (key other : string) (v : Q)
      (u now : string) :
  other <> key ->
  filter (has_key other) (upsert_goal t key v u now)
  = filter (has_key other) t.
Proof.
  intros Hne.
  assert (Hk : forall k, String.eqb k other = true -> String.eqb k key = false).
  { intros k E. apply String.eqb_eq in E. subst k.
    now apply String.eqb_neq. }
  unfold upsert_goal. destruct (existsb (has_key key) t).
  - induction t as [|r t IH]; cbn [map filter]; [reflexivity|].
    destruct (has_key key r) eqn:E1.
    + assert (Ho : has_key other r = false).
      { unfold has_key in *.
        destruct (String.eqb (g_key r) other) eqn:E2; [|reflexivity].
        rewrite (Hk _ E2) in E1. discriminate. }
      change (has_key other
                {| g_id := g_id r; g_key := g_key r; g_value := v;
                   g_unit := u; g_updated_at := now |})
        with (has_key other r).
      rewrite Ho. exact IH.
    + destruct (has_key other r); [f_equal|]; exact IH.
  - rewrite filter_app. cbn [filter]. unfold has_key at 2. cbn [g_key].
    destruct (String.eqb key other) eqn:E.
    + apply String.eqb_eq in E. now subst.
    + apply app_nil_r.
Qed.

Lemma upsert_goal_ids (t : list goal_row) (key : string) (v : Q)
      (u now : string) :
  map g_id (firstn (List.length t) (upsert_goal t key v u now)) = map g_id t
  /\ map g_key (firstn (List.length t) (upsert_goal t key v u now))
     = map g_key t.
Proof.
  unfold upsert_goal. destruct (existsb (has_key key) t).
  - match goal with |- context [map ?g t] => set (f := g) end.
    replace (List.length t) with (List.length (map f t)) by apply length_map.
    rewrite firstn_all, !map_map. unfold f.
    split; apply map_ext; intros r; destruct (has_key key r); reflexivity.
  - rewrite firstn_app, Nat.sub_diag, firstn_all. cbn [firstn].
    now rewrite app_nil_r.
Qed.

End GoalFrame.

(** X17.  [set_goal] on one key leaves the rest alone: the goal read under
    any other key is what it was, the four other tables are unchanged, the
    rows of the goals table keep their ids and keys in place, and at most one
    row is added. *)
Theorem set_goal_frame
    (clk : Clock) (key other : string) (value : Q) (unit_ : option string)
    (db : DB) :
  other <> key ->
  let db' := snd (set_goal clk key value unit_ db) in
  fst (get_goal other db') = fst (get_goal other db)
  /\ profile db' = profile db /\ workouts db' = workouts db
  /\ meals db' = meals db /\ plan_workouts db' = plan_workouts db
  /\ map g_id (firstn (List.length (goals db)) (goals db')) = map g_id (goals db)
  /\ map g_key (firstn (List.length (goals db)) (goals db'))
     = map g_key (goals db)
  /\ (List.length (goals db) <= List.length (goals db')
      <= List.length (goals db) + 1)%nat.
Proof.
  intros Hne db'. unfold db'. rewrite set_goal_run. cbn [snd].
  rewrite !get_goal_run. cbn [fst goals set_goals profile workouts meals
    plan_workouts].
  rewrite (filter_other_key _ _ _ _ _ _ Hne).
  split; [reflexivity|]. repeat (split; [reflexivity|]).
  split; [apply upsert_goal_ids|]. split; [apply upsert_goal_ids|].
  unfold upsert_goal. destruct (existsb (has_key key) (goals db)).
  - rewrite length_map. lia.
  - rewrite length_app. cbn [List.length]. lia.
Qed.

Lemma set_goal_frame_witness :
  let db' := snd (set_goal example_clock "daily_calories" 2000 None example_db) in
  fst (get_goal "daily_protein_g" db') = fst (get_goal "daily_protein_g" example_db)
  /\ workouts db' = workouts example_db
  /\ meals db' = meals example_db.
Proof.
  destruct (set_goal_frame example_clock "daily_calories" "daily_protein_g"
              2000 None example_db) as (H1 & _ & H2 & H3 & _).
  - discriminate.
  - exact (conj H1 (conj H2 H3)).
Defined.

(** ** The width of the bar *)

Section BarWidth.

Lemma length_replicate (n : nat) (c : ascii) :
  String.length (replicate n c) = n.
Proof.
  induction n as [|n IH]; cbn [replicate String.length];
    [reflexivity|now rewrite IH].
Qed.

Lemma length_append (s t : string) :
  String.length (s ++ t) = (String.length s + String.length t)%nat.
Proof.
  induction s as [|c s IH]; cbn [append String.length Nat.add];
    [reflexivity|now rewrite IH].
Qed.

(** [int(ratio * width)] for a ratio between 0 and 1. *)
Lemma py_int_ratio (r : Q) (width : Z) :
  (0 <= r)%Q -> (r <= 1)%Q -> 0 <= width ->
  0 <= py_int (r * inject_Z width) <= width
  /\ ((r < 1)%Q -> 0 < width -> py_int (r * inject_Z width) < width).
Proof.
  destruct r as [n d]. unfold Qle, Qlt, py_int.
  cbn [Qnum Qden Qmult inject_Z]. rewrite Pos.mul_1_r.
  intros H0 H1 Hw.
  assert (Hn : 0 <= n) by lia. assert (Hd : n <= Zpos d) by lia.
  rewrite Z.quot_div_nonneg by nia.
  split.
  - split; [apply Z.div_pos; nia|].
    apply Z.div_le_upper_bound; nia.
  - intros Hlt Hpos. apply Z.div_lt_upper_bound; nia.
Qed.

Lemma bar_length (filled width : Z) :
  0 <= filled <= width ->
  String.length (str_repeat "#" filled ++ str_repeat "-" (width - filled))
  = Z.to_nat width.
Proof.
  intros H. unfold str_repeat. rewrite length_append, !length_replicate. lia.
Qed.

End BarWidth.

(** X18.  For a width that is not negative (24 in every call), the bar of
    [print_progress] has exactly that many characters: the filled ones first,
    then dashes; and the number of filled ones is between 0 and the width.
    For a positive width the bar is full exactly when the goal is positive
    and the current value has reached it. *)
Theorem progress_bar_width (current goal : Q) (width : Z) :
  0 <= width ->
  exists p,
    progress current goal width = Ok p
    /\ 0 <= pr_filled p <= width
    /\ pr_bar p
       = str_repeat "#" (pr_filled p) ++ str_repeat "-" (width - pr_filled p)
    /\ String.length (pr_bar p) = Z.to_nat width
    /\ (0 < width ->
        (pr_filled p = width <-> (0 < goal)%Q /\ (goal <= current)%Q)).
Proof.
  intros Hw. destruct (Qlt_le_dec 0 goal) as [Hg|Hg].
  - pose proof (progress_goal_pos current goal width Hg) as E. cbv zeta in E.
    eexists. split; [exact E|]. cbn [pr_filled pr_bar].
    set (q := (py_max 0 current / goal)%Q).
    assert (Hq : (0 <= q)%Q)
      by (apply Qdiv_nonneg; [apply py_max_0_nonneg|exact Hg]).
    destruct (py_min_1_range q Hq) as [Hr0 Hr1].
    destruct (py_int_ratio (py_min 1 q) width Hr0 Hr1 Hw) as [Hb Hlt].
    split; [exact Hb|]. split; [reflexivity|].
    split; [now apply bar_length|].
    intros Hpos. split.
    + intros Hfull. split; [exact Hg|].
      destruct (Qlt_le_dec current goal) as [Hc|Hc]; [exfalso|exact Hc].
      assert (Hq1 : (q < 1)%Q).
      { unfold q. apply Qlt_shift_div_r; [exact Hg|]. rewrite Qmult_1_l.
        unfold py_max. destruct (Qltb 0 current); [exact Hc|exact Hg]. }
      assert (Hmin : py_min 1 q = q).
      { unfold py_min. apply Qltb_true in Hq1. now rewrite Hq1. }
      rewrite Hmin in Hlt, Hfull. specialize (Hlt Hq1 Hpos). lia.
    + intros [_ Hc].
      assert (Hcur : py_max 0 current = current).
      { apply py_max_0_pos. eapply Qlt_le_trans; [exact Hg|exact Hc]. }
      assert (Hq1 : (1 <= q)%Q).
      { unfold q. rewrite Hcur. apply Qle_shift_div_l; [exact Hg|].
        now rewrite Qmult_1_l. }
      assert (Hmin : py_min 1 q = 1%Q).
      { unfold py_min. apply Qltb_false in Hq1. now rewrite Hq1. }
      rewrite Hmin. apply py_int_width.
  - rewrite (progress_goal_nonpos current goal width Hg).
    eexists. split; [reflexivity|]. cbn [pr_filled pr_bar].
    split; [lia|]. split; [reflexivity|].
    split; [apply bar_length; lia|].
    intros Hpos. split.
    + intros H0. lia.
    + intros [Hg' _]. exfalso. apply (Qlt_not_le _ _ Hg' Hg).
Qed.

Lemma progress_bar_width_witness :
  exists p,
    progress 45 150 24 = Ok p
    /\ 0 <= pr_filled p <= 24
    /\ pr_bar p
       = str_repeat "#" (pr_filled p) ++ str_repeat "-" (24 - pr_filled p)
    /\ String.length (pr_bar p) = Z.to_nat 24
    /\ (0 < 24 ->
        (pr_filled p = 24 <-> (0 < 150)%Q /\ (150 <= 45)%Q)).
Proof.
  apply (progress_bar_width 45 150 24). lia.
Defined.

(** ** What every session keeps *)

Section Sessions.

Lemma sorted_snoc (ids : list Z) (z : Z) :
  StronglySorted Z.lt ids -> Forall (fun i => i < z) ids ->
  StronglySorted Z.lt (ids ++ [z]).
Proof.
  induction 1 as [|i ids Hs IH Hi]; intros Hall; cbn [app].
  - constructor; constructor.
  - inversion Hall as [|? ? Hiz Hrest]; subst.
    constructor; [now apply IH|].
    apply Forall_app. split; [exact Hi|]. constructor; [exact Hiz|constructor].
Qed.

(** A row appended under a new rowid keeps the ids ascending. *)
Lemma sorted_next_rowid {R : Type} (id_of : R -> Z) (rows : list R) (r : R) :
  id_of r = next_rowid (map id_of rows) ->
  StronglySorted Z.lt (map id_of rows) ->
  StronglySorted Z.lt (map id_of (rows ++ [r])).
Proof.
  intros Hid Hs. rewrite map_app. cbn [map]. apply sorted_snoc; [exact Hs|].
  apply Forall_map. rewrite Hid. apply next_rowid_fresh.
Qed.

Lemma insert_or_ignore_sorted (t : list goal_row) (k : string) (v : Q)
      (u now : string) :
  StronglySorted Z.lt (map g_id t) ->
  StronglySorted Z.lt (map g_id (insert_or_ignore_goal t k v u now)).
Proof.
  intros H. unfold insert_or_ignore_goal.
  destruct (existsb (has_key k) t); [exact H|].
  now apply sorted_next_rowid.
Qed.

Lemma seed_goals_sorted (now : string) (t : list goal_row) :
  StronglySorted Z.lt (map g_id t) ->
  StronglySorted Z.lt (map g_id (seed_goals now t)).
Proof.
  intros H. unfold seed_goals, DEFAULT_GOALS. cbn [fold_left].
  now repeat apply insert_or_ignore_sorted.
Qed.

Lemma upsert_goal_sorted (t : list goal_row) (key : string) (v : Q)
      (u now : string) :
  StronglySorted Z.lt (map g_id t) ->
  StronglySorted Z.lt (map g_id (upsert_goal t key v u now)).
Proof.
  intros H. unfold upsert_goal. destruct (existsb (has_key key) t).
  - rewrite map_map.
    erewrite map_ext; [exact H|].
    intros r. destruct (has_key key r); reflexivity.
  - now apply sorted_next_rowid.
Qed.

Lemma well_formed_empty : well_formed empty_db.
Proof.
  unfold well_formed, schema_ok, profile_dated, iso_dated. cbn [empty_db
    profile goals workouts meals plan_workouts map List.length].
  split; [split; [lia|split; [intros r Hr; destruct Hr|constructor]]|].
  split; [constructor|]. split; [constructor|]. split; [constructor|].
  split; [now left|].
  split; [constructor|]. split; constructor.
Qed.

Lemma well_formed_ensure (st : Storage) :
  match st with Some db => well_formed db | None => True end ->
  well_formed (ensure_db_schema st).
Proof. destruct st; [tauto|intros _; apply well_formed_empty]. Qed.

Lemma seed_defaults_well_formed (clk : Clock) (name_arg : option string)
      (db : DB) :
  valid (clock_today clk) -> well_formed db ->
  well_formed (snd (seed_defaults clk name_arg db)).
Proof.
  intros Hclk ((Hlen & Hid & Hkeys) & Hpd & Hw & Hm & Hplan & Sw & Sm & Sg).
  rewrite seed_defaults_run. cbn [snd]. unfold well_formed, schema_ok,
    profile_dated. cbn [profile goals workouts meals plan_workouts].
  assert (Hprof : filter (fun r => p_id r =? 1) (profile db) = [] ->
                  profile db = []).
  { destruct (profile db) as [|r l]; [reflexivity|].
    cbn [filter]. rewrite (Hid r) by now left. discriminate. }
  split; [split; [|split]|split; [|split; [|split; [|split; [|split; [|split]]]]]].
  - destruct (filter (fun r => p_id r =? 1) (profile db)); [|exact Hlen].
    rewrite Hprof by reflexivity. cbn [app List.length]. lia.
  - destruct (filter (fun r => p_id r =? 1) (profile db)); [|exact Hid].
    intros r Hr. apply in_app_or in Hr. destruct Hr as [Hr|[<-|[]]].
    + now apply Hid.
    + reflexivity.
  - now apply seed_goals_spec.
  - destruct (filter (fun r => p_id r =? 1) (profile db)); [|exact Hpd].
    apply Forall_app. split; [exact Hpd|].
    constructor; [|constructor].
    exists (clock_today clk). split; [exact Hclk|reflexivity].
  - exact Hw.
  - exact Hm.
  - destruct (plan_workouts db); [now right|exact Hplan].
  - exact Sw.
  - exact Sm.
  - now apply seed_goals_sorted.
Qed.

Lemma set_goal_well_formed (clk : Clock) (key : string) (v : Q)
      (u : option string) (db : DB) :
  well_formed db -> well_formed (snd (set_goal clk key v u db)).
Proof.
  intros ((Hlen & Hid & Hkeys) & Hpd & Hw & Hm & Hplan & Sw & Sm & Sg).
  rewrite set_goal_run. cbn [snd]. unfold well_formed, schema_ok,
    profile_dated. cbn [profile goals workouts meals plan_workouts set_goals].
  split; [split; [exact Hlen|split; [exact Hid|now apply upsert_goal_NoDup]]|].
  split; [exact Hpd|]. split; [exact Hw|]. split; [exact Hm|].
  split; [exact Hplan|]. split; [exact Sw|]. split; [exact Sm|].
  now apply upsert_goal_sorted.
Qed.

Lemma add_workout_well_formed (clk : Clock) (x : date) (ty : string)
      (dur dist : option Q) (sets reps : option Z) (wt : option Q)
      (notes : option string) (db : DB) :
  valid x -> well_formed db ->
  well_formed
    (snd (add_workout clk (isoformat x) ty dur dist sets reps wt notes db)).
Proof.
  intros Hx (Hs & Hpd & Hw & Hm & Hplan & Sw & Sm & Sg).
  unfold add_workout, execute. cbn [snd]. unfold well_formed, schema_ok,
    profile_dated in *. cbn [profile goals workouts meals plan_workouts
    set_workouts].
  split; [exact Hs|]. split; [exact Hpd|].
  split; [apply iso_dated_app; [exact Hw|now exists x]|].
  split; [exact Hm|]. split; [exact Hplan|].
  split; [now apply sorted_next_rowid|]. split; assumption.
Qed.

Lemma add_meal_well_formed (clk : Clock) (x : date) (ty : string)
      (cal prot carbs fat : option Q) (items : option string) (db : DB) :
  valid x -> well_formed db ->
  well_formed (snd (add_meal clk (isoformat x) ty cal prot carbs fat items db)).
Proof.
  intros Hx (Hs & Hpd & Hw & Hm & Hplan & Sw & Sm & Sg).
  unfold add_meal, execute. cbn [snd]. unfold well_formed, schema_ok,
    profile_dated in *. cbn [profile goals workouts meals plan_workouts
    set_meals].
  split; [exact Hs|]. split; [exact Hpd|]. split; [exact Hw|].
  split; [apply iso_dated_app; [exact Hm|now exists x]|].
  split; [exact Hplan|]. split; [exact Sw|].
  split; [now apply sorted_next_rowid|exact Sg].
Qed.

(** What [parse_date] leaves of the process: it returns an ISO date and
    touches nothing, or it raises and the database is as it was. *)
Lemma parse_date_cases (clk : Clock) (value : option string) (w : World) :
  valid (clock_today clk) ->
  (exists x, valid x /\ parse_date clk value w = (Ok (isoformat x), w))
  \/ (exists e w', parse_date clk value w = (Raise e, w')
                   /\ storage w' = storage w).
Proof.
  intros Hclk.
  destruct (parse_date clk value w) as [[s|e] w'] eqn:E.
  - left. destruct (parse_date_iso clk value w w' s Hclk E) as (-> & x & Hx & ->).
    now exists x.
  - right. exists e, w'. split; [reflexivity|].
    unfold parse_date in E.
    destruct value as [[|c v]|]; try discriminate E.
    destruct (strptime_ymd (String c v)) as [x|e']; [discriminate E|].
    destruct e'; injection E as _ <-; reflexivity.
Qed.

Lemma cmd_set_goal_run (clk : Clock) (key : string) (v : Q)
      (u : option string) (w : World) :
  exists r,
    cmd_set_goal clk key v u w
    = (Ok r,
       {| storage :=
            Some (snd (set_goal clk key v u (ensure_db_schema (storage w))));
          stdout := stdout w; stderr := stderr w |}).
Proof.
  unfold cmd_set_goal.
  rewrite (cbind_ok _ _ w _ tt (eq_refl : connect w = (Ok tt, _))).
  unfold cbind at 1, on_conn at 1. cbn [storage stdout stderr].
  rewrite set_goal_run. cbn [snd].
  rewrite (on_conn_read _ _ _ _ _ (get_goal_run _ _)).
  eexists. reflexivity.
Qed.

Lemma run_func_well_formed (db_path : string) (str_float : Q -> string)
      (clk : Clock) (i : Invocation) (st : Storage) :
  valid (clock_today clk) ->
  well_formed (ensure_db_schema st) ->
  exists db',
    storage (snd (run_func db_path str_float clk i (start_world st))) = Some db'
    /\ well_formed db'.
Proof.
  intros Hclk Hwf. set (w := start_world st).
  assert (Hst : storage w = st) by reflexivity.
  destruct i as [n|k v u|args|args| | | |table]; cbn [run_func].
  - pose proof (get_profile_run clk
      (snd (seed_defaults clk n (ensure_db_schema (storage w))))) as Hp.
    rewrite (cmd_init_run clk db_path n w _ Hp). cbn [snd storage].
    eexists. split; [reflexivity|]. now apply seed_defaults_well_formed.
  - destruct (cmd_set_goal_run clk k v u w) as (r & E).
    rewrite (cbind_ok _ _ _ _ _ E). unfold cret. cbn [snd storage].
    eexists. split; [reflexivity|]. now apply set_goal_well_formed.
  - unfold cmd_add_workout.
    rewrite (cbind_ok _ _ w _ tt (eq_refl : connect w = (Ok tt, _))).
    match goal with |- context [cbind (parse_date clk ?v) _ ?w0] =>
      destruct (parse_date_cases clk v w0 Hclk)
        as [(x & Hx & E)|(e & w' & E & Hw')] end.
    + rewrite (cbind_ok _ _ _ _ _ E).
      unfold cbind at 1, on_conn at 1. cbn [storage stdout stderr].
      match goal with |- context [add_workout ?a ?b ?c ?d ?e ?f ?g ?h ?i ?j] =>
        pose proof (add_workout_well_formed a x c d e f g h i j Hx Hwf) as H;
        destruct (add_workout a b c d e f g h i j) as [[[]|e'] db'] eqn:Ea
      end.
      * cbn [snd] in H. cbn [print snd storage].
        eexists. split; [reflexivity|exact H].
      * cbn [snd] in *. eexists. split; [reflexivity|exact H].
    + rewrite (cbind_raise _ _ _ _ _ E). cbn [snd]. rewrite Hw'.
      cbn [storage]. eexists. split; [reflexivity|exact Hwf].
  - unfold cmd_add_meal.
    rewrite (cbind_ok _ _ w _ tt (eq_refl : connect w = (Ok tt, _))).
    match goal with |- context [cbind (parse_date clk ?v) _ ?w0] =>
      destruct (parse_date_cases clk v w0 Hclk)
        as [(x & Hx & E)|(e & w' & E & Hw')] end.
    + rewrite (cbind_ok _ _ _ _ _ E).
      unfold cbind at 1, on_conn at 1. cbn [storage stdout stderr].
      match goal with |- context [add_meal ?a ?b ?c ?d ?e ?f ?g ?h ?j] =>
        pose proof (add_meal_well_formed a x c d e f g h j Hx Hwf) as H;
        destruct (add_meal a b c d e f g h j) as [[[]|e'] db'] eqn:Ea
      end.
      * cbn [snd] in H. cbn [print snd storage].
        eexists. split; [reflexivity|exact H].
      * cbn [snd] in *. eexists. split; [reflexivity|exact H].
    + rewrite (cbind_raise _ _ _ _ _ E). cbn [snd]. rewrite Hw'.
      cbn [storage]. eexists. split; [reflexivity|exact Hwf].
  - rewrite cmd_today_storage. eexists. split; [reflexivity|exact Hwf].
  - rewrite cmd_week_storage. eexists. split; [reflexivity|exact Hwf].
  - rewrite cmd_plan_storage. eexists. split; [reflexivity|exact Hwf].
  - rewrite cmd_export_storage. eexists. split; [reflexivity|exact Hwf].
Qed.

End Sessions.

(** X19.  Whatever is run, in whatever order and with whatever arguments,
    starting from a file without tables or from a database that is well
    formed: the database stays well formed.  There is at most one profile
    row, with id 1 and the ISO text of a date as start date; no two goals
    share a key; every workout and every meal is dated by the ISO text of a
    calendar date; the plan is empty or the seed plan; and in every table the
    ids ascend in rowid order.  After the first invocation, whether it
    returned or failed, the tables exist. *)
Theorem session_well_formed
    (db_path : string) (str_float : Q -> string)
    (session : list (Clock * Invocation)) (st : Storage) :
  Forall (fun ci => valid (clock_today (fst ci))) session ->
  well_formed (ensure_db_schema st) ->
  well_formed (ensure_db_schema (run_session db_path str_float session st))
  /\ (session <> [] -> run_session db_path str_float session st <> None).
Proof.
  intros Hclk. revert st.
  induction Hclk as [|[clk i] session Hc _ IH]; intros st Hwf.
  - split; [exact Hwf|]. intros H. now destruct H.
  - cbn [run_session].
    destruct (run_func_well_formed db_path str_float clk i st Hc Hwf)
      as (db' & Hst & Hwf').
    rewrite Hst. destruct (IH (Some db') Hwf') as [IH1 IH2].
    split; [exact IH1|]. intros _.
    destruct session as [|ci session]; [discriminate|].
    apply IH2. discriminate.
Qed.

Lemma session_well_formed_witness :
  well_formed
    (ensure_db_schema (run_session "fitness.db" fmt0 example_session None))
  /\ (example_session <> [] ->
      run_session "fitness.db" fmt0 example_session None <> None).
Proof.
  apply (session_well_formed "fitness.db" fmt0 example_session None).
  - unfold example_session.
    repeat (constructor; [vm_compute; reflexivity|]). constructor.
  - apply well_formed_empty.
Defined.

(** ** The day within the week *)

Section DayInWeek.

(** A total over the rows that a condition selects is at most the total over
    the rows that a weaker condition selects, when no value is negative. *)
Lemma query_total_le {R : Type} (P P' : R -> bool) (f : R -> option Q)
      (rows : list R) :
  (forall r, In r rows -> P r = true -> P' r = true) ->
  Forall (fun r => forall v, f r = Some v -> (0 <= v)%Q) rows ->
  (coalesce (sql_sum (map f (filter P rows))) 0
   <= coalesce (sql_sum (map f (filter P' rows))) 0)%Q.
Proof.
  intros Himp Hpos. rewrite !sql_sum_filter.
  assert (Hfold : forall rows',
    Forall (fun r => forall v, f r = Some v -> (0 <= v)%Q) rows' ->
    (0 <= fold_right (fun r acc => if P' r then coalesce (f r) 0 + acc else acc)
                     0 rows')%Q).
  { induction 1 as [|r rows' Hr _ IH]; cbn [fold_right]; [apply Qle_refl|].
    destruct (P' r); [|exact IH].
    assert (0 <= coalesce (f r) 0)%Q
      by (destruct (f r) as [v|]; cbn [coalesce]; [now apply Hr|apply Qle_refl]).
    replace 0%Q with (0 + 0)%Q by reflexivity. now apply Qplus_le_compat. }
  induction Hpos as [|r rows Hr Hrows IH]; cbn [fold_right]; [apply Qle_refl|].
  assert (Hc : (0 <= coalesce (f r) 0)%Q)
    by (destruct (f r) as [v|]; cbn [coalesce]; [now apply Hr|apply Qle_refl]).
  assert (IH' := IH (fun r' Hin => Himp r' (or_intror Hin))).
  destruct (P r) eqn:EP.
  - rewrite (Himp r (or_introl eq_refl) EP).
    apply Qplus_le_compat; [apply Qle_refl|exact IH'].
  - destruct (P' r); [|exact IH'].
    eapply Qle_trans; [exact IH'|].
    match goal with |- (?x <= _)%Q =>
      apply (Qle_trans _ (0 + x)%Q); [rewrite Qplus_0_l; apply Qle_refl|]
    end.
    apply Qplus_le_compat; [exact Hc|apply Qle_refl].
Qed.

Lemma today_in_week (d ws we : date) (s : string) :
  valid d -> valid ws -> valid we ->
  toordinal ws = toordinal d - weekday d ->
  toordinal we = toordinal ws + 6 ->
  String.eqb s (isoformat d) = true ->
  text_between s (isoformat ws) (isoformat we) = true.
Proof.
  intros Hd Hws Hwe Hs He E. apply String.eqb_eq in E. subst s.
  rewrite text_between_in_week by assumption.
  unfold dated_in_week. rewrite fromisoformat_isoformat by assumption.
  unfold in_week, days_between.
  assert (0 <= weekday d <= 6) by (unfold weekday; dlia).
  apply andb_true_iff. rewrite !Z.leb_le. lia.
Qed.

End DayInWeek.

(** X20.  The two reports agree, and the day lies within the week.  On any
    day up to 9999-12-26 the weekly exercise minutes that [today] shows are
    those that [week] shows; and when no stored value is negative, the
    minutes, the calories and the protein of the day are at most those of the
    week. *)
Theorem day_totals_within_week (clk : Clock) (db : DB) :
  valid (clock_today clk) ->
  Datetime.le (clock_today clk) (mkdate 9999 12 26) ->
  exists (t : Totals) (s : WeekSums),
    sum_today (iso_today clk) db = (Ok t, db)
    /\ cmd_week_sums clk db = (Ok s, db)
    /\ t_week_exercise_min t = week_minutes s
    /\ (Forall (fun r => forall v, w_duration_min r = Some v -> (0 <= v)%Q)
               (workouts db) ->
        (t_exercise_min t <= week_minutes s)%Q)
    /\ (Forall (fun r => forall v, m_calories r = Some v -> (0 <= v)%Q)
               (meals db) ->
        (t_calories t <= week_calories s)%Q)
    /\ (Forall (fun r => forall v, m_protein_g r = Some v -> (0 <= v)%Q)
               (meals db) ->
        (t_protein t <= week_protein s)%Q).
Proof.
  intros Hd Hle. unfold iso_today.
  destruct (iso_week_start_ok _ Hd) as (ws & Hws & Hv & Ho).
  destruct (week_end_ok _ ws Hd Hv Ho Hle) as (we & Hwe & Hvwe & Hoe).
  destruct (sum_today_cases (isoformat (clock_today clk)))
    as [(lo & hi & Hrun & Hlo & Hhi)|(e & Hfail)].
  - rewrite fromisoformat_isoformat in Hlo by assumption. cbn [rbind] in Hlo.
    rewrite Hws in Hlo. injection Hlo as <-.
    rewrite Hwe in Hhi. injection Hhi as <-.
    eexists. eexists. split; [apply Hrun|].
    split; [apply (cmd_week_sums_run clk db ws we Hws Hwe)|].
    cbn [t_week_exercise_min week_minutes t_exercise_min t_calories
         week_calories t_protein week_protein].
    split; [reflexivity|].
    split; [|split]; intros Hpos; apply query_total_le; try exact Hpos;
      intros r _ E;
      apply (today_in_week (clock_today clk) ws we); assumption.
  - destruct (sum_today_run _ ws we db Hd Hws Hwe) as (t & Ht & _).
    rewrite Hfail in Ht. discriminate Ht.
Qed.

Lemma day_totals_within_week_witness :
  exists (t : Totals) (s : WeekSums),
    sum_today (iso_today example_clock) example_db = (Ok t, example_db)
    /\ cmd_week_sums example_clock example_db = (Ok s, example_db)
    /\ t_week_exercise_min t = week_minutes s.
Proof.
  destruct (day_totals_within_week example_clock example_db)
    as (t & s & H1 & H2 & H3 & _).
  - vm_compute. reflexivity.
  - vm_compute. discriminate.
  - exists t, s. exact (conj H1 (conj H2 H3)).
Defined.



(** ** Logged, then exported *)

Section LoggedThenExported.

Lemma sorted_ids_order {R : Type} (id_of : R -> Z) (rows : list R) :
  StronglySorted Z.lt (map id_of rows) ->
  order_by (fun a b => id_of a <=? id_of b) rows = rows.
Proof.
  intros H. apply order_by_id.
  induction rows as [|r rows IH]; [constructor|].
  cbn [map] in H. inversion H as [|? ? Hs Hall]; subst.
  constructor; [now apply IH|].
  apply Forall_forall. intros b Hb. apply Z.leb_le.
  rewrite Forall_forall in Hall.
  specialize (Hall (id_of b) (in_map id_of _ _ Hb)). lia.
Qed.

Lemma export_lines (str_float : Q -> string) (table : string) (db : DB)
      (cols : list string) (rows : list (list cell)) :
  In table valid_tables ->
  select_table table db = Some (cols, rows) ->
  stdout (snd (cmd_export str_float table (start_world (Some db))))
  = String.concat "," cols
    :: map (fun row => csv_line (map (str_cell str_float) row)) rows.
Proof.
  intros Hin Hsel.
  now rewrite (cmd_export_run str_float table (start_world (Some db))
                 cols rows Hin Hsel).
Qed.

End LoggedThenExported.

(** X22.  A workout that was logged is the last line of the next export.  On
    a table whose ids ascend in rowid order, [export workouts] after a
    successful [add-workout] prints what it printed before and then one more
    line: the values of the new row, each written as the export writes
    them. *)
Theorem export_after_add_workout
    (str_float : Q -> string) (clk : Clock) (args : WorkoutArgs) (db : DB)
    (s : string) :
  date_text clk (wa_date args) = Some s ->
  StronglySorted Z.lt (map w_id (workouts db)) ->
  let row :=
    {| w_id := next_rowid (map w_id (workouts db)); w_date := s;
       w_type := wa_type args; w_duration_min := wa_duration args;
       w_distance_km := wa_distance args; w_sets := wa_sets args;
       w_reps := wa_reps args; w_weight_kg := wa_weight args;
       w_notes := wa_notes args; w_created_at := now_iso clk |} in
  let after := storage (snd (cmd_add_workout clk args (start_world (Some db)))) in
  stdout (snd (cmd_export str_float "workouts" (start_world after)))
  = (stdout (snd (cmd_export str_float "workouts" (start_world (Some db))))
     ++ [csv_line (map (str_cell str_float) (workout_cells row))])%list.
Proof.
  intros Hs Hsorted row after.
  assert (Hafter : after = Some (set_workouts db (workouts db ++ [row]))).
  { unfold after, cmd_add_workout.
    rewrite (cbind_ok _ _ _ _ tt
               (eq_refl : connect (start_world (Some db)) = (Ok tt, _))).
    rewrite (cbind_ok _ _ _ _ _ (parse_date_accepts _ _ _ _ Hs)).
    reflexivity. }
  rewrite Hafter.
  assert (Hin : In "workouts" valid_tables) by (left; reflexivity).
  rewrite (export_lines str_float "workouts" _ _ _ Hin eq_refl).
  rewrite (export_lines str_float "workouts" db _ _ Hin eq_refl).
  cbn [workouts set_workouts].
  rewrite (sorted_ids_order w_id (workouts db) Hsorted).
  rewrite (sorted_ids_order w_id (workouts db ++ [row]));
    [|now apply sorted_next_rowid].
  rewrite !map_app. reflexivity.
Qed.

Lemma export_after_add_workout_witness :
  let args := example_workout_args (Some "2024-01-09") in
  let after :=
    storage (snd (cmd_add_workout example_clock args
                    (start_world (Some example_db)))) in
  stdout (snd (cmd_export fmt0 "workouts" (start_world after)))
  = (stdout (snd (cmd_export fmt0 "workouts" (start_world (Some example_db))))
     ++ ["3,2024-01-09,run,30,,,,,,2024-01-03T10:00:00Z"])%list.
Proof.
  intros args after. unfold after.
  rewrite (export_after_add_workout fmt0 example_clock args example_db
             "2024-01-09").
  - apply f_equal. vm_compute. reflexivity.
  - vm_compute. reflexivity.
  - assert (E : map w_id (workouts example_db) = [1; 2])
      by (vm_compute; reflexivity).
    rewrite E. repeat constructor.
Defined.
